(** * Byte-Explainer: the Transformer encoder of [model.py]

    A shallow embedding of [src/model.py].  The program is model-definition
    glue over PyTorch, so the embedding has two layers:

    - a small model of the PyTorch operations the source calls (tensors with
      their shapes, broadcasting, slicing, [view], [matmul], [softmax], ...),
      with the shape and index errors PyTorch raises;
    - the classes and functions of [model.py], written line by line over
      those operations.

    Floating-point numbers are idealised as real numbers ([R]); memory layout
    (strides, contiguity), dtypes and devices are not modelled.  The random number generator of
    PyTorch is an explicit stream of drawn tensors threaded through every
    constructor and every forward pass. *)

From Stdlib Require Import String.
From Stdlib Require Import List ZArith Lia Bool Arith.
From Stdlib Require Import QArith Qreals.
From Stdlib Require Import Reals Lra.
Import ListNotations.

Local Close Scope Q_scope.
Local Close Scope R_scope.
Local Open Scope nat_scope.
Local Open Scope list_scope.

(* ================================================================== *)
(** * Python exceptions and the evaluation monad *)

Inductive error : Type :=
| AssertionError (msg : string)   (* a failed [assert] *)
| ZeroDivisionError               (* Python [%] or [/] by zero *)
| TypeError_NoneType_not_callable (* calling [None] *)
| IndexError                      (* index out of range *)
| ValueError                      (* rejected argument value *)
| RuntimeError.                   (* PyTorch shape or size mismatch *)

Inductive result (A : Type) : Type :=
| Ok (a : A)
| Err (e : error).
Arguments Ok {A} a.
Arguments Err {A} e.

(** The state threaded through the program: the random generator, as the
    stream of the tensors it will draw (entry values by multi-index). *)
Definition rng := nat -> list nat -> R.

Definition M (A : Type) : Type := rng -> result (A * rng).

Definition ret {A} (a : A) : M A := fun s => Ok (a, s).

Definition raise {A} (e : error) : M A := fun _ => Err e.

Definition bind {A B} (m : M A) (f : A -> M B) : M B :=
  fun s => match m s with
           | Ok (a, s') => f a s'
           | Err e => Err e
           end.

Definition lift {A} (r : result A) : M A :=
  fun s => match r with Ok a => Ok (a, s) | Err e => Err e end.

Notation "x <- m ;; k" := (bind m (fun x => k))
  (at level 61, m at next level, right associativity).
Notation "' pat <- m ;; k" := (bind m (fun x => match x with pat => k end))
  (at level 61, pat pattern, m at next level, right associativity).

Definition rbind {A B} (r : result A) (f : A -> result B) : result B :=
  match r with Ok a => f a | Err e => Err e end.

Notation "x <-r m ;; k" := (rbind m (fun x => k))
  (at level 61, m at next level, right associativity).

(* ================================================================== *)
(** * Tensors *)

(** A tensor is its shape and its entries, read at a multi-index. *)
Record tensor (A : Type) : Type := mkT {
  shape : list nat;
  at_ : list nat -> A
}.
Arguments mkT {A} shape at_.
Arguments shape {A} t.
Arguments at_ {A} t idx.

Definition rtensor := tensor R.
Definition itensor := tensor Z.

Definition in_range (idx s : list nat) : Prop := Forall2 lt idx s.

Definition prod (s : list nat) : nat := fold_right Nat.mul 1 s.

Definition numel {A} (t : tensor A) : nat := prod (shape t).

(** All the multi-indices of a shape, in row-major order. *)
Fixpoint indices (s : list nat) : list (list nat) :=
  match s with
  | [] => [[]]
  | d :: s' => flat_map (fun i => map (cons i) (indices s')) (seq 0 d)
  end.

(** Row-major offset of a multi-index, and its inverse. *)
Fixpoint offset (s idx : list nat) : nat :=
  match s, idx with
  | _ :: s', i :: idx' => i * prod s' + offset s' idx'
  | _, _ => 0
  end.

Fixpoint unravel (s : list nat) (k : nat) : list nat :=
  match s with
  | [] => []
  | _ :: s' => k / prod s' :: unravel s' (k mod prod s')
  end.

(** Finite sums of reals: [rsum n f = f 0 + ... + f (n-1)]. *)
Fixpoint rsum (n : nat) (f : nat -> R) : R :=
  match n with
  | O => 0%R
  | S n' => (rsum n' f + f n')%R
  end.

(** Python's [t.shape[i]] with a non-negative [i]. *)
Definition shape_at {A} (t : tensor A) (i : nat) : result nat :=
  match nth_error (shape t) i with
  | Some d => Ok d
  | None => Err IndexError
  end.

(** Python's [t.shape[-1]]. *)
Definition shape_last {A} (t : tensor A) : result nat :=
  match rev (shape t) with
  | d :: _ => Ok d
  | [] => Err IndexError
  end.

(** ** Broadcasting *)

(** Broadcast of two shapes given innermost dimension first. *)
Fixpoint bc_rev (a b : list nat) : option (list nat) :=
  match a, b with
  | [], _ => Some b
  | _, [] => Some a
  | x :: a', y :: b' =>
      match bc_rev a' b' with
      | None => None
      | Some r =>
          if x =? y then Some (x :: r)
          else if x =? 1 then Some (y :: r)
          else if y =? 1 then Some (x :: r)
          else None
      end
  end.

Definition broadcast_shapes (s1 s2 : list nat) : option (list nat) :=
  option_map (@rev nat) (bc_rev (rev s1) (rev s2)).

(** The index at which an operand of shape [s] is read when the broadcast
    result is read at [idx]: the trailing [length s] positions of [idx],
    with 0 on the axes of size 1. *)
Definition bc_index (s idx : list nat) : list nat :=
  map (fun p => if fst p =? 1 then 0 else snd p)
      (combine s (skipn (length idx - length s) idx)).

Definition binop (f : R -> R -> R) (a b : rtensor) : result rtensor :=
  match broadcast_shapes (shape a) (shape b) with
  | Some s =>
      Ok (mkT s (fun idx => f (at_ a (bc_index (shape a) idx))
                              (at_ b (bc_index (shape b) idx))))
  | None => Err RuntimeError
  end.

Definition tadd := binop Rplus.
Definition tsub := binop Rminus.
Definition tmul := binop Rmult.
Definition tdiv := binop Rdiv.

Definition tmap {A B} (f : A -> B) (t : tensor A) : tensor B :=
  mkT (shape t) (fun idx => f (at_ t idx)).

(** ** Shape manipulation *)

Definition rank {A} (t : tensor A) : nat := length (shape t).

Definition insert_at {A} (d : nat) (x : A) (l : list A) : list A :=
  firstn d l ++ x :: skipn d l.

Definition remove_at {A} (d : nat) (l : list A) : list A :=
  firstn d l ++ skipn (S d) l.

(** A Python dimension argument, possibly negative, as a position. *)
Definition norm_dim (r : nat) (d : Z) : option nat :=
  if ((0 <=? d) && (d <? Z.of_nat r))%Z then Some (Z.to_nat d)
  else if ((- Z.of_nat r <=? d) && (d <? 0))%Z
       then Some (Z.to_nat (Z.of_nat r + d))
       else None.

(** [t.unsqueeze(d)] for a non-negative [d]. *)
Definition unsqueeze {A} (d : nat) (t : tensor A) : result (tensor A) :=
  if d <=? rank t
  then Ok (mkT (insert_at d 1 (shape t)) (fun idx => at_ t (remove_at d idx)))
  else Err IndexError.

Definition swap (i j : nat) (l : list nat) : list nat :=
  map (fun k => nth (if k =? i then j else if k =? j then i else k) l 0)
      (seq 0 (length l)).

(** [t.transpose(d1, d2)]. *)
Definition transpose {A} (d1 d2 : Z) (t : tensor A) : result (tensor A) :=
  match norm_dim (rank t) d1, norm_dim (rank t) d2 with
  | Some i, Some j =>
      Ok (mkT (swap i j (shape t)) (fun idx => at_ t (swap i j idx)))
  | _, _ => Err IndexError
  end.

(** The sizes an [expand] produces on the existing axes: [-1] keeps the
    axis, another size must equal it unless the axis has size 1. *)
Fixpoint expand_dims (sizes : list Z) (s : list nat) : option (list nat) :=
  match sizes, s with
  | [], [] => Some []
  | z :: sizes', d :: s' =>
      match expand_dims sizes' s' with
      | None => None
      | Some r =>
          if (z =? -1)%Z then Some (d :: r)
          else if (z <? 0)%Z then None
          else if Z.to_nat z =? d then Some (d :: r)
          else if d =? 1 then Some (Z.to_nat z :: r)
          else None
      end
  | _, _ => None
  end.

(** [t.expand(sizes)]: new leading axes may not be [-1]. *)
Definition expand {A} (sizes : list Z) (t : tensor A) : result (tensor A) :=
  let pad := length sizes - rank t in
  if length sizes <? rank t then Err RuntimeError
  else if forallb (fun z => (0 <=? z)%Z) (firstn pad sizes)
  then match expand_dims (skipn pad sizes) (shape t) with
       | Some r =>
           Ok (mkT (map Z.to_nat (firstn pad sizes) ++ r)
                   (fun idx => at_ t (bc_index (shape t) idx)))
       | None => Err RuntimeError
       end
  else Err RuntimeError.

(** [t.contiguous()]: the same entries. *)
Definition contiguous {A} (t : tensor A) : tensor A := t.

(** The size list of a [view], with at most one [-1] inferred from the
    number of elements. *)
Definition known_prod (sizes : list Z) : Z :=
  fold_right (fun z acc => if (z =? -1)%Z then acc else (z * acc)%Z) 1%Z sizes.

Definition infer_size (sizes : list Z) (n : nat) : option (list nat) :=
  let infer := count_occ Z.eq_dec sizes (-1)%Z in
  let newsize := known_prod sizes in
  if existsb (fun z => (z <? -1)%Z) sizes then None
  else if 1 <? infer then None
  else if infer =? 1 then
    if ((Z.of_nat n =? newsize) ||
        ((0 <? newsize) && (Z.of_nat n mod newsize =? 0)))%Z
    then if (newsize =? 0)%Z then None
         else Some (map (fun z => if (z =? -1)%Z
                                  then Z.to_nat (Z.of_nat n / newsize)
                                  else Z.to_nat z) sizes)
    else None
  else if (Z.of_nat n =? newsize)%Z then Some (map Z.to_nat sizes)
  else None.

(** [t.view(sizes)]: entries keep their row-major position. *)
Definition view {A} (sizes : list Z) (t : tensor A) : result (tensor A) :=
  match infer_size sizes (numel t) with
  | Some s =>
      Ok (mkT s (fun idx => at_ t (unravel (shape t) (offset s idx))))
  | None => Err RuntimeError
  end.

(** [t[:, :n, :]]: the first [n] entries along axis 1 of a tensor of rank
    at least 3 (a slice never fails on a bound that is too large). *)
Definition narrow1 {A} (n : nat) (t : tensor A) : result (tensor A) :=
  match shape t with
  | d0 :: d1 :: d2 :: rest =>
      Ok (mkT (d0 :: Nat.min n d1 :: d2 :: rest) (at_ t))
  | _ => Err IndexError
  end.

(** ** Reductions along the last axis *)

Definition last_dim (s : list nat) : nat :=
  match rev s with d :: _ => d | [] => 1 end.

(** The index of entry [k] of the row that contains [idx]. *)
Definition set_last (idx : list nat) (k : nat) : list nat :=
  match idx with [] => [] | _ => removelast idx ++ [k] end.

Definition keep_last (s : list nat) : list nat :=
  match s with [] => [] | _ => removelast s ++ [1] end.

Definition row_sum (t : rtensor) (idx : list nat) (f : R -> R) : R :=
  rsum (last_dim (shape t)) (fun k => f (at_ t (set_last idx k))).

(** [t.mean(dim=-1, keepdim=True)]. *)
Definition mean_last (t : rtensor) : rtensor :=
  mkT (keep_last (shape t))
      (fun idx => (row_sum t idx (fun x => x) / INR (last_dim (shape t)))%R).

(** [t.std(dim=-1, keepdim=True)]: the unbiased estimator.  On a row of
    a single entry the divisor [n - 1] is zero and PyTorch's value is
    [nan], which a real-valued tensor cannot hold: the entries of the
    model are those of the code on rows of at least two entries. *)
Definition std_last (t : rtensor) : rtensor :=
  mkT (keep_last (shape t))
      (fun idx =>
         let m := at_ (mean_last t) idx in
         sqrt (row_sum t idx (fun x => (x - m) * (x - m))
               / (INR (last_dim (shape t)) - 1))%R).

(** [t.softmax(dim=-1)]. *)
Definition softmax (t : rtensor) : rtensor :=
  mkT (shape t) (fun idx => (exp (at_ t idx) / row_sum t idx exp)%R).

(** ** Products *)

Definition split_last2 (s : list nat) : option (list nat * nat * nat) :=
  match rev s with
  | q :: p :: r => Some (rev r, p, q)
  | _ => None
  end.

(** Batched matrix product of operands of rank at least 2; the batch axes
    broadcast. *)
Definition matmul_nd (a b : rtensor) : result rtensor :=
  match split_last2 (shape a), split_last2 (shape b) with
  | Some (ba, n, m), Some (bb, m', p) =>
      if m =? m' then
        match broadcast_shapes ba bb with
        | Some bs =>
            Ok (mkT (bs ++ [n; p])
                  (fun idx =>
                     let ib := firstn (length idx - 2) idx in
                     let i := nth (length idx - 2) idx 0 in
                     let j := nth (length idx - 1) idx 0 in
                     rsum m (fun k =>
                       (at_ a (bc_index ba ib ++ [i; k]) *
                        at_ b (bc_index bb ib ++ [k; j]))%R)))
        | None => Err RuntimeError
        end
      else Err RuntimeError
  | _, _ => Err RuntimeError
  end.

(** Drop the axis at position [d] (of size 1). *)
Definition squeeze_at {A} (d : nat) (t : tensor A) : tensor A :=
  mkT (remove_at d (shape t)) (fun idx => at_ t (insert_at d 0 idx)).

(** [a @ b]: a 1-D operand is a row (on the left) or a column (on the
    right) whose added axis is dropped from the result. *)
Definition matmul (a b : rtensor) : result rtensor :=
  match shape a, shape b with
  | [], _ => Err RuntimeError
  | _, [] => Err RuntimeError
  | [n], [m] =>
      if n =? m
      then Ok (mkT [] (fun _ => rsum n (fun k => (at_ a [k] * at_ b [k])%R)))
      else Err RuntimeError
  | [_], _ =>
      a' <-r unsqueeze 0 a ;;
      r <-r matmul_nd a' b ;;
      Ok (squeeze_at (rank r - 2) r)
  | _, [_] =>
      b' <-r unsqueeze 1 b ;;
      r <-r matmul_nd a b' ;;
      Ok (squeeze_at (rank r - 1) r)
  | _, _ => matmul_nd a b
  end.

(** [t.masked_fill_(mask, v)]: in place, so the mask must broadcast to the
    shape of [t] itself. *)
Definition masked_fill (t : rtensor) (mask : tensor bool) (v : R)
  : result rtensor :=
  match broadcast_shapes (shape t) (shape mask) with
  | Some s =>
      if list_eq_dec Nat.eq_dec s (shape t)
      then Ok (mkT (shape t)
                 (fun idx => if at_ mask (bc_index (shape mask) idx)
                             then v else at_ t idx))
      else Err RuntimeError
  | None => Err RuntimeError
  end.

(** [torch.cat([a, b], dim=1)].  A tensor without axes is refused; a
    tensor of shape [(0,)] is skipped; the first tensor that counts must
    have an axis 1 ([IndexError] otherwise), and the other must have as
    many axes and the same sizes off axis 1. *)
Definition cat1 (a b : rtensor) : result rtensor :=
  match shape a, shape b with
  | [], _ => Err RuntimeError
  | _, [] => Err RuntimeError
  | [0], [0] => Ok a
  | [0], [_] => Err IndexError
  | [0], _ :: _ :: _ => Ok b
  | [_], _ => Err IndexError
  | _ :: _ :: _, [0] => Ok a
  | _ :: _ :: _, [_] => Err RuntimeError
  | a0 :: a1 :: ra, b0 :: b1 :: rb =>
      if list_eq_dec Nat.eq_dec (a0 :: ra) (b0 :: rb)
      then Ok (mkT (a0 :: a1 + b1 :: ra)
                 (fun idx =>
                    match idx with
                    | i :: j :: r =>
                        if j <? a1 then at_ a idx
                        else at_ b (i :: j - a1 :: r)
                    | _ => at_ a idx
                    end))
      else Err RuntimeError
  end.

(** ** Creation and random draws *)

Definition full (s : list nat) (v : R) : rtensor := mkT s (fun _ => v).

(** A tensor size given as a Python integer. *)
Definition size_of (z : Z) : result nat :=
  if (z <? 0)%Z then Err RuntimeError else Ok (Z.to_nat z).

(** [torch.zeros(sizes)], [torch.ones(sizes)]. *)
Definition zeros (sizes : list Z) : result rtensor :=
  if existsb (fun z => (z <? 0)%Z) sizes then Err RuntimeError
  else Ok (full (map Z.to_nat sizes) 0%R).

Definition ones (sizes : list Z) : result rtensor :=
  if existsb (fun z => (z <? 0)%Z) sizes then Err RuntimeError
  else Ok (full (map Z.to_nat sizes) 1%R).

(** [torch.arange(0, stop, step)] for a positive [step], as floats. *)
Definition arange (stop step : Z) : result rtensor :=
  if (stop <? 0)%Z then Err RuntimeError
  else Ok (mkT [Z.to_nat ((stop + step - 1) / step)]
             (fun idx => (INR (nth 0 idx 0%nat) * IZR step)%R)).

(** The next tensor of the random generator, with shape [s]. *)
Definition draw (s : list nat) : M rtensor :=
  fun g => Ok (mkT s (g 0), fun n => g (S n)).

(** ** Python arithmetic used by the constructors *)

(** [a % b] on Python integers. *)
Definition py_mod (a b : Z) : result Z :=
  if (b =? 0)%Z then Err ZeroDivisionError else Ok (a mod b)%Z.

(** [a // b] on Python integers. *)
Definition py_floordiv (a b : Z) : result Z :=
  if (b =? 0)%Z then Err ZeroDivisionError else Ok (a / b)%Z.

(** [x / d] with a float [x] and an integer [d]. *)
Definition py_truediv (x : R) (d : Z) : result R :=
  if (d =? 0)%Z then Err ZeroDivisionError else Ok (x / IZR d)%R.

(** [math.sqrt(z)] on an integer. *)
Definition math_sqrt (z : Z) : result R :=
  if (z <? 0)%Z then Err ValueError else Ok (sqrt (IZR z)).

(** [for _ in range(n): xs.append(body)]. *)
Fixpoint repeatM {A} (n : nat) (body : M A) : M (list A) :=
  match n with
  | O => ret []
  | S n' => x <- body ;; xs <- repeatM n' body ;; ret (x :: xs)
  end.

(* ================================================================== *)
(** * The PyTorch modules the source instantiates *)

(** [nn.Linear]: [weight] has shape (out_features, in_features). *)
Module Linear.
Record t : Type := mk {
  weight : rtensor;
  bias : option rtensor
}.

Definition init (in_features out_features : Z) (with_bias : bool) : M t :=
  i <- lift (size_of in_features) ;;
  o <- lift (size_of out_features) ;;
  w <- draw [o; i] ;;
  if with_bias
  then b <- draw [o] ;; ret (mk w (Some b))
  else ret (mk w None).

(** [x @ weight.T + bias] on the last axis of [x]. *)
Definition forward (self : t) (x : rtensor) : result rtensor :=
  match shape (weight self), rev (shape x) with
  | [o; i], n :: _ =>
      if n =? i
      then Ok (mkT (removelast (shape x) ++ [o])
                 (fun idx =>
                    let c := last idx 0 in
                    (rsum i (fun k => at_ x (set_last idx k) *
                                      at_ (weight self) [c; k]) +
                     match bias self with
                     | Some b => at_ b [c]
                     | None => 0
                     end)%R))
      else Err RuntimeError
  | _, _ => Err RuntimeError
  end.
End Linear.

(** [nn.Embedding]: [weight] has shape (num_embeddings, embedding_dim).
    The lookup is an [index_select] along the first axis: an id outside the
    table is an [IndexError], and selecting anything from a table without
    rows a [RuntimeError]. *)
Module Embedding.
Record t : Type := mk { weight : rtensor }.

Definition init (num_embeddings embedding_dim : Z) : M t :=
  n <- lift (size_of num_embeddings) ;;
  d <- lift (size_of embedding_dim) ;;
  w <- draw [n; d] ;;
  ret (mk w).

Definition forward (self : t) (x : itensor) : result rtensor :=
  match shape (weight self) with
  | [n; d] =>
      if forallb (fun idx => (0 <=? at_ x idx)%Z &&
                             (at_ x idx <? Z.of_nat n)%Z)
                 (indices (shape x))
      then Ok (mkT (shape x ++ [d])
                 (fun idx => at_ (weight self)
                               [Z.to_nat (at_ x (removelast idx));
                                last idx 0]))
      else if n =? 0 then Err RuntimeError
      else Err IndexError
  | _ => Err RuntimeError
  end.
End Embedding.

(** [nn.Dropout]; a module is in training mode when built. *)
Module Dropout.
Record t : Type := mk {
  p : Q;
  training : bool
}.

Definition init (p : Q) : result t :=
  if Qle_bool 0 p && Qle_bool p 1 then Ok (mk p true) else Err ValueError.

(** In training mode every entry is multiplied by a drawn 0/1 value over
    [1 - p]; with [p = 1] the result is zero. *)
Definition forward (self : t) (x : rtensor) : M rtensor :=
  if training self then
    if Qeq_bool (p self) 1 then ret (tmap (fun v => (v * 0)%R) x)
    else
      noise <- draw (shape x) ;;
      ret (mkT (shape x)
             (fun idx => (at_ x idx *
                          (at_ noise idx / (1 - Q2R (p self))))%R))
  else ret x.
End Dropout.

(** [nn.init.xavier_uniform_(p)]: fresh values for a tensor of at least two
    axes. *)
Definition xavier_uniform_ (p : rtensor) : M rtensor :=
  if rank p <? 2 then raise ValueError else draw (shape p).

(** The body of the initialisation loops of [build_transformer]:
    [if p.dim() > 1: nn.init.xavier_uniform_(p)]. *)
Definition init_parameter (p : rtensor) : M rtensor :=
  if 1 <? rank p then xavier_uniform_ p else ret p.

(** Strided column assignment [t[:, start::step] = src] on a matrix [t]:
    [src], without its leading axes of size 1, must expand to the slice. *)
Fixpoint strip_ones (s : list nat) : list nat :=
  match s with
  | 1 :: s' => strip_ones s'
  | _ => s
  end.

Fixpoint expandable_rev (src dst : list nat) : bool :=
  match src, dst with
  | [], _ => true
  | _ :: _, [] => false
  | x :: src', y :: dst' => ((x =? y) || (x =? 1)) && expandable_rev src' dst'
  end.

Definition setitem_cols (start step : nat) (t src : rtensor)
  : result rtensor :=
  match shape t with
  | [n; d] =>
      let w := (d - start + step - 1) / step in
      let s' := strip_ones (shape src) in
      if expandable_rev (rev s') [w; n]
      then Ok (mkT [n; d]
                 (fun idx =>
                    match idx with
                    | [r; c] =>
                        if (start <=? c) && ((c - start) mod step =? 0)
                        then at_ src (repeat 0 (rank src - length s') ++
                                      bc_index s' [r; (c - start) / step])
                        else at_ t idx
                    | _ => at_ t idx
                    end))
      else Err RuntimeError
  | _ => Err IndexError
  end.

(* ================================================================== *)
(** * model.py *)

Module LayerNormalization.
Record t : Type := mk {
  eps : R;
  alpha : rtensor;
  bias : rtensor
}.

(** The default [eps] is [10**-6]. *)
Definition default_eps : R := (/ 10 ^ 6)%R.

Definition init (features : Z) (eps : R) : result t :=
  a <-r ones [features] ;;
  b <-r zeros [features] ;;
  Ok (mk eps a b).

Definition forward (self : t) (x : rtensor) : result rtensor :=
  let mean := mean_last x in
  let std := std_last x in
  c <-r tsub x mean ;;
  n <-r tmul (alpha self) c ;;
  q <-r tdiv n (tmap (fun s => (s + eps self)%R) std) ;;
  tadd q (bias self).
End LayerNormalization.

Module FeedForwardBlock.
Record t : Type := mk {
  linear_1 : Linear.t;
  dropout : Dropout.t;
  linear_2 : Linear.t
}.

Definition init (d_model d_ff : Z) (dropout : Q) : M t :=
  l1 <- Linear.init d_model d_ff true ;;
  dr <- lift (Dropout.init dropout) ;;
  l2 <- Linear.init d_ff d_model true ;;
  ret (mk l1 dr l2).

Definition relu (x : R) : R := Rmax 0 x.

Definition forward (self : t) (x : rtensor) : M rtensor :=
  a <- lift (Linear.forward (linear_1 self) x) ;;
  b <- Dropout.forward (dropout self) (tmap relu a) ;;
  lift (Linear.forward (linear_2 self) b).
End FeedForwardBlock.

Module InputEmbeddings.
Record t : Type := mk {
  d_model : Z;
  vocab_size : Z;
  embedding : Embedding.t
}.

Definition init (d_model vocab_size : Z) : M t :=
  e <- Embedding.init vocab_size d_model ;;
  ret (mk d_model vocab_size e).

Definition forward (self : t) (x : itensor) : result rtensor :=
  e <-r Embedding.forward (embedding self) x ;;
  s <-r math_sqrt (d_model self) ;;
  Ok (tmap (fun v => (v * s)%R) e).
End InputEmbeddings.

Module PositionalEncoding.
Record t : Type := mk {
  d_model : Z;
  seq_len : Z;
  dropout : Dropout.t;
  pe : rtensor
}.

Definition init (d_model seq_len : Z) (dropout : Q) : result t :=
  dr <-r Dropout.init dropout ;;
  pe <-r zeros [seq_len; d_model] ;;
  ar <-r arange seq_len 1 ;;
  position <-r unsqueeze 1 ar ;;
  ev <-r arange d_model 2 ;;
  c <-r py_truediv (- ln 10000)%R d_model ;;
  let div_term := tmap exp (tmap (fun x => (x * c)%R) ev) in
  a <-r tmul position div_term ;;
  pe <-r setitem_cols 0 2 pe (tmap sin a) ;;
  b <-r tmul position div_term ;;
  pe <-r setitem_cols 1 2 pe (tmap cos b) ;;
  pe <-r unsqueeze 0 pe ;;
  Ok (mk d_model seq_len dr pe).

Definition forward (self : t) (x : rtensor) : M rtensor :=
  n <- lift (shape_at x 1) ;;
  rows <- lift (narrow1 n (pe self)) ;;
  y <- lift (tadd x rows) ;;
  Dropout.forward (dropout self) y.
End PositionalEncoding.

Module ResidualConnection.
Record t : Type := mk {
  dropout : Dropout.t;
  norm : LayerNormalization.t
}.

Definition init (features : Z) (dropout : Q) : result t :=
  dr <-r Dropout.init dropout ;;
  n <-r LayerNormalization.init features LayerNormalization.default_eps ;;
  Ok (mk dr n).

(** [sublayer] may update the module it closes over; the updated module
    is returned next to the output. *)
Definition forward {S} (self : t) (x : rtensor)
    (sublayer : rtensor -> M (rtensor * S)) : M (rtensor * S) :=
  n <- lift (LayerNormalization.forward (norm self) x) ;;
  '(y, st) <- sublayer n ;;
  d <- Dropout.forward (dropout self) y ;;
  r <- lift (tadd x d) ;;
  ret (r, st).
End ResidualConnection.

Module MultiHeadAttentionBlock.
Record t : Type := mk {
  d_model : Z;
  h : Z;
  d_k : Z;
  w_q : Linear.t;
  w_k : Linear.t;
  w_v : Linear.t;
  w_o : Linear.t;
  dropout : Dropout.t;
  attention_scores : option rtensor  (* set by [forward] *)
}.

Definition init (d_model h : Z) (dropout : Q) : M t :=
  r <- lift (py_mod d_model h) ;;
  if (r =? 0)%Z then
    d_k <- lift (py_floordiv d_model h) ;;
    w_q <- Linear.init d_model d_model false ;;
    w_k <- Linear.init d_model d_model false ;;
    w_v <- Linear.init d_model d_model false ;;
    w_o <- Linear.init d_model d_model false ;;
    dr <- lift (Dropout.init dropout) ;;
    ret (mk d_model h d_k w_q w_k w_v w_o dr None)
  else raise (AssertionError "d_model is not divisible by h").

Definition neg_1e9 : R := (- 10 ^ 9)%R.

Definition attention (query key value : rtensor) (mask : option itensor)
    (dropout : option Dropout.t) : M (rtensor * rtensor) :=
  d_k <- lift (shape_last query) ;;
  kt <- lift (transpose (-2) (-1) key) ;;
  qk <- lift (matmul query kt) ;;
  let attention_scores := tmap (fun x => (x / sqrt (INR d_k))%R) qk in
  attention_scores <-
    match mask with
    | Some mask =>
        mask <- lift (unsqueeze 1 mask) ;;
        mask <- lift (unsqueeze 2 mask) ;;
        s1 <- lift (shape_at query 1) ;;
        s2 <- lift (shape_at query 2) ;;
        mask <- lift (expand [(-1)%Z; Z.of_nat s1; Z.of_nat s2; (-1)%Z]
                        mask) ;;
        lift (masked_fill attention_scores (tmap (Z.eqb 1) mask) neg_1e9)
    | None => ret attention_scores
    end ;;
  let attention_scores := softmax attention_scores in
  attention_scores <-
    match dropout with
    | Some dropout => Dropout.forward dropout attention_scores
    | None => ret attention_scores
    end ;;
  x <- lift (matmul attention_scores value) ;;
  ret (x, attention_scores).

(** [x.view(x.shape[0], x.shape[1], self.h, self.d_k).transpose(1, 2)] *)
Definition split_heads (self : t) (x : rtensor) : result rtensor :=
  s0 <-r shape_at x 0 ;;
  s1 <-r shape_at x 1 ;;
  v <-r view [Z.of_nat s0; Z.of_nat s1; h self; d_k self] x ;;
  transpose 1 2 v.

Definition forward (self : t) (q k v : rtensor) (mask : option itensor)
  : M (rtensor * t) :=
  query <- lift (Linear.forward (w_q self) q) ;;
  key <- lift (Linear.forward (w_k self) k) ;;
  value <- lift (Linear.forward (w_v self) v) ;;
  query <- lift (split_heads self query) ;;
  key <- lift (split_heads self key) ;;
  value <- lift (split_heads self value) ;;
  '(x, scores) <- attention query key value mask (Some (dropout self)) ;;
  xt <- lift (transpose 1 2 x) ;;
  s0 <- lift (shape_at x 0) ;;
  x <- lift (view [Z.of_nat s0; (-1)%Z; (h self * d_k self)%Z]
               (contiguous xt)) ;;
  out <- lift (Linear.forward (w_o self) x) ;;
  ret (out, mk (d_model self) (h self) (d_k self) (w_q self) (w_k self)
               (w_v self) (w_o self) (dropout self) (Some scores)).
End MultiHeadAttentionBlock.

Module EncoderBlock.
Record t : Type := mk {
  self_attention_block : MultiHeadAttentionBlock.t;
  feed_forward_block : FeedForwardBlock.t;
  residual_connections : list ResidualConnection.t
}.

Definition init (features : Z)
    (self_attention_block : MultiHeadAttentionBlock.t)
    (feed_forward_block : FeedForwardBlock.t) (dropout : Q) : result t :=
  r0 <-r ResidualConnection.init features dropout ;;
  r1 <-r ResidualConnection.init features dropout ;;
  Ok (mk self_attention_block feed_forward_block [r0; r1]).

(** [self.residual_connections[i]] *)
Definition residual (self : t) (i : nat) : result ResidualConnection.t :=
  match nth_error (residual_connections self) i with
  | Some r => Ok r
  | None => Err IndexError
  end.

Definition forward (self : t) (x : rtensor) (seq_mask : option itensor)
  : M (rtensor * t) :=
  r0 <- lift (residual self 0) ;;
  '(x, att) <- ResidualConnection.forward r0 x
                 (fun x => MultiHeadAttentionBlock.forward
                             (self_attention_block self) x x x seq_mask) ;;
  r1 <- lift (residual self 1) ;;
  '(x, _) <- ResidualConnection.forward r1 x
               (fun x => y <- FeedForwardBlock.forward
                                (feed_forward_block self) x ;;
                         ret (y, tt)) ;;
  ret (x, mk att (feed_forward_block self) (residual_connections self)).
End EncoderBlock.

Module Encoder.
Record t : Type := mk {
  layers : list EncoderBlock.t;
  norm : LayerNormalization.t
}.

Definition init (features : Z) (layers : list EncoderBlock.t) : result t :=
  n <-r LayerNormalization.init features LayerNormalization.default_eps ;;
  Ok (mk layers n).

(** [for layer in self.layers: x = layer(x, mask)] *)
Fixpoint run_layers (ls : list EncoderBlock.t) (x : rtensor)
    (mask : option itensor) : M (rtensor * list EncoderBlock.t) :=
  match ls with
  | [] => ret (x, [])
  | layer :: rest =>
      '(x, layer') <- EncoderBlock.forward layer x mask ;;
      '(x, rest') <- run_layers rest x mask ;;
      ret (x, layer' :: rest')
  end.

Definition forward (self : t) (x : rtensor) (mask : option itensor)
  : M (rtensor * t) :=
  '(x, ls) <- run_layers (layers self) x mask ;;
  y <- lift (LayerNormalization.forward (norm self) x) ;;
  ret (y, mk ls (norm self)).
End Encoder.

Module ProjectionLayer.
Record t : Type := mk { proj : Linear.t }.

Definition init (d_model class_size : Z) : M t :=
  l <- Linear.init d_model class_size true ;;
  ret (mk l).

Definition forward (self : t) (x : rtensor) : result rtensor :=
  Linear.forward (proj self) x.
End ProjectionLayer.

Module Transformer.
(** [seq_embed] and [projection_layer] are [None] in some instances. *)
Record t : Type := mk {
  encoder : Encoder.t;
  seq_embed : option InputEmbeddings.t;
  seq_pos : PositionalEncoding.t;
  projection_layer : option ProjectionLayer.t
}.

Definition init (encoder : Encoder.t) (seq_embed : option InputEmbeddings.t)
    (seq_pos : PositionalEncoding.t)
    (projection_layer : option ProjectionLayer.t) : t :=
  mk encoder seq_embed seq_pos projection_layer.

Definition embed (self : t) (seq : itensor) : result rtensor :=
  match seq_embed self with
  | Some e => InputEmbeddings.forward e seq
  | None => Err TypeError_NoneType_not_callable
  end.

Definition encode (self : t) (seq : rtensor) (mask : option itensor)
  : M (rtensor * t) :=
  seq <- PositionalEncoding.forward (seq_pos self) seq ;;
  '(y, enc) <- Encoder.forward (encoder self) seq mask ;;
  ret (y, mk enc (seq_embed self) (seq_pos self) (projection_layer self)).

Definition project (self : t) (x : rtensor) : result rtensor :=
  match projection_layer self with
  | Some p => ProjectionLayer.forward p x
  | None => Err TypeError_NoneType_not_callable
  end.
End Transformer.

(** ** The parameter initialisation loops *)

(** [for p in module.parameters(): if p.dim() > 1: xavier_uniform_(p)],
    module by module in registration order. *)
Module Params.
Definition linear (l : Linear.t) : M Linear.t :=
  w <- init_parameter (Linear.weight l) ;;
  match Linear.bias l with
  | Some b => b <- init_parameter b ;; ret (Linear.mk w (Some b))
  | None => ret (Linear.mk w None)
  end.

Definition layer_norm (n : LayerNormalization.t) : M LayerNormalization.t :=
  a <- init_parameter (LayerNormalization.alpha n) ;;
  b <- init_parameter (LayerNormalization.bias n) ;;
  ret (LayerNormalization.mk (LayerNormalization.eps n) a b).

Definition attention (a : MultiHeadAttentionBlock.t)
  : M MultiHeadAttentionBlock.t :=
  w_q <- linear (MultiHeadAttentionBlock.w_q a) ;;
  w_k <- linear (MultiHeadAttentionBlock.w_k a) ;;
  w_v <- linear (MultiHeadAttentionBlock.w_v a) ;;
  w_o <- linear (MultiHeadAttentionBlock.w_o a) ;;
  ret (MultiHeadAttentionBlock.mk
         (MultiHeadAttentionBlock.d_model a) (MultiHeadAttentionBlock.h a)
         (MultiHeadAttentionBlock.d_k a) w_q w_k w_v w_o
         (MultiHeadAttentionBlock.dropout a)
         (MultiHeadAttentionBlock.attention_scores a)).

Definition feed_forward (f : FeedForwardBlock.t) : M FeedForwardBlock.t :=
  l1 <- linear (FeedForwardBlock.linear_1 f) ;;
  l2 <- linear (FeedForwardBlock.linear_2 f) ;;
  ret (FeedForwardBlock.mk l1 (FeedForwardBlock.dropout f) l2).

Definition residual (r : ResidualConnection.t) : M ResidualConnection.t :=
  n <- layer_norm (ResidualConnection.norm r) ;;
  ret (ResidualConnection.mk (ResidualConnection.dropout r) n).

Fixpoint each {A} (f : A -> M A) (l : list A) : M (list A) :=
  match l with
  | [] => ret []
  | x :: l' => y <- f x ;; ys <- each f l' ;; ret (y :: ys)
  end.

Definition encoder_block (b : EncoderBlock.t) : M EncoderBlock.t :=
  a <- attention (EncoderBlock.self_attention_block b) ;;
  f <- feed_forward (EncoderBlock.feed_forward_block b) ;;
  rs <- each residual (EncoderBlock.residual_connections b) ;;
  ret (EncoderBlock.mk a f rs).

Definition encoder (e : Encoder.t) : M Encoder.t :=
  ls <- each encoder_block (Encoder.layers e) ;;
  n <- layer_norm (Encoder.norm e) ;;
  ret (Encoder.mk ls n).

Definition transformer (m : Transformer.t) : M Transformer.t :=
  enc <- encoder (Transformer.encoder m) ;;
  emb <- match Transformer.seq_embed m with
         | Some e =>
             w <- init_parameter
                    (Embedding.weight (InputEmbeddings.embedding e)) ;;
             ret (Some (InputEmbeddings.mk (InputEmbeddings.d_model e)
                          (InputEmbeddings.vocab_size e) (Embedding.mk w)))
         | None => ret None
         end ;;
  pl <- match Transformer.projection_layer m with
        | Some p =>
            l <- linear (ProjectionLayer.proj p) ;;
            ret (Some (ProjectionLayer.mk l))
        | None => ret None
        end ;;
  ret (Transformer.mk enc emb (Transformer.seq_pos m) pl).
End Params.

(** ** build_transformer *)

(** The default arguments of [build_transformer]. *)
Definition default_d_model : Z := 64.
Definition default_N : Z := 3.
Definition default_h : Z := 4.
Definition default_dropout : Q := 1 # 10.
Definition default_d_ff : Z := 128.
Definition default_header : bool := false.

(** The body of the two block-building loops. *)
Definition build_encoder_block (d_model h : Z) (dropout : Q) (d_ff : Z)
  : M EncoderBlock.t :=
  encoder_self_attention_block <-
    MultiHeadAttentionBlock.init d_model h dropout ;;
  feed_forward_block <- FeedForwardBlock.init d_model d_ff dropout ;;
  lift (EncoderBlock.init d_model encoder_self_attention_block
          feed_forward_block dropout).

Definition build_transformer
    (seq_vocab_size seq_seq_len seq_pack_len class_size : Z)
    (d_model N h : Z) (dropout : Q) (d_ff : Z) (header : bool)
  : M (Transformer.t * Transformer.t) :=
  (* Byte-level Transformer *)
  seq_embed <- InputEmbeddings.init d_model seq_vocab_size ;;
  seq_pos <- lift (PositionalEncoding.init d_model seq_seq_len dropout) ;;
  encoder_blocks <-
    repeatM (Z.to_nat N) (build_encoder_block d_model h dropout d_ff) ;;
  encoder <- lift (Encoder.init d_model encoder_blocks) ;;
  projection_layer <-
    (if negb header
     then p <- ProjectionLayer.init (d_model * 2) class_size ;; ret (Some p)
     else ret None) ;;
  let transformer :=
    Transformer.init encoder (Some seq_embed) seq_pos projection_layer in
  (* Packet-level encoder *)
  pack_pos <- lift (PositionalEncoding.init d_model seq_pack_len dropout) ;;
  pack_encoder_blocks <-
    repeatM 1 (build_encoder_block d_model h dropout d_ff) ;;
  pack_encoder <- lift (Encoder.init d_model pack_encoder_blocks) ;;
  let pack_transformer := Transformer.init pack_encoder None pack_pos None in
  (* Initialise the parameters *)
  transformer <- Params.transformer transformer ;;
  pack_transformer <- Params.transformer pack_transformer ;;
  ret (transformer, pack_transformer).

(** ** explainer_model *)

Definition sigmoid (x : R) : R := (1 / (1 + exp (- x)))%R.

Module explainer_model.
Section WithCollaborators.
(** The type of [config.baseline], and [utils.compute_emb], which is
    not part of [model.py]: [compute_emb(model, model_pack, seq, mask,
    trunc_length, value_weights, baseline=...)]. *)
Context {baseline_t : Type}.
Variable compute_emb :
  Transformer.t -> Transformer.t -> itensor -> itensor -> Z ->
  rtensor -> baseline_t -> M rtensor.

Record config_t : Type := mk_config {
  BYTE_PAD_TRUNC_LENGTH : Z;
  HEADER_BYTE_PAD_TRUNC_LENGTH : Z;
  baseline : baseline_t
}.

Record t : Type := mk {
  mask_header : rtensor;
  mask_payload : rtensor;
  config : config_t
}.

Definition init (config : config_t) : result t :=
  mh <-r ones [257%Z] ;;
  mp <-r ones [257%Z] ;;
  Ok (mk mh mp config).

Definition forward (self : t)
    (model header_model model_pack header_model_pack : Transformer.t)
    (seq mask seq_header seq_header_mask : itensor) : M rtensor :=
  seq_emb <- compute_emb model model_pack seq mask
               (BYTE_PAD_TRUNC_LENGTH (config self))
               (tmap sigmoid (mask_payload self))
               (baseline (config self)) ;;
  header_emb <- compute_emb header_model header_model_pack seq_header
                  seq_header_mask
                  (HEADER_BYTE_PAD_TRUNC_LENGTH (config self))
                  (tmap sigmoid (mask_header self))
                  (baseline (config self)) ;;
  emb <- lift (cat1 seq_emb header_emb) ;;
  lift (Transformer.project model emb).
End WithCollaborators.
End explainer_model.

(* ================================================================== *)
(** * Definitions used by the statements *)

(** The message of the assertion in [MultiHeadAttentionBlock.__init__]. *)
Definition not_divisible_msg : string := "d_model is not divisible by h".

(** The table [PositionalEncoding.__init__] registers when it returns: row
    [pos], column [c]. *)
Definition pe_entry (d_model : Z) (pos c : nat) : R :=
  let div_term :=
    exp (INR (c / 2) * IZR 2 * (- ln 10000 / IZR d_model))%R in
  if Nat.even c then sin (INR pos * IZR 1 * div_term)%R
  else cos (INR pos * IZR 1 * div_term)%R.

(** Mean and (unbiased) standard deviation of the row of [x] selected by
    the leading indices [ipre], of length [n]. *)
Definition row_mean (x : rtensor) (ipre : list nat) (n : nat) : R :=
  (rsum n (fun k => at_ x (ipre ++ [k])) / INR n)%R.

Definition row_std (x : rtensor) (ipre : list nat) (n : nat) : R :=
  sqrt (rsum n (fun k => (at_ x (ipre ++ [k]) - row_mean x ipre n) *
                         (at_ x (ipre ++ [k]) - row_mean x ipre n))
        / (INR n - 1))%R.

(** A concrete input with three rows [0, 1]. *)
Definition sample_rows : rtensor := mkT [3; 2] (fun idx => INR (nth 1 idx 0)).

(** An all-zero input of shape (batch, n, d). *)
Definition zero_input (batch n d : nat) : rtensor := full [batch; n; d] 0%R.

(** The scaled dot product of query row [i] and key row [j] in batch
    element [i0] and head [i1]: [(Q . K^T)[i, j] / sqrt(d_k)]. *)
Definition scaled_score (query key : rtensor) (d_k : nat)
    (i0 i1 i j : nat) : R :=
  (rsum d_k (fun c => at_ query [i0; i1; i; c] * at_ key [i0; i1; j; c])
   / sqrt (INR d_k))%R.

(** The statements that follow [attention_scores] being computed in
    [MultiHeadAttentionBlock.attention]: softmax, dropout, product with the
    values. *)
Definition attention_tail (attention_scores value : rtensor)
    (dropout : option Dropout.t) : M (rtensor * rtensor) :=
  let attention_scores := softmax attention_scores in
  attention_scores <-
    match dropout with
    | Some dropout => Dropout.forward dropout attention_scores
    | None => ret attention_scores
    end ;;
  x <- lift (matmul attention_scores value) ;;
  ret (x, attention_scores).

(** A query, key or value with one batch element, one head, one position
    and one feature, and a mask that suppresses its only key position. *)
Definition unit_input : rtensor := full [1; 1; 1; 1] 0%R.

(** A small encoder-only [Transformer] (no layer, width 2, one position)
    and an empty byte tensor, for concrete runs. *)
Definition tiny_transformer : Transformer.t :=
  Transformer.mk
    (Encoder.mk []
       (LayerNormalization.mk LayerNormalization.default_eps
          (full [2] 1%R) (full [2] 0%R)))
    None
    (PositionalEncoding.mk 2 1 (Dropout.mk 0 false) (full [1; 1; 2] 0%R))
    None.

Definition no_bytes : itensor := mkT [0] (fun _ => 0%Z).

(** A stand-in for [compute_emb] that returns the value weights it is
    given, as a batch of one row, and a model whose projection layer is
    the identity on [n] features: a forward pass of [explainer_model]
    through them returns the value weights of its two calls. *)
Definition echo_compute_emb {B : Type} :
  Transformer.t -> Transformer.t -> itensor -> itensor -> Z ->
  rtensor -> B -> M rtensor :=
  fun _ _ _ _ _ value_weights _ => lift (unsqueeze 0 value_weights).

Definition identity_weight (n : nat) : rtensor :=
  mkT [n; n]
      (fun idx => if nth 0%nat idx 0%nat =? nth 1%nat idx 0%nat
                  then 1%R else 0%R).

Definition reading_model (n : nat) : Transformer.t :=
  Transformer.mk (Transformer.encoder tiny_transformer) None
    (Transformer.seq_pos tiny_transformer)
    (Some (ProjectionLayer.mk (Linear.mk (identity_weight n) None))).

(** A well-formed attention block of width [d] with [hn] heads of width
    [dkn], as [MultiHeadAttentionBlock.__init__] builds them from
    non-negative arguments. *)
Definition wf_attention (d hn dkn : nat) (self : MultiHeadAttentionBlock.t)
  : Prop :=
  MultiHeadAttentionBlock.h self = Z.of_nat hn /\
  MultiHeadAttentionBlock.d_k self = Z.of_nat dkn /\
  hn * dkn = d /\
  shape (Linear.weight (MultiHeadAttentionBlock.w_q self)) = [d; d] /\
  shape (Linear.weight (MultiHeadAttentionBlock.w_k self)) = [d; d] /\
  shape (Linear.weight (MultiHeadAttentionBlock.w_v self)) = [d; d] /\
  shape (Linear.weight (MultiHeadAttentionBlock.w_o self)) = [d; d].

(** [self] after a forward pass has cached [scores]. *)
Definition with_scores (self : MultiHeadAttentionBlock.t) (scores : rtensor)
  : MultiHeadAttentionBlock.t :=
  MultiHeadAttentionBlock.mk
    (MultiHeadAttentionBlock.d_model self) (MultiHeadAttentionBlock.h self)
    (MultiHeadAttentionBlock.d_k self) (MultiHeadAttentionBlock.w_q self)
    (MultiHeadAttentionBlock.w_k self) (MultiHeadAttentionBlock.w_v self)
    (MultiHeadAttentionBlock.w_o self) (MultiHeadAttentionBlock.dropout self)
    (Some scores).

(** The statements of [MultiHeadAttentionBlock.forward] after the
    attention: the heads are combined and multiplied by [w_o]. *)
Definition combine_heads (self : MultiHeadAttentionBlock.t)
    (x scores : rtensor) : M (rtensor * MultiHeadAttentionBlock.t) :=
  xt <- lift (transpose 1 2 x) ;;
  s0 <- lift (shape_at x 0) ;;
  x <- lift (view [Z.of_nat s0; (-1)%Z;
                   (MultiHeadAttentionBlock.h self *
                    MultiHeadAttentionBlock.d_k self)%Z]
               (contiguous xt)) ;;
  out <- lift (Linear.forward (MultiHeadAttentionBlock.w_o self) x) ;;
  ret (out, with_scores self scores).

(** A mask argument fit for inputs of shape (b, s, d): [None], or one
    value per batch element and key position. *)
Definition mask_ok (b s : nat) (mask : option itensor) : Prop :=
  match mask with
  | None => True
  | Some m => shape m = [b; s]
  end.

(** Well-formed modules of width [d]: the parameter shapes the
    constructors of [model.py] produce. *)
Definition wf_norm (d : nat) (n : LayerNormalization.t) : Prop :=
  shape (LayerNormalization.alpha n) = [d] /\
  shape (LayerNormalization.bias n) = [d].

Definition wf_feed_forward (d : nat) (f : FeedForwardBlock.t) : Prop :=
  exists d_ff,
    shape (Linear.weight (FeedForwardBlock.linear_1 f)) = [d_ff; d] /\
    shape (Linear.weight (FeedForwardBlock.linear_2 f)) = [d; d_ff].

Definition wf_residual (d : nat) (r : ResidualConnection.t) : Prop :=
  wf_norm d (ResidualConnection.norm r).

Definition wf_block (d hn dkn : nat) (blk : EncoderBlock.t) : Prop :=
  wf_attention d hn dkn (EncoderBlock.self_attention_block blk) /\
  wf_feed_forward d (EncoderBlock.feed_forward_block blk) /\
  exists r0 r1,
    EncoderBlock.residual_connections blk = [r0; r1] /\
    wf_residual d r0 /\ wf_residual d r1.

Definition wf_encoder (d hn dkn : nat) (e : Encoder.t) : Prop :=
  Forall (wf_block d hn dkn) (Encoder.layers e) /\
  wf_norm d (Encoder.norm e).

(** The sequence-level transformer of [build_transformer]: an embedding of
    [vocab] ids, a table of [len] positions, and a projection from [p_in]
    features to [classes]. *)
Definition wf_transformer (d hn dkn vocab len p_in classes : nat)
    (m : Transformer.t) : Prop :=
  wf_encoder d hn dkn (Transformer.encoder m) /\
  shape (PositionalEncoding.pe (Transformer.seq_pos m)) = [1; len; d] /\
  (exists e,
      Transformer.seq_embed m = Some e /\
      InputEmbeddings.d_model e = Z.of_nat d /\
      shape (Embedding.weight (InputEmbeddings.embedding e)) = [vocab; d]) /\
  (exists p,
      Transformer.projection_layer m = Some p /\
      shape (Linear.weight (ProjectionLayer.proj p)) = [classes; p_in]).

(** Token ids of shape (b, n), all inside a vocabulary of [vocab] ids. *)
Definition ids_ok (b n vocab : nat) (ids : itensor) : Prop :=
  shape ids = [b; n] /\
  forall idx, in_range idx [b; n] ->
    (0 <= at_ ids idx < Z.of_nat vocab)%Z.

(** The composition the specification names:
    [tr.project(tr.encode(tr.embed(ids), mask))]. *)
Definition embed_encode_project (tr : Transformer.t) (ids : itensor)
    (mask : option itensor) : M rtensor :=
  e <- lift (Transformer.embed tr ids) ;;
  '(y, tr') <- Transformer.encode tr e mask ;;
  lift (Transformer.project tr y).

(** One sequence of one token, id 0, and a mask that keeps it. *)
Definition one_token : itensor := mkT [1; 1] (fun _ => 0%Z).
Definition keep_all : itensor := mkT [1; 1] (fun _ => 0%Z).

(** One sequence of one token whose id, 256, is outside a vocabulary of
    256 ids. *)
Definition bad_token : itensor := mkT [1; 1] (fun _ => 256%Z).

(** [blk'] is [blk] after a forward pass: the same parameters, with
    attention weights cached in its attention block. *)
Definition same_parameters (blk blk' : EncoderBlock.t) : Prop :=
  EncoderBlock.feed_forward_block blk' = EncoderBlock.feed_forward_block blk /\
  EncoderBlock.residual_connections blk' =
    EncoderBlock.residual_connections blk /\
  exists W,
    EncoderBlock.self_attention_block blk' =
    with_scores (EncoderBlock.self_attention_block blk) W.

(** A stand-in for [compute_emb] that returns one pooled embedding of
    width 64 per flow, for a batch of one flow, and an [explainer_model]
    with its initial masks. *)
Definition pooled_compute_emb :
  Transformer.t -> Transformer.t -> itensor -> itensor -> Z ->
  rtensor -> unit -> M rtensor :=
  fun _ _ _ _ _ _ _ => ret (full [1; 64] 0%R).

Definition initial_explainer : explainer_model.t :=
  explainer_model.mk (full [257] 1%R) (full [257] 1%R)
    (explainer_model.mk_config 150 40 tt).


(** One query against two keys (the second one with the larger score),
    and masks over the two keys: none suppressed, the first suppressed. *)
Definition one_query : rtensor := full [1; 1; 1; 1] 1%R.
Definition two_keys : rtensor :=
  mkT [1; 1; 2; 1] (fun idx => INR (nth 2%nat idx 0%nat)).
Definition mask_neither : itensor := mkT [1; 2] (fun _ => 0%Z).

(** A generator that always draws zeros, for concrete runs. *)
Definition zero_rng : rng := fun _ _ => 0%R.

(* ================================================================== *)
(** * Properties *)

(** ** The evaluation monad *)

Lemma bind_ok {A B} (m : M A) (f : A -> M B) g a g' :
  m g = Ok (a, g') -> bind m f g = f a g'.
Proof. unfold bind; intros ->; reflexivity. Qed.

Lemma bind_err {A B} (m : M A) (f : A -> M B) g e :
  m g = Err e -> bind m f g = Err e.
Proof. unfold bind; intros ->; reflexivity. Qed.

Lemma bind_inv {A B} (m : M A) (f : A -> M B) g b g' :
  bind m f g = Ok (b, g') ->
  exists a g1, m g = Ok (a, g1) /\ f a g1 = Ok (b, g').
Proof.
  unfold bind; destruct (m g) as [[a g1]|e]; [eauto | discriminate].
Qed.

Lemma lift_ok {A} (r : result A) g a :
  r = Ok a -> lift r g = Ok (a, g).
Proof. intros ->; reflexivity. Qed.

(** One step of a computation that is shown to fail: either this step
    fails, or the proof goes on with its result. *)
Ltac fails_step :=
  match goal with
  | |- exists e, bind ?m ?f ?g = Err e =>
      unfold bind at 1;
      destruct (m g) as [[? ?]|?]; [cbv beta | eexists; reflexivity]
  end.

(** One step backwards through a computation that returned. *)
Ltac ok_step H :=
  let a := fresh "a" in
  let g := fresh "g" in
  let E := fresh "E" in
  apply bind_inv in H; destruct H as (a & g & E & H).

(** ** C3: the head-count check *)

Lemma mha_init_assertion d_model h dropout g :
  h <> 0%Z -> (d_model mod h)%Z <> 0%Z ->
  MultiHeadAttentionBlock.init d_model h dropout g =
  Err (AssertionError not_divisible_msg).
Proof.
  intros Hh Hm. unfold MultiHeadAttentionBlock.init, bind, lift, py_mod.
  destruct (Z.eqb_spec h 0); [contradiction|].
  destruct (Z.eqb_spec (d_model mod h) 0); [contradiction|]. reflexivity.
Qed.

Lemma mha_init_zero_heads d_model dropout g :
  MultiHeadAttentionBlock.init d_model 0 dropout g = Err ZeroDivisionError.
Proof. reflexivity. Qed.

Lemma linear_init_ok i o b g :
  (0 <= i)%Z -> (0 <= o)%Z ->
  exists l g', Linear.init i o b g = Ok (l, g') /\
    shape (Linear.weight l) = [Z.to_nat o; Z.to_nat i] /\
    (if b then exists t, Linear.bias l = Some t /\ shape t = [Z.to_nat o]
     else Linear.bias l = None).
Proof.
  intros Hi Ho. unfold Linear.init, bind, lift, size_of.
  destruct (Z.ltb_spec i 0); [lia|]. destruct (Z.ltb_spec o 0); [lia|].
  unfold draw. destruct b; cbn.
  - do 2 eexists; split; [reflexivity|]. cbn. split; [reflexivity|].
    eexists; split; reflexivity.
  - do 2 eexists; split; [reflexivity|]. cbn. split; reflexivity.
Qed.

Lemma linear_init_err i o b g e :
  Linear.init i o b g = Err e -> e = RuntimeError.
Proof.
  unfold Linear.init, bind, lift, size_of.
  destruct (i <? 0)%Z; [intros H; inversion H; reflexivity|].
  destruct (o <? 0)%Z; [intros H; inversion H; reflexivity|].
  unfold draw; destruct b; cbn; discriminate.
Qed.

Lemma dropout_init_ok p :
  (0 <= p)%Q -> (p <= 1)%Q -> Dropout.init p = Ok (Dropout.mk p true).
Proof.
  intros H0 H1. unfold Dropout.init.
  apply Qle_bool_iff in H0, H1. rewrite H0, H1. reflexivity.
Qed.

Lemma dropout_init_err p e : Dropout.init p = Err e -> e = ValueError.
Proof.
  unfold Dropout.init.
  destruct (Qle_bool 0 p && Qle_bool p 1); intros H; inversion H; reflexivity.
Qed.

Lemma mha_init_passes d_model h dropout g e :
  h <> 0%Z -> (d_model mod h)%Z = 0%Z ->
  MultiHeadAttentionBlock.init d_model h dropout g = Err e ->
  e = RuntimeError \/ e = ValueError.
Proof.
  intros Hh Hm. unfold MultiHeadAttentionBlock.init.
  unfold bind at 1. unfold lift at 1, py_mod.
  destruct (Z.eqb_spec h 0); [contradiction|]. rewrite Hm. cbn [Z.eqb].
  unfold bind at 1. unfold lift at 1, py_floordiv.
  destruct (Z.eqb_spec h 0); [contradiction|].
  repeat (unfold bind at 1;
          match goal with
          | |- context [Linear.init ?a ?b ?c ?s] =>
              destruct (Linear.init a b c s) as [[? ?]|?] eqn:?;
              [| intros H; inversion H; subst; left;
                 eapply linear_init_err; eassumption]
          end).
  unfold bind at 1, lift.
  destruct (Dropout.init dropout) eqn:Hd.
  - discriminate.
  - intros H; inversion H; subst. right. eapply dropout_init_err; eassumption.
Qed.

Lemma mha_init_ok d_model h dropout g :
  h <> 0%Z -> (d_model mod h)%Z = 0%Z -> (0 <= d_model)%Z ->
  (0 <= dropout)%Q -> (dropout <= 1)%Q ->
  exists blk g',
    MultiHeadAttentionBlock.init d_model h dropout g = Ok (blk, g') /\
    MultiHeadAttentionBlock.d_model blk = d_model /\
    MultiHeadAttentionBlock.h blk = h /\
    MultiHeadAttentionBlock.d_k blk = (d_model / h)%Z /\
    MultiHeadAttentionBlock.dropout blk = Dropout.mk dropout true /\
    shape (Linear.weight (MultiHeadAttentionBlock.w_q blk)) =
      [Z.to_nat d_model; Z.to_nat d_model] /\
    shape (Linear.weight (MultiHeadAttentionBlock.w_k blk)) =
      [Z.to_nat d_model; Z.to_nat d_model] /\
    shape (Linear.weight (MultiHeadAttentionBlock.w_v blk)) =
      [Z.to_nat d_model; Z.to_nat d_model] /\
    shape (Linear.weight (MultiHeadAttentionBlock.w_o blk)) =
      [Z.to_nat d_model; Z.to_nat d_model].
Proof.
  intros Hh Hm Hd H0 H1. unfold MultiHeadAttentionBlock.init.
  unfold bind at 1. unfold lift at 1, py_mod.
  destruct (Z.eqb_spec h 0); [contradiction|]. rewrite Hm. cbn [Z.eqb].
  unfold bind at 1. unfold lift at 1, py_floordiv.
  destruct (Z.eqb_spec h 0); [contradiction|].
  destruct (linear_init_ok d_model d_model false g Hd Hd)
    as (wq & g1 & E1 & S1 & _).
  rewrite (bind_ok _ _ _ _ _ E1).
  destruct (linear_init_ok d_model d_model false g1 Hd Hd)
    as (wk & g2 & E2 & S2 & _).
  rewrite (bind_ok _ _ _ _ _ E2).
  destruct (linear_init_ok d_model d_model false g2 Hd Hd)
    as (wv & g3 & E3 & S3 & _).
  rewrite (bind_ok _ _ _ _ _ E3).
  destruct (linear_init_ok d_model d_model false g3 Hd Hd)
    as (wo & g4 & E4 & S4 & _).
  rewrite (bind_ok _ _ _ _ _ E4).
  rewrite (bind_ok _ _ _ _ _ (lift_ok _ g4 _ (dropout_init_ok _ H0 H1))).
  do 2 eexists. split; [reflexivity|]. cbn. repeat split; assumption.
Qed.

Lemma build_encoder_block_fails d_model h dropout d_ff g :
  ~ (h | d_model)%Z ->
  exists e, build_encoder_block d_model h dropout d_ff g = Err e.
Proof.
  intros Hnd. unfold build_encoder_block.
  destruct (Z.eq_dec h 0) as [->|Hh].
  - eexists. apply bind_err. apply mha_init_zero_heads.
  - eexists. apply bind_err. apply mha_init_assertion; [assumption|].
    intros Hm. apply Hnd. apply Z.mod_divide; assumption.
Qed.

Lemma build_transformer_needs_divisibility
    v sl pl c d_model N h dropout d_ff header g :
  ~ (h | d_model)%Z ->
  exists e,
    build_transformer v sl pl c d_model N h dropout d_ff header g = Err e.
Proof.
  intros Hnd. unfold build_transformer.
  do 6 fails_step.
  destruct (build_encoder_block_fails d_model h dropout d_ff r4 Hnd)
    as (e & He).
  exists e. apply bind_err. cbn [repeatM]. apply bind_err. exact He.
Qed.

(** C3.  [MultiHeadAttentionBlock.__init__] fails whenever [d_model] is not
    divisible by [h] (by the assertion, or by [ZeroDivisionError] when
    [h = 0]), and so does [build_transformer]; when [h] divides [d_model]
    the check passes: no assertion or division error is raised, and the
    block is built as soon as the sizes and the dropout rate are valid.
    With [d_model = 64] and [h = 5] the assertion fails. *)
Theorem C3_head_count_check :
  forall (d_model h : Z) (dropout : Q) (g : rng),
    (~ (h | d_model)%Z ->
       (exists e, MultiHeadAttentionBlock.init d_model h dropout g = Err e /\
                  (e = AssertionError not_divisible_msg \/
                   e = ZeroDivisionError)) /\
       (forall v sl pl c N d_ff header, exists e,
           build_transformer v sl pl c d_model N h dropout d_ff header g
           = Err e)) /\
    (h <> 0%Z -> (h | d_model)%Z ->
       (forall e, MultiHeadAttentionBlock.init d_model h dropout g = Err e ->
                  e = RuntimeError \/ e = ValueError) /\
       ((0 <= d_model)%Z -> (0 <= dropout)%Q -> (dropout <= 1)%Q ->
        exists blk g',
          MultiHeadAttentionBlock.init d_model h dropout g = Ok (blk, g') /\
          MultiHeadAttentionBlock.d_k blk = (d_model / h)%Z)) /\
    MultiHeadAttentionBlock.init 64 5 dropout g =
      Err (AssertionError not_divisible_msg).
Proof.
  intros d_model h dropout g. split; [|split].
  - intros Hnd. split.
    + destruct (Z.eq_dec h 0) as [->|Hh].
      * eexists; split; [apply mha_init_zero_heads | right; reflexivity].
      * eexists; split; [|left; reflexivity].
        apply mha_init_assertion; [assumption|].
        intros Hm. apply Hnd. apply Z.mod_divide; assumption.
    + intros. apply build_transformer_needs_divisibility; assumption.
  - intros Hh Hdiv. apply Z.mod_divide in Hdiv; [|assumption]. split.
    + intros e. apply mha_init_passes; assumption.
    + intros Hd H0 H1.
      destruct (mha_init_ok d_model h dropout g Hh Hdiv Hd H0 H1)
        as (blk & g' & E & _ & _ & Hk & _).
      eauto.
  - apply mha_init_assertion; [lia | discriminate].
Qed.

Lemma C3_head_count_check_witness :
  (exists e, MultiHeadAttentionBlock.init 63 4 default_dropout zero_rng
             = Err e /\
             (e = AssertionError not_divisible_msg \/ e = ZeroDivisionError))
  /\
  (exists blk g',
      MultiHeadAttentionBlock.init 64 4 default_dropout zero_rng
      = Ok (blk, g') /\
      MultiHeadAttentionBlock.d_k blk = (64 / 4)%Z).
Proof.
  split.
  - apply (proj1 (C3_head_count_check 63 4 default_dropout zero_rng)).
    intros [k Hk]. lia.
  - apply (proj1 (proj2 (C3_head_count_check 64 4 default_dropout zero_rng))).
    + lia.
    + exists 16%Z. reflexivity.
    + lia.
    + unfold default_dropout, Qle; simpl; lia.
    + unfold default_dropout, Qle; simpl; lia.
Defined.

(** ** Strided column assignment *)

Lemma strip_ones_keep n s : n <> 1 -> strip_ones (n :: s) = n :: s.
Proof. destruct n as [|[|n]]; [reflexivity | contradiction | reflexivity]. Qed.

Lemma strip_ones_drop s : strip_ones (1 :: s) = strip_ones s.
Proof. reflexivity. Qed.

Lemma expandable_cols n w w' :
  expandable_rev (rev (strip_ones [n; w'])) [w; n] = (w' =? w) || (w' =? 1).
Proof.
  destruct (Nat.eq_dec n 1) as [->|Hn].
  - rewrite strip_ones_drop. destruct (Nat.eq_dec w' 1) as [->|Hw].
    + cbn. rewrite orb_true_r. reflexivity.
    + rewrite strip_ones_keep by assumption.
      cbn. rewrite andb_true_r. reflexivity.
  - rewrite strip_ones_keep by assumption.
    cbn. rewrite Nat.eqb_refl. cbn. rewrite andb_true_r. reflexivity.
Qed.

Lemma source_index_cols n w' r j :
  r < n ->
  repeat 0 (2 - length (strip_ones [n; w'])) ++
    bc_index (strip_ones [n; w']) [r; j]
  = [r; if w' =? 1 then 0 else j].
Proof.
  intros Hr. destruct (Nat.eq_dec n 1) as [->|Hn].
  - assert (r = 0) by lia. subst r. rewrite strip_ones_drop.
    destruct (Nat.eq_dec w' 1) as [->|Hw].
    + reflexivity.
    + rewrite strip_ones_keep by assumption. reflexivity.
  - rewrite strip_ones_keep by assumption.
    cbn. destruct (Nat.eqb_spec n 1); [contradiction | reflexivity].
Qed.

Lemma setitem_cols_ok start step (t src : rtensor) n d w' :
  shape t = [n; d] -> shape src = [n; w'] ->
  (w' = (d - start + step - 1) / step \/ w' = 1) ->
  exists t',
    setitem_cols start step t src = Ok t' /\ shape t' = [n; d] /\
    forall r c, r < n ->
      at_ t' [r; c] =
      if (start <=? c) && ((c - start) mod step =? 0)
      then at_ src [r; if w' =? 1 then 0 else (c - start) / step]
      else at_ t [r; c].
Proof.
  intros Ht Hs Hw. unfold setitem_cols. rewrite Ht, Hs.
  cbv zeta. rewrite expandable_cols.
  assert ((w' =? (d - start + step - 1) / step) || (w' =? 1) = true) as ->.
  { destruct Hw as [->| ->]; [rewrite Nat.eqb_refl | rewrite orb_true_r];
      reflexivity. }
  eexists. split; [reflexivity|]. split; [reflexivity|].
  intros r c Hr. cbn [at_].
  destruct ((start <=? c) && ((c - start) mod step =? 0)); [|reflexivity].
  unfold rank. rewrite Hs. cbn [length].
  rewrite source_index_cols by assumption. reflexivity.
Qed.

Lemma setitem_cols_mismatch start step (t src : rtensor) n d w' :
  shape t = [n; d] -> shape src = [n; w'] ->
  w' <> (d - start + step - 1) / step -> w' <> 1 ->
  setitem_cols start step t src = Err RuntimeError.
Proof.
  intros Ht Hs Hw H1. unfold setitem_cols. rewrite Ht, Hs.
  cbv zeta. rewrite expandable_cols.
  destruct (Nat.eqb_spec w' ((d - start + step - 1) / step)); [contradiction|].
  destruct (Nat.eqb_spec w' 1); [contradiction|]. reflexivity.
Qed.

(** ** Creation *)

Lemma existsb_neg_false sizes :
  Forall (fun z => (0 <= z)%Z) sizes ->
  existsb (fun z => (z <? 0)%Z) sizes = false.
Proof.
  induction 1 as [|z sizes Hz _ IH]; [reflexivity|].
  cbn. rewrite IH. destruct (Z.ltb_spec z 0); [lia | reflexivity].
Qed.

Lemma zeros_ok sizes :
  Forall (fun z => (0 <= z)%Z) sizes ->
  zeros sizes = Ok (full (map Z.to_nat sizes) 0%R).
Proof. intros H. unfold zeros. rewrite existsb_neg_false by assumption.
       reflexivity. Qed.

Lemma ones_ok sizes :
  Forall (fun z => (0 <= z)%Z) sizes ->
  ones sizes = Ok (full (map Z.to_nat sizes) 1%R).
Proof. intros H. unfold ones. rewrite existsb_neg_false by assumption.
       reflexivity. Qed.

Lemma zeros_negative sizes :
  Exists (fun z => (z < 0)%Z) sizes -> zeros sizes = Err RuntimeError.
Proof.
  intros H. unfold zeros.
  assert (existsb (fun z => (z <? 0)%Z) sizes = true) as ->; [|reflexivity].
  apply existsb_exists. apply Exists_exists in H. destruct H as (z & Hin & Hz).
  exists z. split; [assumption|]. apply Z.ltb_lt. assumption.
Qed.

Lemma broadcast_col_row n k : broadcast_shapes [n; 1] [k] = Some [n; k].
Proof.
  destruct k as [|[|k]]; reflexivity.
Qed.

(** ** C9: the positional encoding table *)

Lemma pe_init_run d_model seq_len dropout :
  (0 <= seq_len)%Z -> (1 <= d_model)%Z ->
  (0 <= dropout)%Q -> (dropout <= 1)%Q ->
  let n := Z.to_nat seq_len in
  let d := Z.to_nat d_model in
  let k := (d + 1) / 2 in
  exists (a t1 : rtensor),
    shape a = [n; k] /\ shape t1 = [n; d] /\
    (forall r c, r < n -> c < d -> Nat.even c = true ->
       at_ t1 [r; c] = pe_entry d_model r c) /\
    (forall r j, r < n -> j < k ->
       at_ (tmap cos a) [r; j] = pe_entry d_model r (2 * j + 1)) /\
    PositionalEncoding.init d_model seq_len dropout =
      (pe <-r setitem_cols 1 2 t1 (tmap cos a) ;;
       pe <-r unsqueeze 0 pe ;;
       Ok (PositionalEncoding.mk d_model seq_len (Dropout.mk dropout true) pe)).
Proof.
  intros HL Hd H0 H1 n d k. unfold PositionalEncoding.init.
  rewrite (dropout_init_ok _ H0 H1). cbn [rbind].
  rewrite zeros_ok by (repeat constructor; lia). cbn [rbind map].
  unfold arange at 1. destruct (Z.ltb_spec seq_len 0); [lia|]. cbn [rbind].
  replace ((seq_len + 1 - 1) / 1)%Z with seq_len
    by (rewrite Z.div_1_r; lia).
  unfold unsqueeze at 1. cbn [rank shape length Nat.leb rbind insert_at
                                firstn skipn app].
  unfold arange at 1. destruct (Z.ltb_spec d_model 0); [lia|]. cbn [rbind].
  unfold py_truediv. destruct (Z.eqb_spec d_model 0); [lia|]. cbn [rbind].
  replace (Z.to_nat ((d_model + 2 - 1) / 2)) with k.
  2:{ unfold k, d. rewrite Z2Nat.inj_div by lia.
      rewrite Z2Nat.inj_sub, Z2Nat.inj_add by lia.
      change (Z.to_nat 2) with 2. change (Z.to_nat 1) with 1.
      f_equal. lia. }
  unfold tmul, binop. cbn [shape tmap]. rewrite broadcast_col_row.
  cbn [rbind].
  match goal with
  | |- context [setitem_cols 0 2 ?t ?s] =>
      destruct (setitem_cols_ok 0 2 t s n d k eq_refl eq_refl)
        as (t1 & E1 & S1 & V1)
  end.
  { left. unfold k. rewrite Nat.sub_0_r. f_equal. lia. }
  rewrite E1. cbn [rbind].
  eexists _, t1. split; [|split; [exact S1|split; [|split; [|reflexivity]]]].
  - reflexivity.
  - intros r c Hr Hc Hev. rewrite V1 by assumption. cbn [Nat.leb andb].
    rewrite Nat.sub_0_r.
    assert (c mod 2 = 0) as Hm.
    { apply Nat.even_spec in Hev. destruct Hev as [m ->].
      rewrite Nat.mul_comm. apply Nat.Div0.mod_mul. }
    rewrite Hm. cbn [Nat.eqb]. unfold pe_entry. rewrite Hev.
    cbn [tmap at_ shape]. cbn [bc_index length Nat.sub skipn combine map fst snd
                                 Nat.eqb remove_at firstn app nth].
    assert (c / 2 < k) as Hck.
    { unfold k. apply Nat.Div0.div_lt_upper_bound.
      pose proof (Nat.div_mod_eq (d + 1) 2).
      pose proof (Nat.mod_upper_bound (d + 1) 2). lia. }
    destruct (Nat.eqb_spec (Z.to_nat seq_len) 1) as [Hn|Hn];
      [assert (r = 0) as -> by (unfold n in Hr; lia)|];
      (destruct (Nat.eqb_spec k 1) as [Hk|Hk];
       [assert (c / 2 = 0) as -> by lia|]); reflexivity.
  - intros r j Hr Hj. unfold pe_entry.
    assert (Nat.even (2 * j + 1) = false) as ->.
    { rewrite Nat.add_comm, Nat.even_add_mul_2. reflexivity. }
    assert ((2 * j + 1) / 2 = j) as ->.
    { rewrite Nat.mul_comm, Nat.div_add_l by lia. cbn. lia. }
    cbn [tmap at_ shape]. cbn [bc_index length Nat.sub skipn combine map fst snd
                                 Nat.eqb remove_at firstn app nth].
    destruct (Nat.eqb_spec (Z.to_nat seq_len) 1) as [Hn|Hn];
      [assert (r = 0) as -> by (unfold n in Hr; lia)|];
      (destruct (Nat.eqb_spec k 1) as [Hk|Hk];
       [assert (j = 0) as -> by lia|]); reflexivity.
Qed.

Lemma pe_init_ok d_model seq_len dropout :
  (0 <= seq_len)%Z -> (1 <= d_model)%Z ->
  (0 <= dropout)%Q -> (dropout <= 1)%Q ->
  Z.even d_model = true \/ d_model = 1%Z ->
  exists pe,
    PositionalEncoding.init d_model seq_len dropout =
      Ok (PositionalEncoding.mk d_model seq_len (Dropout.mk dropout true) pe)
    /\ shape pe = [1; Z.to_nat seq_len; Z.to_nat d_model]
    /\ forall pos c, pos < Z.to_nat seq_len -> c < Z.to_nat d_model ->
         at_ pe [0; pos; c] = pe_entry d_model pos c.
Proof.
  intros HL Hd H0 H1 Hshape.
  destruct (pe_init_run d_model seq_len dropout HL Hd H0 H1)
    as (a & t1 & Sa & S1 & V1 & Vc & E).
  cbv zeta in *. set (n := Z.to_nat seq_len) in *.
  set (d := Z.to_nat d_model) in *.
  assert (Hd2 : Nat.even d = true \/ d = 1).
  { destruct Hshape as [He| ->]; [left | right; reflexivity].
    apply Z.even_spec in He. destruct He as [m ->].
    unfold d. rewrite Z2Nat.inj_mul by lia. apply Nat.even_spec.
    exists (Z.to_nat m). reflexivity. }
  destruct (setitem_cols_ok 1 2 t1 (tmap cos a) n d ((d + 1) / 2) S1 Sa)
    as (t2 & E2 & S2 & V2).
  { destruct Hd2 as [He| ->]; [left | right; reflexivity].
    apply Nat.even_spec in He. destruct He as [m Hm].
    assert (1 <= d) by (unfold d; lia).
    replace (d - 1 + 2 - 1) with (m * 2) by lia.
    replace (d + 1) with (1 + m * 2) by lia.
    rewrite Nat.div_add, Nat.div_mul by lia. reflexivity. }
  rewrite E, E2. cbn [rbind]. unfold unsqueeze. cbn [Nat.leb rbind].
  eexists. split; [reflexivity|]. split.
  - cbn [shape]. rewrite S2. reflexivity.
  - intros pos c Hp Hc. cbn [at_ remove_at firstn skipn app].
    rewrite V2 by assumption.
    destruct (Nat.even c) eqn:Hev.
    + assert (((1 <=? c) && ((c - 1) mod 2 =? 0)) = false) as ->.
      { apply Nat.even_spec in Hev. destruct Hev as [m ->].
        destruct m as [|m]; [reflexivity|].
        replace (2 * S m - 1) with (1 + m * 2) by lia.
        rewrite Nat.Div0.mod_add. cbn. rewrite ?andb_false_r. reflexivity. }
      apply V1; assumption.
    + assert (Hodd : Nat.odd c = true)
        by (rewrite <- Nat.negb_even, Hev; reflexivity).
      apply Nat.odd_spec in Hodd. destruct Hodd as [j ->].
      replace (2 * j + 1 - 1) with (j * 2) by lia.
      rewrite Nat.Div0.mod_mul, Nat.div_mul by lia.
      assert (Hj : j < (d + 1) / 2).
      { apply Nat.div_le_lower_bound; lia. }
      assert ((1 <=? 2 * j + 1) = true) as -> by (apply Nat.leb_le; lia).
      cbn [andb Nat.eqb].
      destruct (Nat.eqb_spec ((d + 1) / 2) 1) as [Hk|Hk].
      * assert (j = 0) as -> by lia. apply (Vc pos 0); lia.
      * apply Vc; assumption.
Qed.

Lemma pe_init_odd d_model seq_len dropout :
  (0 <= seq_len)%Z -> (3 <= d_model)%Z -> Z.odd d_model = true ->
  (0 <= dropout)%Q -> (dropout <= 1)%Q ->
  PositionalEncoding.init d_model seq_len dropout = Err RuntimeError.
Proof.
  intros HL Hd Hodd H0 H1.
  destruct (pe_init_run d_model seq_len dropout HL ltac:(lia) H0 H1)
    as (a & t1 & Sa & S1 & _ & _ & E).
  cbv zeta in *. rewrite E.
  rewrite (setitem_cols_mismatch 1 2 t1 (tmap cos a) _ _ _ S1 Sa);
    [reflexivity| |].
  - apply Z.odd_spec in Hodd. destruct Hodd as [m ->].
    replace (Z.to_nat (2 * m + 1)) with (1 + Z.to_nat m * 2) by lia.
    replace (1 + Z.to_nat m * 2 + 1) with (1 * 2 + Z.to_nat m * 2) by lia.
    replace (1 + Z.to_nat m * 2 - 1 + 2 - 1) with (1 + Z.to_nat m * 2) by lia.
    rewrite <- Nat.mul_add_distr_r, Nat.div_mul by lia.
    rewrite Nat.div_add by lia. cbn. lia.
  - apply Z.odd_spec in Hodd. destruct Hodd as [m ->].
    replace (Z.to_nat (2 * m + 1) + 1) with ((1 + Z.to_nat m) * 2) by lia.
    rewrite Nat.div_mul by lia. lia.
Qed.

Lemma pe_init_odd_fails d_model seq_len dropout :
  Z.odd d_model = true -> d_model <> 1%Z ->
  exists e, PositionalEncoding.init d_model seq_len dropout = Err e.
Proof.
  intros Hodd Hne. unfold PositionalEncoding.init.
  destruct (Dropout.init dropout) as [dr|e] eqn:Hdr; [|eexists; reflexivity].
  cbn [rbind].
  destruct (Z_lt_le_dec seq_len 0) as [HL|HL].
  { rewrite zeros_negative by (constructor; assumption).
    eexists; reflexivity. }
  destruct (Z_lt_le_dec d_model 0) as [Hd|Hd].
  { rewrite zeros_negative by (right; left; assumption).
    eexists; reflexivity. }
  assert (3 <= d_model)%Z.
  { apply Z.odd_spec in Hodd. destruct Hodd as [m Hm]. lia. }
  assert (Hp : (0 <= dropout)%Q /\ (dropout <= 1)%Q).
  { unfold Dropout.init in Hdr.
    destruct (Qle_bool 0 dropout) eqn:Ha; [|discriminate].
    destruct (Qle_bool dropout 1) eqn:Hb; [|discriminate].
    split; apply Qle_bool_iff; assumption. }
  destruct Hp as [H0 H1].
  pose proof (pe_init_odd d_model seq_len dropout HL H Hodd H0 H1) as E.
  unfold PositionalEncoding.init in E. rewrite Hdr in E. cbn [rbind] in E.
  eexists. exact E.
Qed.

Lemma pe_init_zero_width seq_len dropout :
  (0 <= seq_len)%Z -> (0 <= dropout)%Q -> (dropout <= 1)%Q ->
  PositionalEncoding.init 0 seq_len dropout = Err ZeroDivisionError.
Proof.
  intros HL H0 H1. unfold PositionalEncoding.init.
  rewrite (dropout_init_ok _ H0 H1). cbn [rbind].
  rewrite zeros_ok by (repeat constructor; lia). cbn [rbind].
  unfold arange at 1. destruct (Z.ltb_spec seq_len 0); [lia|].
  reflexivity.
Qed.

Lemma pe_init_inv d_model seq_len dropout self :
  PositionalEncoding.init d_model seq_len dropout = Ok self ->
  (0 <= seq_len)%Z /\ (1 <= d_model)%Z /\
  (0 <= dropout)%Q /\ (dropout <= 1)%Q /\
  (Z.even d_model = true \/ d_model = 1%Z).
Proof.
  intros E.
  assert (Hp : (0 <= dropout)%Q /\ (dropout <= 1)%Q).
  { unfold PositionalEncoding.init, Dropout.init in E.
    destruct (Qle_bool 0 dropout) eqn:Ha; [|discriminate].
    destruct (Qle_bool dropout 1) eqn:Hb; [|discriminate].
    split; apply Qle_bool_iff; assumption. }
  destruct Hp as [H0 H1].
  assert (HL : (0 <= seq_len)%Z /\ (0 <= d_model)%Z).
  { unfold PositionalEncoding.init in E.
    rewrite (dropout_init_ok _ H0 H1) in E. cbn [rbind] in E.
    destruct (Z_lt_le_dec seq_len 0) as [HL|HL].
    { rewrite zeros_negative in E by (constructor; assumption).
      discriminate. }
    destruct (Z_lt_le_dec d_model 0) as [Hd|Hd].
    { rewrite zeros_negative in E by (right; left; assumption).
      discriminate. }
    split; assumption. }
  destruct HL as [HL Hd].
  assert (d_model <> 0%Z).
  { intros ->. rewrite pe_init_zero_width in E by assumption. discriminate. }
  repeat split; try assumption; try lia.
  destruct (Z.even d_model) eqn:Hev; [left; reflexivity | right].
  destruct (Z.eq_dec d_model 1) as [|Hne]; [assumption|].
  assert (Hodd : Z.odd d_model = true)
    by (rewrite <- Z.negb_even, Hev; reflexivity).
  destruct (pe_init_odd_fails d_model seq_len dropout Hodd Hne) as (e & He).
  congruence.
Qed.

(** C9 (as amended).  [PositionalEncoding.__init__] fails for every odd
    [d_model] other than 1, and so does [build_transformer]: for
    [d_model >= 3] the cosine assignment raises, since its
    [(d_model + 1) / 2] columns do not fit the [d_model / 2] columns of the
    odd-index slice; [d_model = 63] with [h = 1] cannot be built. *)
Theorem C9_odd_width_fails :
  forall (d_model : Z),
    Z.odd d_model = true -> d_model <> 1%Z ->
    (forall seq_len dropout,
        exists e, PositionalEncoding.init d_model seq_len dropout = Err e) /\
    (forall seq_len dropout,
        (3 <= d_model)%Z -> (0 <= seq_len)%Z ->
        (0 <= dropout)%Q -> (dropout <= 1)%Q ->
        PositionalEncoding.init d_model seq_len dropout = Err RuntimeError) /\
    (forall v sl pl c N h dropout d_ff header g,
        exists e,
          build_transformer v sl pl c d_model N h dropout d_ff header g
          = Err e).
Proof.
  intros d_model Hodd Hne. split; [|split].
  - intros. apply pe_init_odd_fails; assumption.
  - intros. apply pe_init_odd; assumption.
  - intros. unfold build_transformer. fails_step.
    destruct (pe_init_odd_fails d_model sl dropout Hodd Hne) as (e & He).
    exists e. apply bind_err. unfold lift. rewrite He. reflexivity.
Qed.

Lemma C9_odd_width_fails_witness :
  PositionalEncoding.init 63 150 default_dropout = Err RuntimeError /\
  exists e,
    build_transformer 256 150 10 2 63 default_N 1 default_dropout
      default_d_ff default_header zero_rng = Err e.
Proof.
  split.
  - apply (proj1 (proj2 (C9_odd_width_fails 63 eq_refl ltac:(discriminate))));
      [lia | lia | unfold default_dropout, Qle; simpl; lia
       | unfold default_dropout, Qle; simpl; lia].
  - apply (proj2 (proj2 (C9_odd_width_fails 63 eq_refl ltac:(discriminate)))).
Defined.

(** ** C7: operations on a missing submodule *)

Lemma params_transformer_inv m g m' g' :
  Params.transformer m g = Ok (m', g') ->
  (Transformer.seq_embed m = None -> Transformer.seq_embed m' = None) /\
  (Transformer.projection_layer m = None ->
   Transformer.projection_layer m' = None) /\
  Transformer.seq_pos m' = Transformer.seq_pos m.
Proof.
  unfold Params.transformer. intros H.
  ok_step H. ok_step H. ok_step H. inversion H; subst. cbn.
  split; [|split; [|reflexivity]].
  - intros Hn. rewrite Hn in E0. inversion E0. reflexivity.
  - intros Hn. rewrite Hn in E1. inversion E1. reflexivity.
Qed.

Lemma build_transformer_inv v sl pl c d_model N h dropout d_ff header g
      tr tp g' :
  build_transformer v sl pl c d_model N h dropout d_ff header g
    = Ok ((tr, tp), g') ->
  Transformer.seq_embed tp = None /\
  Transformer.projection_layer tp = None /\
  (header = true -> Transformer.projection_layer tr = None).
Proof.
  unfold build_transformer. intros H.
  do 10 ok_step H. inversion H; subst. clear H.
  repeat match goal with
         | E : Params.transformer _ _ = Ok _ |- _ =>
             apply params_transformer_inv in E; destruct E as (? & ? & _)
         end.
  split; [auto|]. split; [auto|].
  intros ->.
  match goal with
  | E : (if negb true then _ else _) _ = Ok (?p, _) |- _ =>
      cbn in E; inversion E; subst
  end. auto.
Qed.

(** C7.  On a [Transformer] whose [seq_embed] is [None], [embed] fails by
    calling [None] (Python's [TypeError: 'NoneType' object is not
    callable]), and so does [project] when [projection_layer] is [None]; no
    other error is produced.  The packet-level transformer that
    [build_transformer] returns has neither submodule, and with
    [header=True] the first transformer has no projection. *)
Theorem C7_missing_submodule :
  (forall self seq,
      Transformer.seq_embed self = None ->
      Transformer.embed self seq = Err TypeError_NoneType_not_callable) /\
  (forall self x,
      Transformer.projection_layer self = None ->
      Transformer.project self x = Err TypeError_NoneType_not_callable) /\
  (forall v sl pl c d_model N h dropout d_ff header g tr tp g',
      build_transformer v sl pl c d_model N h dropout d_ff header g
        = Ok ((tr, tp), g') ->
      (forall seq,
          Transformer.embed tp seq = Err TypeError_NoneType_not_callable) /\
      (forall x,
          Transformer.project tp x = Err TypeError_NoneType_not_callable) /\
      (header = true ->
       forall x,
         Transformer.project tr x = Err TypeError_NoneType_not_callable)).
Proof.
  assert (He : forall self seq,
             Transformer.seq_embed self = None ->
             Transformer.embed self seq = Err TypeError_NoneType_not_callable).
  { intros self seq Hn. unfold Transformer.embed. rewrite Hn. reflexivity. }
  assert (Hp : forall self x,
             Transformer.projection_layer self = None ->
             Transformer.project self x =
             Err TypeError_NoneType_not_callable).
  { intros self x Hn. unfold Transformer.project. rewrite Hn. reflexivity. }
  split; [exact He|]. split; [exact Hp|].
  intros v sl pl c d_model N h dropout d_ff header g tr tp g' H.
  apply build_transformer_inv in H. destruct H as (S & P & Q).
  split; [|split]; intros; auto.
Qed.

(** ** Broadcasting along the last axis *)

Lemma bc_rev_nil_r a : bc_rev a [] = Some a.
Proof. destruct a; reflexivity. Qed.

Lemma bc_rev_same s : bc_rev s s = Some s.
Proof.
  induction s as [|x s IH]; [reflexivity|].
  cbn. rewrite IH, Nat.eqb_refl. reflexivity.
Qed.

Lemma broadcast_same s : broadcast_shapes s s = Some s.
Proof.
  unfold broadcast_shapes. rewrite bc_rev_same. cbn.
  rewrite rev_involutive. reflexivity.
Qed.

Lemma broadcast_keepdim pre n :
  broadcast_shapes (pre ++ [n]) (pre ++ [1]) = Some (pre ++ [n]).
Proof.
  unfold broadcast_shapes. rewrite !rev_unit. cbn. rewrite bc_rev_same.
  destruct (n =? 1) eqn:E.
  - cbn. rewrite rev_involutive. reflexivity.
  - cbn. rewrite rev_involutive. reflexivity.
Qed.

Lemma broadcast_vector_l pre n :
  broadcast_shapes [n] (pre ++ [n]) = Some (pre ++ [n]).
Proof.
  unfold broadcast_shapes. rewrite rev_unit. cbn.
  rewrite Nat.eqb_refl. cbn. rewrite rev_involutive. reflexivity.
Qed.

Lemma broadcast_vector_r pre n :
  broadcast_shapes (pre ++ [n]) [n] = Some (pre ++ [n]).
Proof.
  unfold broadcast_shapes. rewrite rev_unit. cbn.
  rewrite bc_rev_nil_r, Nat.eqb_refl. cbn. rewrite rev_involutive.
  reflexivity.
Qed.

Lemma in_range_length idx s : in_range idx s -> length idx = length s.
Proof. apply Forall2_length. Qed.

Lemma in_range_snoc ipre pre j n :
  in_range (ipre ++ [j]) (pre ++ [n]) <-> in_range ipre pre /\ j < n.
Proof.
  unfold in_range. split.
  - intros H. apply Forall2_app_inv_r in H.
    destruct H as (l1 & l2 & H1 & H2 & Heq).
    inversion H2 as [|? ? ? ? Hj Hnil]; subst. inversion Hnil; subst.
    apply app_inj_tail in Heq. destruct Heq; subst. split; assumption.
  - intros [H Hj]. apply Forall2_app; [assumption|].
    constructor; [assumption | constructor].
Qed.

Lemma bc_index_same s idx : in_range idx s -> bc_index s idx = idx.
Proof.
  intros H. unfold bc_index.
  rewrite (in_range_length _ _ H), Nat.sub_diag. cbn [skipn].
  induction H as [|i d idx s Hlt _ IH]; [reflexivity|].
  cbn. rewrite IH. destruct (Nat.eqb_spec d 1); [f_equal; lia | reflexivity].
Qed.

Lemma combine_snoc {A B} (a : list A) (b : list B) x y :
  length a = length b ->
  combine (a ++ [x]) (b ++ [y]) = combine a b ++ [(x, y)].
Proof.
  revert b. induction a as [|u a IH]; intros [|v b] Hl; try discriminate.
  - reflexivity.
  - cbn. rewrite IH by (cbn in Hl; lia). reflexivity.
Qed.

Lemma bc_index_keepdim pre ipre j :
  in_range ipre pre -> bc_index (pre ++ [1]) (ipre ++ [j]) = ipre ++ [0].
Proof.
  intros H. unfold bc_index.
  rewrite !length_app, (in_range_length _ _ H), Nat.sub_diag. cbn [skipn].
  rewrite combine_snoc by (symmetry; apply in_range_length; assumption).
  rewrite map_app. cbn. f_equal.
  pose proof (bc_index_same pre ipre H) as Hs. unfold bc_index in Hs.
  rewrite (in_range_length _ _ H), Nat.sub_diag in Hs. exact Hs.
Qed.

Lemma skipn_snoc {A} (l : list A) x : skipn (length l) (l ++ [x]) = [x].
Proof. induction l; [reflexivity | assumption]. Qed.

Lemma bc_index_vector ipre j n :
  j < n -> bc_index [n] (ipre ++ [j]) = [j].
Proof.
  intros Hj. unfold bc_index. rewrite length_app. cbn [length].
  replace (length ipre + 1 - 1) with (length ipre) by lia.
  rewrite skipn_snoc. cbn.
  destruct (Nat.eqb_spec n 1); [f_equal; lia | reflexivity].
Qed.

Lemma keep_last_snoc pre n : keep_last (pre ++ [n]) = pre ++ [1].
Proof.
  unfold keep_last. rewrite removelast_last.
  destruct pre; reflexivity.
Qed.

Lemma set_last_snoc ipre j k : set_last (ipre ++ [j]) k = ipre ++ [k].
Proof.
  unfold set_last. rewrite removelast_last.
  destruct ipre; reflexivity.
Qed.

Lemma last_dim_snoc pre n : last_dim (pre ++ [n]) = n.
Proof. unfold last_dim. rewrite rev_unit. reflexivity. Qed.

(** ** C6: LayerNormalization *)

Lemma rsum_ext n f g :
  (forall k, k < n -> f k = g k) -> rsum n f = rsum n g.
Proof.
  induction n as [|n IH]; intros H; [reflexivity|].
  cbn. rewrite IH by (intros; apply H; lia). rewrite H by lia. reflexivity.
Qed.

Lemma mean_last_at (x : rtensor) pre n ipre j :
  shape x = pre ++ [n] ->
  at_ (mean_last x) (ipre ++ [j]) = row_mean x ipre n.
Proof.
  intros Hx. unfold mean_last, row_mean, row_sum. cbn [at_].
  rewrite Hx, last_dim_snoc. f_equal. apply rsum_ext. intros k _.
  rewrite set_last_snoc. reflexivity.
Qed.

Lemma std_last_at (x : rtensor) pre n ipre j :
  shape x = pre ++ [n] ->
  at_ (std_last x) (ipre ++ [j]) = row_std x ipre n.
Proof.
  intros Hx. unfold std_last, row_std, row_sum. cbn [at_].
  rewrite (mean_last_at x pre n ipre j Hx).
  rewrite Hx, last_dim_snoc. f_equal. f_equal. apply rsum_ext. intros k _.
  rewrite set_last_snoc. reflexivity.
Qed.

Lemma layer_norm_forward (self : LayerNormalization.t) (x : rtensor) pre n :
  shape x = pre ++ [n] ->
  shape (LayerNormalization.alpha self) = [n] ->
  shape (LayerNormalization.bias self) = [n] ->
  exists y,
    LayerNormalization.forward self x = Ok y /\
    shape y = pre ++ [n] /\
    forall ipre j, in_range ipre pre -> j < n ->
      at_ y (ipre ++ [j]) =
      (at_ (LayerNormalization.alpha self) [j] *
       (at_ x (ipre ++ [j]) - row_mean x ipre n) /
       (row_std x ipre n + LayerNormalization.eps self) +
       at_ (LayerNormalization.bias self) [j])%R.
Proof.
  intros Hx Ha Hb.
  unfold LayerNormalization.forward, tsub, tmul, tdiv, tadd, binop.
  cbn [shape mean_last std_last tmap].
  rewrite Hx, keep_last_snoc, broadcast_keepdim. cbn [rbind shape].
  rewrite Ha, broadcast_vector_l. cbn [rbind shape].
  rewrite broadcast_keepdim. cbn [rbind shape].
  rewrite Hb, broadcast_vector_r.
  eexists. split; [reflexivity|]. split; [reflexivity|].
  intros ipre j Hi Hj. cbn [at_].
  assert (Hr : in_range (ipre ++ [j]) (pre ++ [n]))
    by (apply in_range_snoc; split; assumption).
  rewrite !(bc_index_same _ _ Hr), !(bc_index_vector _ _ _ Hj).
  rewrite !(bc_index_keepdim _ _ _ Hi).
  rewrite (mean_last_at x pre n ipre 0 Hx).
  unfold tmap. cbn [at_]. rewrite (std_last_at x pre n ipre 0 Hx).
  reflexivity.
Qed.

Lemma layer_norm_init features eps :
  LayerNormalization.init (Z.of_nat features) eps =
  Ok (LayerNormalization.mk eps (full [features] 1%R) (full [features] 0%R)).
Proof.
  unfold LayerNormalization.init.
  rewrite ones_ok, zeros_ok by (repeat constructor; lia).
  cbn. rewrite Nat2Z.id. reflexivity.
Qed.

(** C6.  [LayerNormalization(features)] starts with [alpha] all ones and
    [bias] all zeros, both of length [features]; and for every module whose
    [alpha] and [bias] have that length and every input of shape
    (..., features), [forward] returns a tensor of the same shape whose
    entries are [alpha * (x - mean) / (std + eps) + bias], with the mean and
    the standard deviation taken along the last axis. *)
Theorem C6_layer_normalization :
  forall (features : nat) (eps : R),
    LayerNormalization.init (Z.of_nat features) eps =
      Ok (LayerNormalization.mk eps (full [features] 1%R)
                                    (full [features] 0%R)) /\
    forall (self : LayerNormalization.t) (x : rtensor) (pre : list nat),
      shape (LayerNormalization.alpha self) = [features] ->
      shape (LayerNormalization.bias self) = [features] ->
      shape x = pre ++ [features] ->
      exists y,
        LayerNormalization.forward self x = Ok y /\
        shape y = pre ++ [features] /\
        forall ipre j, in_range ipre pre -> j < features ->
          at_ y (ipre ++ [j]) =
          (at_ (LayerNormalization.alpha self) [j] *
           (at_ x (ipre ++ [j]) - row_mean x ipre features) /
           (row_std x ipre features + LayerNormalization.eps self) +
           at_ (LayerNormalization.bias self) [j])%R.
Proof.
  intros features eps. split; [apply layer_norm_init|].
  intros self x pre Ha Hb Hx. apply layer_norm_forward; assumption.
Qed.

Lemma C6_layer_normalization_witness :
  exists y,
    LayerNormalization.forward
      (LayerNormalization.mk LayerNormalization.default_eps
         (full [2] 1%R) (full [2] 0%R)) sample_rows = Ok y /\
    shape y = [3] ++ [2] /\
    forall ipre j, in_range ipre [3] -> j < 2 ->
      at_ y (ipre ++ [j]) =
      (1 * (at_ sample_rows (ipre ++ [j]) - row_mean sample_rows ipre 2) /
       (row_std sample_rows ipre 2 + LayerNormalization.default_eps) + 0)%R.
Proof.
  apply (proj2 (C6_layer_normalization 2 LayerNormalization.default_eps)
           (LayerNormalization.mk LayerNormalization.default_eps
              (full [2] 1%R) (full [2] 0%R)) sample_rows [3]);
    reflexivity.
Defined.

(** ** C5: PositionalEncoding.forward *)

Lemma bc_rev_app l a c :
  bc_rev (l ++ a) (l ++ c) =
  match bc_rev a c with Some r => Some (l ++ r) | None => None end.
Proof.
  induction l as [|x l IH]; cbn [app].
  - destruct (bc_rev a c); reflexivity.
  - cbn [bc_rev]. rewrite IH. destruct (bc_rev a c); [|reflexivity].
    rewrite Nat.eqb_refl. reflexivity.
Qed.

Lemma broadcast_batch b s : broadcast_shapes (b :: s) (1 :: s) = Some (b :: s).
Proof.
  unfold broadcast_shapes. cbn [rev]. rewrite bc_rev_app. cbn [bc_rev].
  destruct (b =? 1) eqn:E; cbn; rewrite rev_unit, rev_involutive; reflexivity.
Qed.

Lemma broadcast_rows_mismatch b n L D :
  n <> L -> n <> 1 -> L <> 1 ->
  broadcast_shapes [b; n; D] [1; L; D] = None.
Proof.
  intros H1 H2 H3. unfold broadcast_shapes. cbn [rev app].
  change [D; n; b] with ([D] ++ [n; b]). change [D; L; 1] with ([D] ++ [L; 1]).
  rewrite bc_rev_app. cbn [bc_rev].
  destruct (b =? 1);
    destruct (Nat.eqb_spec n L); try contradiction;
    destruct (Nat.eqb_spec n 1); try contradiction;
    destruct (Nat.eqb_spec L 1); try contradiction; reflexivity.
Qed.

Lemma broadcast_single_row b n D :
  broadcast_shapes [b; n; D] [1; 1; D] = Some [b; n; D].
Proof.
  unfold broadcast_shapes. cbn [rev app].
  change [D; n; b] with ([D] ++ [n; b]). change [D; 1; 1] with ([D] ++ [1; 1]).
  rewrite bc_rev_app. cbn [bc_rev].
  destruct (b =? 1); destruct (n =? 1) eqn:E; cbn; try reflexivity.
Qed.

Lemma bc_index_batch n D i j c :
  j < n -> c < D -> bc_index [1; n; D] [i; j; c] = [0; j; c].
Proof.
  intros Hj Hc. cbn.
  destruct (Nat.eqb_spec n 1); destruct (Nat.eqb_spec D 1);
    repeat f_equal; lia.
Qed.

Lemma bc_index3 b n D i j c :
  i < b -> j < n -> c < D -> bc_index [b; n; D] [i; j; c] = [i; j; c].
Proof.
  intros. apply bc_index_same. repeat constructor; assumption.
Qed.

Lemma pe_forward_within (self : PositionalEncoding.t) (x : rtensor)
      b n D L g :
  shape (PositionalEncoding.pe self) = [1; L; D] ->
  shape x = [b; n; D] -> n <= L ->
  exists y,
    PositionalEncoding.forward self x g =
      Dropout.forward (PositionalEncoding.dropout self) y g /\
    shape y = [b; n; D] /\
    forall i j c, i < b -> j < n -> c < D ->
      at_ y [i; j; c] =
      (at_ x [i; j; c] + at_ (PositionalEncoding.pe self) [0%nat; j; c])%R.
Proof.
  intros Hpe Hx Hn. unfold PositionalEncoding.forward.
  unfold bind at 1. unfold lift at 1, shape_at. rewrite Hx. cbn [nth_error].
  unfold bind at 1. unfold lift at 1, narrow1. rewrite Hpe.
  rewrite Nat.min_l by assumption.
  unfold bind at 1. unfold lift at 1, tadd, binop. cbn [shape].
  rewrite Hx, broadcast_batch.
  eexists. split; [reflexivity|]. split; [reflexivity|].
  intros i j c Hi Hj Hc. cbn [at_].
  rewrite bc_index3, bc_index_batch by assumption. reflexivity.
Qed.

Lemma pe_forward_beyond (self : PositionalEncoding.t) (x : rtensor)
      b n D L g :
  shape (PositionalEncoding.pe self) = [1; L; D] ->
  shape x = [b; n; D] -> L < n ->
  (exists rows,
      narrow1 n (PositionalEncoding.pe self) = Ok rows /\
      shape rows = [1; L; D] /\
      at_ rows = at_ (PositionalEncoding.pe self)) /\
  (L <> 1 -> n <> 1 ->
   PositionalEncoding.forward self x g = Err RuntimeError).
Proof.
  intros Hpe Hx Hn. split.
  - unfold narrow1. rewrite Hpe. rewrite Nat.min_r by lia.
    eexists. split; [reflexivity|]. split; reflexivity.
  - intros HL H1. unfold PositionalEncoding.forward.
    unfold bind at 1. unfold lift at 1, shape_at. rewrite Hx. cbn [nth_error].
    unfold bind at 1. unfold lift at 1, narrow1. rewrite Hpe.
    rewrite Nat.min_r by lia.
    unfold bind at 1. unfold lift at 1, tadd, binop. cbn [shape].
    rewrite Hx, broadcast_rows_mismatch by lia. reflexivity.
Qed.

Lemma pe_forward_single_row (self : PositionalEncoding.t) (x : rtensor)
      b n D g :
  shape (PositionalEncoding.pe self) = [1; 1; D] ->
  shape x = [b; n; D] -> 1 < n ->
  exists y,
    PositionalEncoding.forward self x g =
      Dropout.forward (PositionalEncoding.dropout self) y g /\
    shape y = [b; n; D] /\
    forall i j c, i < b -> j < n -> c < D ->
      at_ y [i; j; c] =
      (at_ x [i; j; c] +
       at_ (PositionalEncoding.pe self) [0%nat; 0%nat; c])%R.
Proof.
  intros Hpe Hx Hn. unfold PositionalEncoding.forward.
  unfold bind at 1. unfold lift at 1, shape_at. rewrite Hx. cbn [nth_error].
  unfold bind at 1. unfold lift at 1, narrow1. rewrite Hpe.
  rewrite Nat.min_r by lia.
  unfold bind at 1. unfold lift at 1, tadd, binop. cbn [shape].
  rewrite Hx, broadcast_single_row.
  eexists. split; [reflexivity|]. split; [reflexivity|].
  intros i j c Hi Hj Hc. cbn [at_].
  rewrite bc_index3 by assumption. cbn.
  destruct (Nat.eqb_spec D 1); [|reflexivity].
  assert (c = 0) as -> by lia. reflexivity.
Qed.

(** C5 (as amended).  For an input of shape (batch, n, d_model) and a table
    of [seq_len] rows: when [n <= seq_len], [forward] adds row [j] of the
    table to position [j] of every batch element and passes the sum to the
    dropout; when [n > seq_len] the slice [pe[:, :n, :]] silently keeps the
    [seq_len] rows there are, and the addition that follows raises a shape
    error unless [seq_len = 1] (the single row is then added to every
    position) or [n = 1]. *)
Theorem C5_positional_forward :
  forall (self : PositionalEncoding.t) (x : rtensor)
         (batch n d_model seq_len : nat) (g : rng),
    shape (PositionalEncoding.pe self) = [1; seq_len; d_model] ->
    shape x = [batch; n; d_model] ->
    (n <= seq_len ->
     exists y,
       PositionalEncoding.forward self x g =
         Dropout.forward (PositionalEncoding.dropout self) y g /\
       shape y = [batch; n; d_model] /\
       forall i j c, i < batch -> j < n -> c < d_model ->
         at_ y [i; j; c] =
         (at_ x [i; j; c] +
          at_ (PositionalEncoding.pe self) [0%nat; j; c])%R) /\
    (seq_len < n ->
     (exists rows,
         narrow1 n (PositionalEncoding.pe self) = Ok rows /\
         shape rows = [1; seq_len; d_model] /\
         at_ rows = at_ (PositionalEncoding.pe self)) /\
     (seq_len <> 1 -> n <> 1 ->
      PositionalEncoding.forward self x g = Err RuntimeError) /\
     (seq_len = 1 ->
      exists y,
        PositionalEncoding.forward self x g =
          Dropout.forward (PositionalEncoding.dropout self) y g /\
        shape y = [batch; n; d_model] /\
        forall i j c, i < batch -> j < n -> c < d_model ->
          at_ y [i; j; c] =
          (at_ x [i; j; c] +
           at_ (PositionalEncoding.pe self) [0%nat; 0%nat; c])%R)).
Proof.
  intros self x batch n d_model seq_len g Hpe Hx. split.
  - intros Hn. eapply pe_forward_within; eassumption.
  - intros Hn.
    destruct (pe_forward_beyond self x batch n d_model seq_len g Hpe Hx Hn)
      as [Hrows Hfail].
    split; [exact Hrows|]. split; [exact Hfail|].
    intros ->. eapply pe_forward_single_row; eassumption.
Qed.

Lemma C5_positional_forward_witness :
  exists self,
    PositionalEncoding.init 64 10 default_dropout = Ok self /\
    (exists y,
        PositionalEncoding.forward self (zero_input 2 10 64) zero_rng =
          Dropout.forward (PositionalEncoding.dropout self) y zero_rng /\
        shape y = [2; 10; 64] /\
        forall i j c, i < 2 -> j < 10 -> c < 64 ->
          at_ y [i; j; c] =
          (at_ (zero_input 2 10 64) [i; j; c] +
           at_ (PositionalEncoding.pe self) [0%nat; j; c])%R) /\
    PositionalEncoding.forward self (zero_input 2 11 64) zero_rng =
      Err RuntimeError.
Proof.
  destruct (pe_init_ok 64 10 default_dropout) as (pe & E & Sh & _);
    [lia | lia | unfold default_dropout, Qle; simpl; lia
     | unfold default_dropout, Qle; simpl; lia | left; reflexivity |].
  eexists. split; [exact E|]. split.
  - apply (proj1 (C5_positional_forward (PositionalEncoding.mk 64 10 (Dropout.mk default_dropout true) pe) (zero_input 2 10 64)
                    2 10 64 10 zero_rng Sh eq_refl)). lia.
  - apply (proj2 (C5_positional_forward (PositionalEncoding.mk 64 10 (Dropout.mk default_dropout true) pe) (zero_input 2 11 64)
                    2 11 64 10 zero_rng Sh eq_refl)); lia.
Defined.

(** C5, the claim as stated fails: a table of 10 rows and an input of 11
    positions make [forward] raise a shape error. *)
Lemma C5_counterexample :
  exists self,
    PositionalEncoding.init 64 10 default_dropout = Ok self /\
    PositionalEncoding.forward self (zero_input 1 11 64) zero_rng =
      Err RuntimeError.
Proof.
  destruct (pe_init_ok 64 10 default_dropout) as (pe & E & Sh & _);
    [lia | lia | unfold default_dropout, Qle; simpl; lia
     | unfold default_dropout, Qle; simpl; lia | left; reflexivity |].
  eexists. split; [exact E|].
  apply (pe_forward_beyond (PositionalEncoding.mk 64 10 (Dropout.mk default_dropout true) pe) (zero_input 1 11 64) 1 11 64 10 zero_rng
           Sh eq_refl); lia.
Qed.

(** ** C2, C10: scaled dot-product attention *)

Lemma attention_scores_run (query key value : rtensor) b h q kl dk :
  shape query = [b; h; q; dk] ->
  shape key = [b; h; kl; dk] ->
  exists S : rtensor,
    shape S = [b; h; q; kl] /\
    (forall i0 i1 i j, i0 < b -> i1 < h ->
       at_ S [i0; i1; i; j] = scaled_score query key dk i0 i1 i j) /\
    forall (mask : option itensor) (dropout : option Dropout.t) (g : rng),
      MultiHeadAttentionBlock.attention query key value mask dropout g =
      (attention_scores <-
         match mask with
         | Some mask =>
             mask <- lift (unsqueeze 1 mask) ;;
             mask <- lift (unsqueeze 2 mask) ;;
             mask <- lift (expand [(-1)%Z; Z.of_nat h; Z.of_nat q; (-1)%Z]
                             mask) ;;
             lift (masked_fill S (tmap (Z.eqb 1) mask)
                     MultiHeadAttentionBlock.neg_1e9)
         | None => ret S
         end ;;
       attention_tail attention_scores value dropout) g.
Proof.
  intros Hq Hk.
  assert (Hkt : transpose (-2) (-1) key =
                Ok (mkT [b; h; dk; kl] (fun idx => at_ key (swap 2 3 idx)))).
  { unfold transpose, rank. rewrite Hk. reflexivity. }
  assert (Hmm : forall kt : rtensor, shape kt = [b; h; dk; kl] ->
            matmul query kt =
            Ok (mkT [b; h; q; kl]
                  (fun idx =>
                     let ib := firstn (length idx - 2) idx in
                     let i := nth (length idx - 2) idx 0 in
                     let j := nth (length idx - 1) idx 0 in
                     rsum dk (fun k =>
                       (at_ query (bc_index [b; h] ib ++ [i; k]) *
                        at_ kt (bc_index [b; h] ib ++ [k; j]))%R)))).
  { intros kt Hs. unfold matmul, matmul_nd. rewrite Hq, Hs.
    cbn [split_last2 rev app]. rewrite Nat.eqb_refl, broadcast_same.
    reflexivity. }
  pose (kt := mkT [b; h; dk; kl] (fun idx => at_ key (swap 2 3 idx))).
  exists (tmap (fun x => (x / sqrt (INR dk))%R)
            (mkT [b; h; q; kl]
               (fun idx =>
                  let ib := firstn (length idx - 2) idx in
                  let i := nth (length idx - 2) idx 0 in
                  let j := nth (length idx - 1) idx 0 in
                  rsum dk (fun k =>
                    (at_ query (bc_index [b; h] ib ++ [i; k]) *
                     at_ kt (bc_index [b; h] ib ++ [k; j]))%R)))).
  split; [|split].
  3:{ intros mask dropout g. unfold MultiHeadAttentionBlock.attention.
      unfold bind at 1. unfold lift at 1, shape_last. rewrite Hq.
      cbn [rev app].
      unfold bind at 1. unfold lift at 1. rewrite Hkt. fold kt.
      unfold bind at 1. unfold lift at 1. rewrite (Hmm kt eq_refl).
      destruct mask as [mask|]; [|reflexivity].
      unfold attention_tail, bind, lift, shape_at. rewrite Hq.
      cbn [nth_error].
      destruct (unsqueeze 1 mask) as [m1|e]; [|reflexivity].
      destruct (unsqueeze 2 m1) as [m2|e]; [|reflexivity].
      reflexivity. }
  - reflexivity.
  - intros i0 i1 i j H0 H1. cbn [tmap at_ shape length Nat.sub firstn nth].
    unfold scaled_score. f_equal. apply rsum_ext. intros c _.
    rewrite (bc_index_same [b; h] [i0; i1])
      by (repeat constructor; assumption).
    reflexivity.
Qed.

Lemma expand_dims_keep zs d s :
  expand_dims ((-1)%Z :: zs) (d :: s) =
  match expand_dims zs s with Some r => Some (d :: r) | None => None end.
Proof. reflexivity. Qed.

Lemma expand_dims_one n zs s :
  expand_dims (Z.of_nat n :: zs) (1 :: s) =
  match expand_dims zs s with Some r => Some (n :: r) | None => None end.
Proof.
  cbn [expand_dims]. destruct (expand_dims zs s); [|reflexivity].
  destruct (Z.eqb_spec (Z.of_nat n) (-1)); [lia|].
  destruct (Z.ltb_spec (Z.of_nat n) 0); [lia|].
  rewrite Nat2Z.id. destruct (Nat.eqb_spec n 1) as [->|_]; reflexivity.
Qed.

Lemma mask_fill_run (S : rtensor) (mask : itensor) b h q kl v g :
  shape S = [b; h; q; kl] -> shape mask = [b; kl] ->
  exists S' : rtensor,
    (mask <- lift (unsqueeze 1 mask) ;;
     mask <- lift (unsqueeze 2 mask) ;;
     mask <- lift (expand [(-1)%Z; Z.of_nat h; Z.of_nat q; (-1)%Z] mask) ;;
     lift (masked_fill S (tmap (Z.eqb 1) mask) v)) g = Ok (S', g) /\
    shape S' = [b; h; q; kl] /\
    forall i0 i1 i j, i0 < b -> i1 < h -> i < q -> j < kl ->
      at_ S' [i0; i1; i; j] =
      if (1 =? at_ mask [i0; j])%Z then v else at_ S [i0; i1; i; j].
Proof.
  intros HS Hm.
  unfold bind at 1. unfold lift at 1, unsqueeze, rank. rewrite Hm.
  cbn [length Nat.leb insert_at firstn skipn app].
  unfold bind at 1. unfold lift at 1, unsqueeze, rank.
  cbn [shape length Nat.leb insert_at firstn skipn app].
  unfold bind at 1. unfold lift at 1, expand, rank.
  cbn [shape length Nat.ltb Nat.leb Nat.sub firstn skipn forallb map app].
  rewrite expand_dims_keep, !expand_dims_one, expand_dims_keep.
  cbn [expand_dims].
  unfold lift, masked_fill. cbn [shape tmap]. rewrite HS, broadcast_same.
  destruct (list_eq_dec Nat.eq_dec [b; h; q; kl] [b; h; q; kl]);
    [|contradiction].
  eexists. split; [reflexivity|]. split; [reflexivity|].
  intros i0 i1 i j H0 H1 H2 H3. cbn [at_ tmap].
  rewrite (bc_index_same [b; h; q; kl])
    by (repeat constructor; assumption).
  replace (bc_index [b; 1; 1; kl] [i0; i1; i; j]) with [i0; 0; 0; j].
  - reflexivity.
  - cbn. destruct (Nat.eqb_spec b 1); destruct (Nat.eqb_spec kl 1);
      repeat f_equal; lia.
Qed.



Lemma rsum_const n c : rsum n (fun _ => c) = (INR n * c)%R.
Proof.
  induction n as [|n IH]; [cbn; lra|].
  cbn [rsum]. rewrite IH, S_INR. lra.
Qed.

Lemma softmax_at4 (S : rtensor) b h q kl i0 i1 i j :
  shape S = [b; h; q; kl] ->
  at_ (softmax S) [i0; i1; i; j] =
  (exp (at_ S [i0; i1; i; j]) /
   rsum kl (fun u => exp (at_ S [i0; i1; i; u])))%R.
Proof.
  intros HS. unfold softmax, row_sum. cbn [at_]. rewrite HS. reflexivity.
Qed.









(** ** C8: the explainer's importance masks *)

Lemma exp_square_lower x c c' :
  (0 <= c)%R -> (c <= exp x)%R -> (c' <= c * c)%R -> (c' <= exp (x + x))%R.
Proof. intros H0 H1 H2. rewrite exp_plus. nra. Qed.

Lemma exp_minus_1_lower : ((367699297 / 1000000000) <= exp (-1))%R.
Proof.
  assert (H0 : ((999023437 / 1000000000) <= exp (-1 / 1024))%R)
    by (pose proof (exp_ineq1_le (-1 / 1024)); lra).
  assert (H1 : ((998047827 / 1000000000) <= exp (-1 / 512))%R).
  { replace (-1 / 512)%R with (-1 / 1024 + -1 / 1024)%R by lra.
    apply (exp_square_lower _ (999023437 / 1000000000)%R);
      [lra | exact H0 | lra]. }
  assert (H2 : ((996099464 / 1000000000) <= exp (-1 / 256))%R).
  { replace (-1 / 256)%R with (-1 / 512 + -1 / 512)%R by lra.
    apply (exp_square_lower _ (998047827 / 1000000000)%R);
      [lra | exact H1 | lra]. }
  assert (H3 : ((992214142 / 1000000000) <= exp (-1 / 128))%R).
  { replace (-1 / 128)%R with (-1 / 256 + -1 / 256)%R by lra.
    apply (exp_square_lower _ (996099464 / 1000000000)%R);
      [lra | exact H2 | lra]. }
  assert (H4 : ((984488903 / 1000000000) <= exp (-1 / 64))%R).
  { replace (-1 / 64)%R with (-1 / 128 + -1 / 128)%R by lra.
    apply (exp_square_lower _ (992214142 / 1000000000)%R);
      [lra | exact H3 | lra]. }
  assert (H5 : ((969218400 / 1000000000) <= exp (-1 / 32))%R).
  { replace (-1 / 32)%R with (-1 / 64 + -1 / 64)%R by lra.
    apply (exp_square_lower _ (984488903 / 1000000000)%R);
      [lra | exact H4 | lra]. }
  assert (H6 : ((939384306 / 1000000000) <= exp (-1 / 16))%R).
  { replace (-1 / 16)%R with (-1 / 32 + -1 / 32)%R by lra.
    apply (exp_square_lower _ (969218400 / 1000000000)%R);
      [lra | exact H5 | lra]. }
  assert (H7 : ((882442874 / 1000000000) <= exp (-1 / 8))%R).
  { replace (-1 / 8)%R with (-1 / 16 + -1 / 16)%R by lra.
    apply (exp_square_lower _ (939384306 / 1000000000)%R);
      [lra | exact H6 | lra]. }
  assert (H8 : ((778705425 / 1000000000) <= exp (-1 / 4))%R).
  { replace (-1 / 4)%R with (-1 / 8 + -1 / 8)%R by lra.
    apply (exp_square_lower _ (882442874 / 1000000000)%R);
      [lra | exact H7 | lra]. }
  assert (H9 : ((606382138 / 1000000000) <= exp (-1 / 2))%R).
  { replace (-1 / 2)%R with (-1 / 4 + -1 / 4)%R by lra.
    apply (exp_square_lower _ (778705425 / 1000000000)%R);
      [lra | exact H8 | lra]. }
  assert (H10 : ((367699297 / 1000000000) <= exp (-1))%R).
  { replace (-1)%R with (-1 / 2 + -1 / 2)%R by lra.
    apply (exp_square_lower _ (606382138 / 1000000000)%R);
      [lra | exact H9 | lra]. }
  exact H10.
Qed.

Lemma exp_1_lower : ((2716952707 / 1000000000) <= exp (1))%R.
Proof.
  assert (H0 : ((1000976562 / 1000000000) <= exp (1 / 1024))%R)
    by (pose proof (exp_ineq1_le (1 / 1024)); lra).
  assert (H1 : ((1001954077 / 1000000000) <= exp (1 / 512))%R).
  { replace (1 / 512)%R with (1 / 1024 + 1 / 1024)%R by lra.
    apply (exp_square_lower _ (1000976562 / 1000000000)%R);
      [lra | exact H0 | lra]. }
  assert (H2 : ((1003911972 / 1000000000) <= exp (1 / 256))%R).
  { replace (1 / 256)%R with (1 / 512 + 1 / 512)%R by lra.
    apply (exp_square_lower _ (1001954077 / 1000000000)%R);
      [lra | exact H1 | lra]. }
  assert (H3 : ((1007839247 / 1000000000) <= exp (1 / 128))%R).
  { replace (1 / 128)%R with (1 / 256 + 1 / 256)%R by lra.
    apply (exp_square_lower _ (1003911972 / 1000000000)%R);
      [lra | exact H2 | lra]. }
  assert (H4 : ((1015739947 / 1000000000) <= exp (1 / 64))%R).
  { replace (1 / 64)%R with (1 / 128 + 1 / 128)%R by lra.
    apply (exp_square_lower _ (1007839247 / 1000000000)%R);
      [lra | exact H3 | lra]. }
  assert (H5 : ((1031727639 / 1000000000) <= exp (1 / 32))%R).
  { replace (1 / 32)%R with (1 / 64 + 1 / 64)%R by lra.
    apply (exp_square_lower _ (1015739947 / 1000000000)%R);
      [lra | exact H4 | lra]. }
  assert (H6 : ((1064461921 / 1000000000) <= exp (1 / 16))%R).
  { replace (1 / 16)%R with (1 / 32 + 1 / 32)%R by lra.
    apply (exp_square_lower _ (1031727639 / 1000000000)%R);
      [lra | exact H5 | lra]. }
  assert (H7 : ((1133079181 / 1000000000) <= exp (1 / 8))%R).
  { replace (1 / 8)%R with (1 / 16 + 1 / 16)%R by lra.
    apply (exp_square_lower _ (1064461921 / 1000000000)%R);
      [lra | exact H6 | lra]. }
  assert (H8 : ((1283868430 / 1000000000) <= exp (1 / 4))%R).
  { replace (1 / 4)%R with (1 / 8 + 1 / 8)%R by lra.
    apply (exp_square_lower _ (1133079181 / 1000000000)%R);
      [lra | exact H7 | lra]. }
  assert (H9 : ((1648318145 / 1000000000) <= exp (1 / 2))%R).
  { replace (1 / 2)%R with (1 / 4 + 1 / 4)%R by lra.
    apply (exp_square_lower _ (1283868430 / 1000000000)%R);
      [lra | exact H8 | lra]. }
  assert (H10 : ((2716952707 / 1000000000) <= exp (1))%R).
  { replace (1)%R with (1 / 2 + 1 / 2)%R by lra.
    apply (exp_square_lower _ (1648318145 / 1000000000)%R);
      [lra | exact H9 | lra]. }
  exact H10.
Qed.

Lemma sigmoid_1_bounds : (0.7305 < sigmoid 1 < 0.7315)%R.
Proof.
  pose proof exp_minus_1_lower as Hl. pose proof exp_1_lower as Hu.
  assert (Hinv : exp (-1) = (/ exp 1)%R) by apply exp_Ropp.
  assert (Hup : (exp (-1) <= 1000000000 / 2716952707)%R).
  { rewrite Hinv.
    replace (1000000000 / 2716952707)%R with (/ (2716952707 / 1000000000))%R by (field; lra).
    apply Rinv_le_contravar; [lra | exact Hu]. }
  unfold sigmoid. replace (Ropp 1) with (-1)%R by lra.
  set (e := exp (-1)) in *.
  assert (H : (1 / (1 + e) * (1 + e) = 1)%R) by (field; lra).
  split.
  - apply (Rmult_lt_reg_r (1 + e)); [lra|]. rewrite H. lra.
  - apply (Rmult_lt_reg_r (1 + e)); [lra|]. rewrite H. lra.
Qed.

Lemma cat1_columns (a b : rtensor) n d1 d2 :
  shape a = [n; d1] -> shape b = [n; d2] ->
  exists e, cat1 a b = Ok e /\ shape e = [n; d1 + d2] /\
    forall i j, i < n -> j < d1 + d2 ->
      at_ e [i; j] = if j <? d1 then at_ a [i; j] else at_ b [i; j - d1].
Proof.
  intros Ha Hb. unfold cat1. rewrite Ha, Hb.
  destruct (list_eq_dec Nat.eq_dec [n] [n]) as [_|ne]; [|congruence].
  destruct n as [|n]; (eexists; split; [reflexivity|]; split; [reflexivity|];
                       intros i j _ _; reflexivity).
Qed.

Lemma rsum_delta n (f : nat -> R) j :
  j < n ->
  rsum n (fun k => (f k * (if j =? k then 1 else 0))%R) = f j.
Proof.
  induction n as [|n IH]; intros Hj; [lia|]. cbn [rsum].
  destruct (Nat.eq_dec j n) as [->|Hne].
  - rewrite Nat.eqb_refl.
    rewrite (rsum_ext n _ (fun _ => 0%R)).
    + rewrite rsum_const. lra.
    + intros k Hk. destruct (Nat.eqb_spec n k); [lia | lra].
  - rewrite IH by lia. destruct (Nat.eqb_spec j n); [contradiction | lra].
Qed.

Lemma linear_identity (x : rtensor) b n :
  shape x = [b; n] ->
  exists y,
    Linear.forward (Linear.mk (identity_weight n) None) x = Ok y /\
    shape y = [b; n] /\
    forall i j, j < n -> at_ y [i; j] = at_ x [i; j].
Proof.
  intros Hx. unfold Linear.forward.
  cbn [Linear.weight Linear.bias identity_weight shape]. rewrite Hx.
  cbn [rev app]. rewrite Nat.eqb_refl.
  eexists. split; [reflexivity|]. split; [reflexivity|].
  intros i j Hj. cbn [at_ last set_last removelast app nth].
  rewrite Rplus_0_r. apply (rsum_delta n (fun k => at_ x [i; k]) j Hj).
Qed.

Lemma explainer_echo_run {B : Type} (self : @explainer_model.t B)
      header_model model_pack header_model_pack
      seq mask seq_header seq_header_mask n1 n2 g :
  shape (explainer_model.mask_payload self) = [n1] ->
  shape (explainer_model.mask_header self) = [n2] ->
  exists pred,
    explainer_model.forward echo_compute_emb self (reading_model (n1 + n2))
      header_model model_pack header_model_pack
      seq mask seq_header seq_header_mask g = Ok (pred, g) /\
    shape pred = [1; n1 + n2] /\
    (forall j, j < n1 ->
       at_ pred [0; j] = sigmoid (at_ (explainer_model.mask_payload self) [j]))
    /\
    (forall j, j < n2 ->
       at_ pred [0; n1 + j] =
       sigmoid (at_ (explainer_model.mask_header self) [j])).
Proof.
  intros Hp Hh. unfold explainer_model.forward, echo_compute_emb.
  unfold bind at 1. unfold lift at 1, unsqueeze, rank. cbn [tmap shape].
  rewrite Hp. cbn [length Nat.leb insert_at firstn skipn app].
  unfold bind at 1. unfold lift at 1, unsqueeze, rank. cbn [tmap shape].
  rewrite Hh. cbn [length Nat.leb insert_at firstn skipn app].
  match goal with
  | |- context [cat1 ?a ?b] =>
      destruct (cat1_columns a b 1 n1 n2 eq_refl eq_refl)
        as (emb & Hcat & Semb & Vemb)
  end.
  unfold bind at 1. unfold lift at 1. rewrite Hcat.
  destruct (linear_identity emb 1 (n1 + n2) Semb) as (pred & Hpred & Sp & Vp).
  unfold lift, Transformer.project, reading_model, ProjectionLayer.forward.
  cbn [Transformer.projection_layer ProjectionLayer.proj]. rewrite Hpred.
  exists pred. split; [reflexivity|]. split; [exact Sp|]. split.
  - intros j Hj. rewrite Vp by lia. rewrite Vemb by lia.
    destruct (Nat.ltb_spec j n1); [|lia]. reflexivity.
  - intros j Hj. rewrite Vp by lia. rewrite Vemb by lia.
    destruct (Nat.ltb_spec (n1 + j) n1); [lia|].
    replace (n1 + j - n1) with j by lia. reflexivity.
Qed.

(** C8.  [explainer_model(config)] holds [mask_header] and [mask_payload],
    each of length 257 and all ones.  Every [forward] calls [compute_emb]
    twice, first with [sigmoid(mask_payload)] and then, on the state the
    first call left, with [sigmoid(mask_header)] as value weights: an
    exception of either call is the exception of [forward], and when both
    return, the result is the projection by [model] of their concatenated
    embeddings.  Through a [compute_emb] that returns its value weights
    and a model that projects by the identity, [forward] returns the
    sigmoid of every entry of [mask_payload] followed by the sigmoid of
    every entry of [mask_header]; from the initial masks all 514 values
    are [sigmoid 1], within 0.0005 of 0.731. *)
Theorem C8_explainer_masks :
  forall (B : Type) (config : @explainer_model.config_t B),
    explainer_model.init config =
      Ok (explainer_model.mk (full [257] 1%R) (full [257] 1%R) config) /\
    (forall (ce : Transformer.t -> Transformer.t -> itensor -> itensor ->
                  Z -> rtensor -> B -> M rtensor)
            (self : explainer_model.t)
            model header_model model_pack header_model_pack
            seq mask seq_header seq_header_mask g,
        match ce model model_pack seq mask
                (explainer_model.BYTE_PAD_TRUNC_LENGTH
                   (explainer_model.config self))
                (tmap sigmoid (explainer_model.mask_payload self))
                (explainer_model.baseline (explainer_model.config self)) g
        with
        | Err e =>
            explainer_model.forward ce self model header_model model_pack
              header_model_pack seq mask seq_header seq_header_mask g
            = Err e
        | Ok (seq_emb, g1) =>
            match ce header_model header_model_pack seq_header
                    seq_header_mask
                    (explainer_model.HEADER_BYTE_PAD_TRUNC_LENGTH
                       (explainer_model.config self))
                    (tmap sigmoid (explainer_model.mask_header self))
                    (explainer_model.baseline (explainer_model.config self))
                    g1
            with
            | Err e =>
                explainer_model.forward ce self model header_model
                  model_pack header_model_pack seq mask seq_header
                  seq_header_mask g = Err e
            | Ok (header_emb, g2) =>
                explainer_model.forward ce self model header_model
                  model_pack header_model_pack seq mask seq_header
                  seq_header_mask g
                = (emb <- lift (cat1 seq_emb header_emb) ;;
                   lift (Transformer.project model emb)) g2
            end
        end) /\
    (forall (self : @explainer_model.t B)
            header_model model_pack header_model_pack
            seq mask seq_header seq_header_mask g,
        shape (explainer_model.mask_payload self) = [257] ->
        shape (explainer_model.mask_header self) = [257] ->
        exists pred,
          explainer_model.forward echo_compute_emb self (reading_model 514)
            header_model model_pack header_model_pack
            seq mask seq_header seq_header_mask g = Ok (pred, g) /\
          shape pred = [1; 514] /\
          forall j, j < 257 ->
            at_ pred [0; j] =
              sigmoid (at_ (explainer_model.mask_payload self) [j]) /\
            at_ pred [0; 257 + j] =
              sigmoid (at_ (explainer_model.mask_header self) [j])) /\
    (forall (self : @explainer_model.t B)
            header_model model_pack header_model_pack
            seq mask seq_header seq_header_mask g,
        explainer_model.init config = Ok self ->
        exists pred,
          explainer_model.forward echo_compute_emb self (reading_model 514)
            header_model model_pack header_model_pack
            seq mask seq_header seq_header_mask g = Ok (pred, g) /\
          forall j, j < 514 ->
            at_ pred [0; j] = sigmoid 1 /\
            (0.7305 < at_ pred [0%nat; j] < 0.7315)%R).
Proof.
  intros B config. split; [reflexivity|]. split; [|split].
  - intros ce self model header_model model_pack header_model_pack
           seq mask seq_header seq_header_mask g.
    destruct (ce model model_pack seq mask _ _ _ g)
      as [[seq_emb g1]|e] eqn:E1.
    + destruct (ce header_model header_model_pack seq_header
                  seq_header_mask _ _ _ g1) as [[header_emb g2]|e] eqn:E2;
        unfold explainer_model.forward; rewrite (bind_ok _ _ _ _ _ E1).
      * rewrite (bind_ok _ _ _ _ _ E2). reflexivity.
      * apply bind_err. exact E2.
    + unfold explainer_model.forward. apply bind_err. exact E1.
  - intros self header_model model_pack header_model_pack
           seq mask seq_header seq_header_mask g Hp Hh.
    destruct (explainer_echo_run self header_model model_pack
                header_model_pack seq mask seq_header seq_header_mask
                257 257 g Hp Hh) as (pred & E & Sp & V1 & V2).
    exists pred. split; [exact E|]. split; [exact Sp|].
    intros j Hj. split; [apply V1 | apply V2]; exact Hj.
  - intros self header_model model_pack header_model_pack
           seq mask seq_header seq_header_mask g Hinit.
    inversion Hinit; subst self.
    destruct (explainer_echo_run
                (explainer_model.mk (full [257] 1%R) (full [257] 1%R) config)
                header_model model_pack header_model_pack seq mask
                seq_header seq_header_mask 257 257 g eq_refl eq_refl)
      as (pred & E & _ & V1 & V2).
    exists pred. split; [exact E|].
    intros j Hj.
    assert (Hv : at_ pred [0; j] = sigmoid 1).
    { destruct (Nat.lt_ge_cases j 257) as [Hlt|Hge].
      - rewrite (V1 j Hlt). reflexivity.
      - replace j with (257 + (j - 257)) by lia.
        rewrite (V2 (j - 257)) by lia. reflexivity. }
    split; [exact Hv|]. rewrite Hv. exact sigmoid_1_bounds.
Qed.

Lemma C8_explainer_masks_witness :
  exists pred,
    explainer_model.forward echo_compute_emb initial_explainer
      (reading_model 514) tiny_transformer tiny_transformer tiny_transformer
      one_token keep_all one_token keep_all zero_rng = Ok (pred, zero_rng) /\
    forall j, j < 514 ->
      at_ pred [0; j] = sigmoid 1 /\
      (0.7305 < at_ pred [0%nat; j] < 0.7315)%R.
Proof.
  apply (proj2 (proj2 (proj2 (C8_explainer_masks unit
                                (explainer_model.mk_config 150 40 tt))))
           initial_explainer).
  reflexivity.
Defined.

(** ** Linear layers, views, transposes *)

Lemma linear_forward_ok (l : Linear.t) (x : rtensor) o i pre :
  shape (Linear.weight l) = [o; i] -> shape x = pre ++ [i] ->
  exists y, Linear.forward l x = Ok y /\ shape y = pre ++ [o].
Proof.
  intros Hw Hx. unfold Linear.forward. rewrite Hw, Hx, rev_unit.
  rewrite Nat.eqb_refl, removelast_last.
  eexists. split; reflexivity.
Qed.

Lemma linear_forward_mismatch (l : Linear.t) (x : rtensor) o i pre n :
  shape (Linear.weight l) = [o; i] -> shape x = pre ++ [n] -> n <> i ->
  Linear.forward l x = Err RuntimeError.
Proof.
  intros Hw Hx Hn. unfold Linear.forward. rewrite Hw, Hx, rev_unit.
  destruct (Nat.eqb_spec n i); [contradiction | reflexivity].
Qed.

Lemma known_prod_cons z zs :
  known_prod (z :: zs) =
  if (z =? -1)%Z then known_prod zs else (z * known_prod zs)%Z.
Proof. reflexivity. Qed.

Lemma prod_cons d dims : prod (d :: dims) = d * prod dims.
Proof. reflexivity. Qed.

Lemma known_prod_of_nat dims :
  known_prod (map Z.of_nat dims) = Z.of_nat (prod dims).
Proof.
  induction dims as [|d dims IH]; [reflexivity|].
  cbn [map]. rewrite known_prod_cons, prod_cons, IH.
  destruct (Z.eqb_spec (Z.of_nat d) (-1)); lia.
Qed.

Lemma count_minus_one_of_nat dims :
  count_occ Z.eq_dec (map Z.of_nat dims) (-1)%Z = 0.
Proof.
  induction dims as [|d dims IH]; [reflexivity|].
  cbn [map count_occ]. destruct (Z.eq_dec (Z.of_nat d) (-1)); [lia|].
  exact IH.
Qed.

Lemma no_invalid_of_nat dims :
  existsb (fun z => (z <? -1)%Z) (map Z.of_nat dims) = false.
Proof.
  induction dims as [|d dims IH]; [reflexivity|].
  cbn [map existsb]. rewrite IH.
  destruct (Z.ltb_spec (Z.of_nat d) (-1)); [lia | reflexivity].
Qed.

Lemma map_to_nat_of_nat dims : map Z.to_nat (map Z.of_nat dims) = dims.
Proof.
  induction dims as [|d dims IH]; [reflexivity|].
  cbn [map]. rewrite Nat2Z.id, IH. reflexivity.
Qed.

Lemma view_exact {A} (t : tensor A) dims :
  prod dims = numel t ->
  exists t', view (map Z.of_nat dims) t = Ok t' /\ shape t' = dims.
Proof.
  intros Hn. unfold view, infer_size.
  rewrite no_invalid_of_nat, count_minus_one_of_nat, known_prod_of_nat.
  cbn [Nat.ltb Nat.leb Nat.eqb]. rewrite Hn, Z.eqb_refl, map_to_nat_of_nat.
  eexists. split; reflexivity.
Qed.

(** A view [(a, -1, c)]: the middle size is inferred when [a * c] is
    positive, and refused as ambiguous when it is zero. *)
Lemma infer_middle a c n :
  infer_size [Z.of_nat a; (-1)%Z; Z.of_nat c] n =
  if (a * c =? 0) then None
  else if (n mod (a * c) =? 0) then Some [a; n / (a * c); c]
  else None.
Proof.
  unfold infer_size.
  change [Z.of_nat a; (-1)%Z; Z.of_nat c]
    with (map Z.of_nat [a] ++ (-1)%Z :: map Z.of_nat [c]).
  rewrite existsb_app. cbn [existsb]. rewrite !no_invalid_of_nat.
  rewrite count_occ_app. cbn [count_occ].
  rewrite !count_minus_one_of_nat.
  destruct (Z.eq_dec (-1) (-1)); [|contradiction].
  cbn [map app Nat.add Nat.ltb Nat.leb Nat.eqb orb Z.ltb Z.compare].
  assert (Hk : known_prod [Z.of_nat a; (-1)%Z; Z.of_nat c]
               = Z.of_nat (a * c)).
  { rewrite !known_prod_cons.
    destruct (Z.eqb_spec (Z.of_nat a) (-1)); [lia|].
    destruct (Z.eqb_spec (Z.of_nat c) (-1)); [lia|].
    cbn. lia. }
  rewrite Hk.
  destruct (Nat.eqb_spec (a * c) 0) as [H0|H0].
  - rewrite H0. cbn [Z.of_nat Z.ltb Z.compare andb orb].
    rewrite orb_false_r.
    destruct (Z.eqb_spec (Z.of_nat n) 0); reflexivity.
  - assert (Hpos : (0 <? Z.of_nat (a * c))%Z = true)
      by (apply Z.ltb_lt; lia).
    rewrite Hpos. cbn [andb].
    assert (Hz : (Z.of_nat (a * c) =? 0)%Z = false)
      by (apply Z.eqb_neq; lia).
    rewrite Hz.
    rewrite <- Nat2Z.inj_mod, <- Nat2Z.inj_div.
    destruct (Z.eqb_spec (Z.of_nat a) (-1)); [lia|].
    destruct (Z.eqb_spec (Z.of_nat c) (-1)); [lia|].
    rewrite !Nat2Z.id.
    destruct (Nat.eqb_spec (n mod (a * c)) 0) as [Hm|Hm].
    + assert ((Z.of_nat (n mod (a * c)) =? 0)%Z = true) as ->
        by (apply Z.eqb_eq; lia).
      rewrite orb_true_r. reflexivity.
    + assert ((Z.of_nat (n mod (a * c)) =? 0)%Z = false) as ->
        by (apply Z.eqb_neq; lia).
      rewrite orb_false_r.
      destruct (Z.eqb_spec (Z.of_nat n) (Z.of_nat (a * c))) as [He|He];
        [|reflexivity].
      exfalso. apply Hm. apply Nat2Z.inj in He. rewrite He.
      apply Nat.Div0.mod_same.
Qed.

Lemma transpose_1_2 {A} (t : tensor A) a b c d :
  shape t = [a; b; c; d] ->
  transpose 1 2 t =
  Ok (mkT [a; c; b; d] (fun idx => at_ t (swap 1 2 idx))).
Proof. intros H. unfold transpose, rank. rewrite H. reflexivity. Qed.

Lemma matmul_heads (x y : rtensor) b h n m p :
  shape x = [b; h; n; m] -> shape y = [b; h; m; p] ->
  exists z, matmul x y = Ok z /\ shape z = [b; h; n; p].
Proof.
  intros Hx Hy. unfold matmul, matmul_nd. rewrite Hx, Hy.
  cbn [split_last2 rev app]. rewrite Nat.eqb_refl, broadcast_same.
  eexists. split; reflexivity.
Qed.

Lemma dropout_forward_ok (d : Dropout.t) (x : rtensor) g :
  exists y g', Dropout.forward d x g = Ok (y, g') /\ shape y = shape x.
Proof.
  unfold Dropout.forward. destruct (Dropout.training d).
  - destruct (Qeq_bool (Dropout.p d) 1).
    + do 2 eexists. split; reflexivity.
    + do 2 eexists. split; reflexivity.
  - do 2 eexists. split; reflexivity.
Qed.

(** ** C10, C1: MultiHeadAttentionBlock.forward *)

Lemma split_heads_ok (self : MultiHeadAttentionBlock.t) (x : rtensor)
      d hn dkn b s :
  wf_attention d hn dkn self -> shape x = [b; s; d] ->
  exists y,
    MultiHeadAttentionBlock.split_heads self x = Ok y /\
    shape y = [b; hn; s; dkn].
Proof.
  intros (Hh & Hk & Hd & _) Hx. unfold MultiHeadAttentionBlock.split_heads.
  unfold shape_at. rewrite Hx. cbn [nth_error rbind]. rewrite Hh, Hk.
  destruct (view_exact x [b; s; hn; dkn]) as (v & Hv & Sv).
  { unfold numel. rewrite Hx. cbn. rewrite <- Hd. lia. }
  cbn [map] in Hv. rewrite Hv. cbn [rbind].
  rewrite (transpose_1_2 v b s hn dkn Sv).
  eexists. split; reflexivity.
Qed.

Lemma combine_heads_ok (self : MultiHeadAttentionBlock.t)
      (x scores : rtensor) d hn dkn b s g :
  wf_attention d hn dkn self -> shape x = [b; hn; s; dkn] ->
  0 < b -> 0 < d ->
  exists xt X out,
    transpose 1 2 x = Ok xt /\
    view [Z.of_nat b; (-1)%Z; Z.of_nat d] (contiguous xt) = Ok X /\
    shape X = [b; s; d] /\
    Linear.forward (MultiHeadAttentionBlock.w_o self) X = Ok out /\
    shape out = [b; s; d] /\
    combine_heads self x scores g = Ok ((out, with_scores self scores), g).
Proof.
  intros (Hh & Hk & Hd & _ & _ & _ & Ho) Hx Hb Hdp.
  pose proof (transpose_1_2 x b hn s dkn Hx) as Ht.
  set (xt := mkT [b; s; hn; dkn] (fun idx => at_ x (swap 1 2 idx))) in Ht.
  assert (Hinf : infer_size [Z.of_nat b; (-1)%Z; Z.of_nat d] (numel xt)
                 = Some [b; s; d]).
  { rewrite infer_middle. unfold numel. cbn [xt shape prod fold_right].
    assert (Hn : b * (s * (hn * (dkn * 1))) = s * (b * d))
      by (rewrite <- Hd; lia).
    rewrite Hn.
    destruct (Nat.eqb_spec (b * d) 0) as [H0|H0]; [nia|].
    rewrite Nat.Div0.mod_mul, Nat.div_mul by assumption. reflexivity. }
  assert (Hv : exists X, view [Z.of_nat b; (-1)%Z; Z.of_nat d]
                           (contiguous xt) = Ok X /\ shape X = [b; s; d]).
  { unfold view, contiguous. rewrite Hinf. eexists. split; reflexivity. }
  destruct Hv as (X & HX & SX).
  destruct (linear_forward_ok (MultiHeadAttentionBlock.w_o self) X d d
              [b; s] Ho SX) as (out & Hout & Sout).
  exists xt, X, out. repeat split; try assumption.
  unfold combine_heads. rewrite Hh, Hk, <- Nat2Z.inj_mul, Hd.
  unfold bind, lift, shape_at. rewrite Ht, Hx. cbn [nth_error].
  rewrite HX, Hout. reflexivity.
Qed.

Lemma combine_heads_empty_batch (self : MultiHeadAttentionBlock.t)
      (x scores : rtensor) d hn dkn s g :
  wf_attention d hn dkn self -> shape x = [0; hn; s; dkn] ->
  combine_heads self x scores g = Err RuntimeError.
Proof.
  intros (Hh & Hk & Hd & _) Hx.
  unfold combine_heads. rewrite Hh, Hk, <- Nat2Z.inj_mul, Hd.
  unfold bind, lift, shape_at.
  rewrite (transpose_1_2 x 0 hn s dkn Hx), Hx. cbn [nth_error].
  unfold view. rewrite infer_middle. reflexivity.
Qed.

Lemma mha_forward_run (self : MultiHeadAttentionBlock.t) (q k v : rtensor)
      d hn dkn b s :
  wf_attention d hn dkn self ->
  shape q = [b; s; d] -> shape k = [b; s; d] -> shape v = [b; s; d] ->
  exists Q K V query key value,
    Linear.forward (MultiHeadAttentionBlock.w_q self) q = Ok Q /\
    Linear.forward (MultiHeadAttentionBlock.w_k self) k = Ok K /\
    Linear.forward (MultiHeadAttentionBlock.w_v self) v = Ok V /\
    MultiHeadAttentionBlock.split_heads self Q = Ok query /\
    MultiHeadAttentionBlock.split_heads self K = Ok key /\
    MultiHeadAttentionBlock.split_heads self V = Ok value /\
    shape query = [b; hn; s; dkn] /\
    shape key = [b; hn; s; dkn] /\
    shape value = [b; hn; s; dkn] /\
    forall mask g,
      MultiHeadAttentionBlock.forward self q k v mask g =
      ('(x, scores) <-
          MultiHeadAttentionBlock.attention query key value mask
            (Some (MultiHeadAttentionBlock.dropout self)) ;;
       combine_heads self x scores) g.
Proof.
  intros Hwf Hq Hk Hv.
  pose proof Hwf as (_ & _ & _ & Wq & Wk & Wv & _).
  destruct (linear_forward_ok _ q d d [b; s] Wq Hq) as (Q & HQ & SQ).
  destruct (linear_forward_ok _ k d d [b; s] Wk Hk) as (K & HK & SK).
  destruct (linear_forward_ok _ v d d [b; s] Wv Hv) as (V & HV & SV).
  destruct (split_heads_ok self Q d hn dkn b s Hwf SQ) as (query & Hqy & Sq).
  destruct (split_heads_ok self K d hn dkn b s Hwf SK) as (key & Hky & Sk).
  destruct (split_heads_ok self V d hn dkn b s Hwf SV) as (value & Hvl & Sv).
  exists Q, K, V, query, key, value. repeat split; try assumption.
  intros mask g. unfold MultiHeadAttentionBlock.forward.
  unfold bind at 1. unfold lift at 1. rewrite HQ.
  unfold bind at 1. unfold lift at 1. rewrite HK.
  unfold bind at 1. unfold lift at 1. rewrite HV.
  unfold bind at 1. unfold lift at 1. rewrite Hqy.
  unfold bind at 1. unfold lift at 1. rewrite Hky.
  unfold bind at 1. unfold lift at 1. rewrite Hvl.
  reflexivity.
Qed.

Lemma attention_tail_ok (S' value : rtensor) (dropout : option Dropout.t)
      b h q kl dv g :
  shape S' = [b; h; q; kl] -> shape value = [b; h; kl; dv] ->
  exists W x g1,
    match dropout with
    | Some dr => Dropout.forward dr (softmax S') g
    | None => ret (softmax S') g
    end = Ok (W, g1) /\
    shape W = [b; h; q; kl] /\
    matmul W value = Ok x /\
    shape x = [b; h; q; dv] /\
    attention_tail S' value dropout g = Ok ((x, W), g1).
Proof.
  intros HS Hv.
  assert (HW : exists W g1,
             match dropout with
             | Some dr => Dropout.forward dr (softmax S') g
             | None => ret (softmax S') g
             end = Ok (W, g1) /\ shape W = [b; h; q; kl]).
  { destruct dropout as [dr|].
    - destruct (dropout_forward_ok dr (softmax S') g) as (W & g1 & E & Sh).
      exists W, g1. split; [exact E|]. rewrite Sh. exact HS.
    - exists (softmax S'), g. split; [reflexivity | exact HS]. }
  destruct HW as (W & g1 & EW & SW).
  destruct (matmul_heads W value b h q kl dv SW Hv) as (x & Hx & Sx).
  exists W, x, g1. repeat split; try assumption.
  unfold attention_tail. unfold bind at 1.
  destruct dropout as [dr|]; rewrite EW;
    unfold bind, lift, ret; rewrite Hx; reflexivity.
Qed.

Lemma attention_ok (query key value : rtensor) (mask : option itensor)
      (dropout : option Dropout.t) b h s dk g :
  shape query = [b; h; s; dk] -> shape key = [b; h; s; dk] ->
  shape value = [b; h; s; dk] -> mask_ok b s mask ->
  exists x W g1,
    MultiHeadAttentionBlock.attention query key value mask dropout g
      = Ok ((x, W), g1) /\
    shape x = [b; h; s; dk] /\ shape W = [b; h; s; s].
Proof.
  intros Hq Hk Hv Hm.
  destruct (attention_scores_run query key value b h s s dk Hq Hk)
    as (S & HS & _ & Hrun).
  rewrite Hrun. destruct mask as [m|].
  - destruct (mask_fill_run S m b h s s MultiHeadAttentionBlock.neg_1e9 g
                HS Hm) as (S' & Hfill & HS' & _).
    destruct (attention_tail_ok S' value dropout b h s s dk g HS' Hv)
      as (W & x & g1 & _ & SW & _ & Sx & Ht).
    exists x, W, g1. split; [|split; assumption].
    rewrite (bind_ok _ (fun a => attention_tail a value dropout) g S' g
               Hfill). exact Ht.
  - destruct (attention_tail_ok S value dropout b h s s dk g HS Hv)
      as (W & x & g1 & _ & SW & _ & Sx & Ht).
    exists x, W, g1. split; [|split; assumption]. exact Ht.
Qed.

Lemma with_scores_wf d hn dkn self scores :
  wf_attention d hn dkn self -> wf_attention d hn dkn (with_scores self scores).
Proof. intros H. exact H. Qed.

Lemma mha_forward_ok (self : MultiHeadAttentionBlock.t) (x : rtensor)
      (mask : option itensor) d hn dkn b s g :
  wf_attention d hn dkn self -> shape x = [b; s; d] -> mask_ok b s mask ->
  0 < b -> 0 < d ->
  exists out self' g1,
    MultiHeadAttentionBlock.forward self x x x mask g
      = Ok ((out, self'), g1) /\
    shape out = [b; s; d] /\ wf_attention d hn dkn self'.
Proof.
  intros Hwf Hx Hm Hb Hd.
  destruct (mha_forward_run self x x x d hn dkn b s Hwf Hx Hx Hx)
    as (Q & K & V & query & key & value & _ & _ & _ & _ & _ & _ &
        Sq & Sk & Sv & Hrun).
  destruct (attention_ok query key value mask
              (Some (MultiHeadAttentionBlock.dropout self)) b hn s dkn g
              Sq Sk Sv Hm) as (y & W & g1 & Hatt & Sy & _).
  destruct (combine_heads_ok self y W d hn dkn b s g1 Hwf Sy Hb Hd)
    as (xt & X & out & _ & _ & _ & _ & Sout & Hc).
  exists out, (with_scores self W), g1. split; [|split].
  - rewrite Hrun. unfold bind at 1. rewrite Hatt. exact Hc.
  - exact Sout.
  - apply with_scores_wf. exact Hwf.
Qed.

Lemma mha_forward_unmasked (self : MultiHeadAttentionBlock.t)
      (q k v : rtensor) d hn dkn b s g :
  wf_attention d hn dkn self ->
  shape q = [b; s; d] -> shape k = [b; s; d] -> shape v = [b; s; d] ->
  exists Q K V query key value S W g1 x,
    Linear.forward (MultiHeadAttentionBlock.w_q self) q = Ok Q /\
    Linear.forward (MultiHeadAttentionBlock.w_k self) k = Ok K /\
    Linear.forward (MultiHeadAttentionBlock.w_v self) v = Ok V /\
    MultiHeadAttentionBlock.split_heads self Q = Ok query /\
    MultiHeadAttentionBlock.split_heads self K = Ok key /\
    MultiHeadAttentionBlock.split_heads self V = Ok value /\
    shape S = [b; hn; s; s] /\
    (forall i0 i1 i j, i0 < b -> i1 < hn ->
       at_ S [i0; i1; i; j] = scaled_score query key dkn i0 i1 i j) /\
    Dropout.forward (MultiHeadAttentionBlock.dropout self) (softmax S) g
      = Ok (W, g1) /\
    matmul W value = Ok x /\
    shape x = [b; hn; s; dkn] /\
    MultiHeadAttentionBlock.forward self q k v None g =
      combine_heads self x W g1.
Proof.
  intros Hwf Hq Hk Hv.
  destruct (mha_forward_run self q k v d hn dkn b s Hwf Hq Hk Hv)
    as (Q & K & V & query & key & value & HQ & HK & HV & Hqy & Hky & Hvl &
        Sq & Sk & Sv & Hrun).
  destruct (attention_scores_run query key value b hn s s dkn Sq Sk)
    as (S & HS & VS & Hatt).
  destruct (attention_tail_ok S value
              (Some (MultiHeadAttentionBlock.dropout self)) b hn s s dkn g
              HS Sv) as (W & x & g1 & HW & _ & Hx & Sx & Ht).
  exists Q, K, V, query, key, value, S, W, g1, x.
  repeat split; try assumption.
  rewrite Hrun. unfold bind at 1. rewrite Hatt.
  change ((attention_scores <- ret S;;
           attention_tail attention_scores value
             (Some (MultiHeadAttentionBlock.dropout self))) g)
    with (attention_tail S value
            (Some (MultiHeadAttentionBlock.dropout self)) g).
  rewrite Ht. reflexivity.
Qed.

Lemma mha_init_wf d_model h dropout g :
  (0 < h)%Z -> (0 <= d_model)%Z -> (d_model mod h)%Z = 0%Z ->
  (0 <= dropout)%Q -> (dropout <= 1)%Q ->
  exists blk g',
    MultiHeadAttentionBlock.init d_model h dropout g = Ok (blk, g') /\
    wf_attention (Z.to_nat d_model) (Z.to_nat h) (Z.to_nat (d_model / h)) blk.
Proof.
  intros Hh Hd Hm H0 H1.
  destruct (mha_init_ok d_model h dropout g ltac:(lia) Hm Hd H0 H1)
    as (blk & g' & E & _ & Eh & Ek & _ & Wq & Wk & Wv & Wo).
  exists blk, g'. split; [exact E|].
  assert (0 <= d_model / h)%Z by (apply Z.div_pos; lia).
  unfold wf_attention. rewrite Eh, Ek, Wq, Wk, Wv, Wo.
  rewrite !Z2Nat.id by lia. repeat split.
  rewrite <- Z2Nat.inj_mul by lia. f_equal.
  symmetry. apply Z_div_exact_2; lia.
Qed.

Lemma mha_forward_empty_batch (self : MultiHeadAttentionBlock.t)
      (q k v : rtensor) d hn dkn s g :
  wf_attention d hn dkn self ->
  shape q = [0; s; d] -> shape k = [0; s; d] -> shape v = [0; s; d] ->
  MultiHeadAttentionBlock.forward self q k v None g = Err RuntimeError.
Proof.
  intros Hwf Hq Hk Hv.
  destruct (mha_forward_unmasked self q k v d hn dkn 0 s g Hwf Hq Hk Hv)
    as (Q & K & V & query & key & value & S & W & g1 & x &
        _ & _ & _ & _ & _ & _ & _ & _ & _ & _ & Sx & Hf).
  rewrite Hf. eapply combine_heads_empty_batch; eassumption.
Qed.

(** C10 (as amended).  With [mask = None], for a block of [hn >= 1] heads
    of width [dkn] and inputs of shape (batch, seq_len, d_model):
    [forward] projects the inputs, splits them into heads, and computes the
    scores [S = Q.K^T / sqrt(d_k)], which reach the softmax unmodified (no
    masking); the dropout of [softmax(S)] is multiplied with the values,
    and when [batch >= 1] and [d_model >= 1] the heads are combined and
    multiplied by [w_o] into an output of shape (batch, seq_len, d_model),
    without error.  With [batch = 0] the combining view raises. *)
Theorem C10_unmasked_forward :
  forall (self : MultiHeadAttentionBlock.t) (q k v : rtensor)
         (d hn dkn b s : nat) (g : rng),
    wf_attention d hn dkn self ->
    shape q = [b; s; d] -> shape k = [b; s; d] -> shape v = [b; s; d] ->
    exists Q K V query key value S W g1 x,
      Linear.forward (MultiHeadAttentionBlock.w_q self) q = Ok Q /\
      Linear.forward (MultiHeadAttentionBlock.w_k self) k = Ok K /\
      Linear.forward (MultiHeadAttentionBlock.w_v self) v = Ok V /\
      MultiHeadAttentionBlock.split_heads self Q = Ok query /\
      MultiHeadAttentionBlock.split_heads self K = Ok key /\
      MultiHeadAttentionBlock.split_heads self V = Ok value /\
      shape S = [b; hn; s; s] /\
      (forall i0 i1 i j, i0 < b -> i1 < hn ->
         at_ S [i0; i1; i; j] = scaled_score query key dkn i0 i1 i j) /\
      Dropout.forward (MultiHeadAttentionBlock.dropout self) (softmax S) g
        = Ok (W, g1) /\
      matmul W value = Ok x /\
      (0 < b -> 0 < d ->
       exists xt X out,
         transpose 1 2 x = Ok xt /\
         view [Z.of_nat b; (-1)%Z; Z.of_nat d] (contiguous xt) = Ok X /\
         Linear.forward (MultiHeadAttentionBlock.w_o self) X = Ok out /\
         shape out = [b; s; d] /\
         MultiHeadAttentionBlock.forward self q k v None g
           = Ok ((out, with_scores self W), g1)) /\
      (b = 0 ->
       MultiHeadAttentionBlock.forward self q k v None g = Err RuntimeError).
Proof.
  intros self q k v d hn dkn b s g Hwf Hq Hk Hv.
  destruct (mha_forward_unmasked self q k v d hn dkn b s g Hwf Hq Hk Hv)
    as (Q & K & V & query & key & value & S & W & g1 & x &
        HQ & HK & HV & Hqy & Hky & Hvl & HS & VS & HW & Hx & Sx & Hf).
  exists Q, K, V, query, key, value, S, W, g1, x.
  repeat (split; [assumption|]). split.
  - intros Hb Hd.
    destruct (combine_heads_ok self x W d hn dkn b s g1 Hwf Sx Hb Hd)
      as (xt & X & out & Ht & HX & _ & Hout & Sout & Hc).
    exists xt, X, out. repeat (split; [assumption|]).
    rewrite Hf. exact Hc.
  - intros ->. eapply mha_forward_empty_batch; eassumption.
Qed.

Lemma C10_unmasked_forward_witness :
  exists blk g',
    MultiHeadAttentionBlock.init 64 4 default_dropout zero_rng
      = Ok (blk, g') /\
    exists out scores g1,
      MultiHeadAttentionBlock.forward blk (zero_input 2 3 64)
        (zero_input 2 3 64) (zero_input 2 3 64) None g'
        = Ok ((out, with_scores blk scores), g1) /\
      shape out = [2; 3; 64].
Proof.
  destruct (mha_init_wf 64 4 default_dropout zero_rng) as (blk & g' & E & Hwf);
    [lia | lia | reflexivity | unfold default_dropout, Qle; simpl; lia
     | unfold default_dropout, Qle; simpl; lia |].
  exists blk, g'. split; [exact E|].
  destruct (C10_unmasked_forward blk (zero_input 2 3 64) (zero_input 2 3 64)
              (zero_input 2 3 64) 64 4 16 2 3 g' Hwf eq_refl eq_refl eq_refl)
    as (Q & K & V & query & key & value & S & W & g1 & x &
        _ & _ & _ & _ & _ & _ & _ & _ & _ & _ & Hok & _).
  destruct Hok as (xt & X & out & _ & _ & _ & Sout & Hf); [lia | lia |].
  exists out, W, g1. split; [exact Hf | exact Sout].
Defined.

(** C10, the claim as stated fails on an empty batch: the inputs have
    shape (0, 3, 64), and the view that combines the heads cannot infer
    its middle size. *)
Lemma C10_counterexample :
  exists blk g',
    MultiHeadAttentionBlock.init 64 4 default_dropout zero_rng
      = Ok (blk, g') /\
    MultiHeadAttentionBlock.forward blk (zero_input 0 3 64)
      (zero_input 0 3 64) (zero_input 0 3 64) None g' = Err RuntimeError.
Proof.
  destruct (mha_init_wf 64 4 default_dropout zero_rng) as (blk & g' & E & Hwf);
    [lia | lia | reflexivity | unfold default_dropout, Qle; simpl; lia
     | unfold default_dropout, Qle; simpl; lia |].
  exists blk, g'. split; [exact E|].
  apply (mha_forward_empty_batch blk _ _ _ 64 4 16 3 g' Hwf);
    reflexivity.
Qed.

(** ** The encoder stack *)

Lemma in_indices s idx : In idx (indices s) -> in_range idx s.
Proof.
  revert idx. induction s as [|d s IH]; intros idx H.
  - destruct H as [<-|[]]. constructor.
  - cbn [indices] in H. apply in_flat_map in H.
    destruct H as (i & Hi & H). apply in_map_iff in H.
    destruct H as (rest & <- & Hr). apply in_seq in Hi.
    constructor; [lia | apply IH; assumption].
Qed.

Lemma embedding_forward_ok (self : Embedding.t) (ids : itensor) b n vocab d :
  shape (Embedding.weight self) = [vocab; d] -> ids_ok b n vocab ids ->
  exists y, Embedding.forward self ids = Ok y /\ shape y = [b; n; d].
Proof.
  intros Hw [Hs Hr]. unfold Embedding.forward. rewrite Hw.
  assert (forallb (fun idx => (0 <=? at_ ids idx)%Z &&
                              (at_ ids idx <? Z.of_nat vocab)%Z)
                  (indices (shape ids)) = true) as ->.
  { apply forallb_forall. intros idx Hin. rewrite Hs in Hin.
    apply in_indices in Hin. specialize (Hr idx Hin).
    apply andb_true_iff. split; [apply Z.leb_le | apply Z.ltb_lt]; lia. }
  eexists. split; [reflexivity|]. cbn [shape]. rewrite Hs. reflexivity.
Qed.

Lemma feed_forward_ok (self : FeedForwardBlock.t) (x : rtensor) d pre g :
  wf_feed_forward d self -> shape x = pre ++ [d] ->
  exists y g', FeedForwardBlock.forward self x g = Ok (y, g') /\
               shape y = pre ++ [d].
Proof.
  intros (d_ff & W1 & W2) Hx. unfold FeedForwardBlock.forward.
  destruct (linear_forward_ok _ x d_ff d pre W1 Hx) as (a & Ha & Sa).
  rewrite (bind_ok _ _ _ _ _ (lift_ok _ g _ Ha)).
  destruct (dropout_forward_ok (FeedForwardBlock.dropout self)
              (tmap FeedForwardBlock.relu a) g) as (c & g' & Hc & Sc).
  rewrite (bind_ok _ _ _ _ _ Hc).
  destruct (linear_forward_ok (FeedForwardBlock.linear_2 self) c d d_ff pre
              W2) as (y & Hy & Sy).
  { rewrite Sc. exact Sa. }
  exists y, g'. split; [apply lift_ok; exact Hy | exact Sy].
Qed.

Lemma residual_forward_ok {St} (P : St -> Prop)
      (self : ResidualConnection.t) (x : rtensor)
      (sublayer : rtensor -> M (rtensor * St)) d pre g :
  wf_residual d self -> shape x = pre ++ [d] ->
  (forall n g0, shape n = pre ++ [d] ->
     exists y st g1, sublayer n g0 = Ok ((y, st), g1) /\
                     shape y = pre ++ [d] /\ P st) ->
  exists out st g',
    ResidualConnection.forward self x sublayer g = Ok ((out, st), g') /\
    shape out = pre ++ [d] /\ P st.
Proof.
  intros [Ha Hb] Hx Hsub. unfold ResidualConnection.forward.
  destruct (layer_norm_forward _ x pre d Hx Ha Hb) as (n & Hn & Sn & _).
  rewrite (bind_ok _ _ _ _ _ (lift_ok _ g _ Hn)).
  destruct (Hsub n g Sn) as (y & st & g1 & Hy & Sy & HP).
  rewrite (bind_ok _ _ _ _ _ Hy).
  destruct (dropout_forward_ok (ResidualConnection.dropout self) y g1)
    as (c & g2 & Hc & Sc).
  rewrite (bind_ok _ _ _ _ _ Hc).
  assert (Hadd : exists r, tadd x c = Ok r /\ shape r = pre ++ [d]).
  { unfold tadd, binop. rewrite Sc, Sy, Hx, broadcast_same.
    eexists. split; reflexivity. }
  destruct Hadd as (r & Hr & Sr).
  rewrite (bind_ok _ _ _ _ _ (lift_ok _ g2 _ Hr)).
  exists r, st, g2. split; [reflexivity|]. split; assumption.
Qed.

Lemma encoder_block_ok (self : EncoderBlock.t) (x : rtensor)
      (mask : option itensor) d hn dkn b s g :
  wf_block d hn dkn self -> shape x = [b; s; d] -> mask_ok b s mask ->
  0 < b -> 0 < d ->
  exists y self' g',
    EncoderBlock.forward self x mask g = Ok ((y, self'), g') /\
    shape y = [b; s; d] /\ wf_block d hn dkn self'.
Proof.
  intros (Hatt & Hff & r0 & r1 & Hrc & Hr0 & Hr1) Hx Hm Hb Hd.
  unfold EncoderBlock.forward.
  unfold bind at 1. unfold lift at 1, EncoderBlock.residual.
  rewrite Hrc. cbn [nth_error].
  destruct (residual_forward_ok (wf_attention d hn dkn) r0 x
              (fun x0 => MultiHeadAttentionBlock.forward
                           (EncoderBlock.self_attention_block self)
                           x0 x0 x0 mask) d [b; s] g Hr0 Hx)
    as (x1 & att & g1 & H1 & S1 & Watt).
  { intros n g0 Sn.
    destruct (mha_forward_ok _ n mask d hn dkn b s g0 Hatt Sn Hm Hb Hd)
      as (out & att & g1 & E & So & Wa).
    exists out, att, g1. split; [exact E | split; [exact So | exact Wa]]. }
  unfold bind at 1. rewrite H1.
  unfold bind at 1. unfold lift at 1. cbn [nth_error].
  destruct (residual_forward_ok (fun _ : unit => True) r1 x1
              (fun x0 => y <- FeedForwardBlock.forward
                                (EncoderBlock.feed_forward_block self) x0 ;;
                         ret (y, tt)) d [b; s] g1 Hr1 S1)
    as (x2 & u & g2 & H2 & S2 & _).
  { intros n g0 Sn.
    destruct (feed_forward_ok _ n d [b; s] g0 Hff Sn) as (y & g3 & E & Sy).
    exists y, tt, g3. split; [|split; [exact Sy | exact I]].
    unfold bind. rewrite E. reflexivity. }
  unfold bind at 1. rewrite H2. destruct u.
  do 3 eexists. split; [reflexivity|]. split; [exact S2|].
  split; [exact Watt|]. split; [exact Hff|].
  exists r0, r1. split; [reflexivity | split; [exact Hr0 | exact Hr1]].
Qed.

Lemma run_layers_ok (ls : list EncoderBlock.t) (x : rtensor)
      (mask : option itensor) d hn dkn b s g :
  Forall (wf_block d hn dkn) ls -> shape x = [b; s; d] -> mask_ok b s mask ->
  0 < b -> 0 < d ->
  exists y ls' g',
    Encoder.run_layers ls x mask g = Ok ((y, ls'), g') /\
    shape y = [b; s; d] /\ Forall (wf_block d hn dkn) ls'.
Proof.
  intros Hls. revert x g.
  induction Hls as [|layer rest Hl _ IH]; intros x g Hx Hm Hb Hd.
  - exists x, [], g. split; [reflexivity|]. split; [exact Hx | constructor].
  - cbn [Encoder.run_layers].
    destruct (encoder_block_ok layer x mask d hn dkn b s g Hl Hx Hm Hb Hd)
      as (x1 & layer' & g1 & E1 & S1 & W1).
    unfold bind at 1. rewrite E1.
    destruct (IH x1 g1 S1 Hm Hb Hd) as (y & rest' & g2 & E2 & S2 & W2).
    unfold bind at 1. rewrite E2.
    do 3 eexists. split; [reflexivity|]. split; [exact S2|].
    constructor; assumption.
Qed.

Lemma encoder_forward_ok (self : Encoder.t) (x : rtensor)
      (mask : option itensor) d hn dkn b s g :
  wf_encoder d hn dkn self -> shape x = [b; s; d] -> mask_ok b s mask ->
  0 < b -> 0 < d ->
  exists y self' g',
    Encoder.forward self x mask g = Ok ((y, self'), g') /\
    shape y = [b; s; d] /\ wf_encoder d hn dkn self'.
Proof.
  intros [Hls [Ha Hbias]] Hx Hm Hb Hd. unfold Encoder.forward.
  destruct (run_layers_ok _ x mask d hn dkn b s g Hls Hx Hm Hb Hd)
    as (x1 & ls' & g1 & E1 & S1 & W1).
  unfold bind at 1. rewrite E1.
  destruct (layer_norm_forward (Encoder.norm self) x1 [b; s] d S1 Ha Hbias)
    as (y & Hy & Sy & _).
  unfold bind, lift. rewrite Hy.
  do 3 eexists. split; [reflexivity|]. split; [exact Sy|].
  split; [exact W1 | split; assumption].
Qed.

Lemma encode_ok (self : Transformer.t) (x : rtensor) (mask : option itensor)
      d hn dkn len b n g :
  wf_encoder d hn dkn (Transformer.encoder self) ->
  shape (PositionalEncoding.pe (Transformer.seq_pos self)) = [1; len; d] ->
  shape x = [b; n; d] -> n <= len -> mask_ok b n mask ->
  0 < b -> 0 < d ->
  exists y self' g',
    Transformer.encode self x mask g = Ok ((y, self'), g') /\
    shape y = [b; n; d] /\
    wf_encoder d hn dkn (Transformer.encoder self') /\
    Transformer.seq_pos self' = Transformer.seq_pos self /\
    Transformer.seq_embed self' = Transformer.seq_embed self /\
    Transformer.projection_layer self' = Transformer.projection_layer self.
Proof.
  intros Henc Hpe Hx Hn Hm Hb Hd. unfold Transformer.encode.
  destruct (pe_forward_within (Transformer.seq_pos self) x b n d len g
              Hpe Hx Hn) as (y0 & E0 & S0 & _).
  destruct (dropout_forward_ok
              (PositionalEncoding.dropout (Transformer.seq_pos self)) y0 g)
    as (y1 & g1 & E1 & S1).
  rewrite E1 in E0. unfold bind at 1. rewrite E0.
  assert (S1' : shape y1 = [b; n; d]) by (rewrite S1; exact S0).
  destruct (encoder_forward_ok _ y1 mask d hn dkn b n g1 Henc S1' Hm Hb Hd)
    as (y & enc' & g2 & E2 & S2 & W2).
  unfold bind at 1. rewrite E2.
  do 3 eexists. split; [reflexivity|]. cbn.
  split; [exact S2|]. split; [exact W2|]. repeat split.
Qed.

(** ** The constructors *)

Lemma embeddings_init_ok d_model vocab g :
  (0 <= d_model)%Z -> (0 <= vocab)%Z ->
  exists e g',
    InputEmbeddings.init d_model vocab g = Ok (e, g') /\
    InputEmbeddings.d_model e = d_model /\
    shape (Embedding.weight (InputEmbeddings.embedding e)) =
      [Z.to_nat vocab; Z.to_nat d_model].
Proof.
  intros Hd Hv.
  unfold InputEmbeddings.init, Embedding.init, bind, lift, size_of, draw, ret.
  destruct (Z.ltb_spec vocab 0); [lia|].
  destruct (Z.ltb_spec d_model 0); [lia|].
  do 2 eexists. split; [reflexivity|]. split; reflexivity.
Qed.

Lemma feed_forward_init_ok d_model d_ff dropout g :
  (0 <= d_model)%Z -> (0 <= d_ff)%Z ->
  (0 <= dropout)%Q -> (dropout <= 1)%Q ->
  exists f g',
    FeedForwardBlock.init d_model d_ff dropout g = Ok (f, g') /\
    wf_feed_forward (Z.to_nat d_model) f.
Proof.
  intros Hd Hf H0 H1. unfold FeedForwardBlock.init.
  destruct (linear_init_ok d_model d_ff true g Hd Hf) as (l1 & g1 & E1 & S1 & _).
  rewrite (bind_ok _ _ _ _ _ E1).
  rewrite (bind_ok _ _ _ _ _ (lift_ok _ g1 _ (dropout_init_ok _ H0 H1))).
  destruct (linear_init_ok d_ff d_model true g1 Hf Hd) as (l2 & g2 & E2 & S2 & _).
  rewrite (bind_ok _ _ _ _ _ E2).
  do 2 eexists. split; [reflexivity|].
  exists (Z.to_nat d_ff). split; assumption.
Qed.

Lemma layer_norm_init_ok features eps :
  (0 <= features)%Z ->
  exists n, LayerNormalization.init features eps = Ok n /\
            wf_norm (Z.to_nat features) n.
Proof.
  intros Hf. unfold LayerNormalization.init.
  rewrite ones_ok, zeros_ok by (repeat constructor; lia).
  eexists. split; [reflexivity|]. split; reflexivity.
Qed.

Lemma residual_init_ok features dropout :
  (0 <= features)%Z -> (0 <= dropout)%Q -> (dropout <= 1)%Q ->
  exists r, ResidualConnection.init features dropout = Ok r /\
            wf_residual (Z.to_nat features) r.
Proof.
  intros Hf H0 H1. unfold ResidualConnection.init.
  rewrite (dropout_init_ok _ H0 H1). cbn [rbind].
  destruct (layer_norm_init_ok features LayerNormalization.default_eps Hf)
    as (n & E & W).
  rewrite E. eexists. split; [reflexivity | exact W].
Qed.

Lemma build_encoder_block_ok d_model h dropout d_ff g :
  (0 < h)%Z -> (0 <= d_model)%Z -> (d_model mod h)%Z = 0%Z ->
  (0 <= d_ff)%Z -> (0 <= dropout)%Q -> (dropout <= 1)%Q ->
  exists blk g',
    build_encoder_block d_model h dropout d_ff g = Ok (blk, g') /\
    wf_block (Z.to_nat d_model) (Z.to_nat h) (Z.to_nat (d_model / h)) blk.
Proof.
  intros Hh Hd Hm Hf H0 H1. unfold build_encoder_block.
  destruct (mha_init_wf d_model h dropout g Hh Hd Hm H0 H1)
    as (att & g1 & E1 & W1).
  rewrite (bind_ok _ _ _ _ _ E1).
  destruct (feed_forward_init_ok d_model d_ff dropout g1 Hd Hf H0 H1)
    as (ff & g2 & E2 & W2).
  rewrite (bind_ok _ _ _ _ _ E2).
  unfold EncoderBlock.init.
  destruct (residual_init_ok d_model dropout Hd H0 H1) as (r & Er & Wr).
  rewrite Er. cbn [rbind lift].
  do 2 eexists. split; [reflexivity|].
  split; [exact W1|]. split; [exact W2|].
  exists r, r. split; [reflexivity | split; exact Wr].
Qed.

Lemma repeatM_ok {A} (P : A -> Prop) (body : M A) :
  (forall g, exists x g', body g = Ok (x, g') /\ P x) ->
  forall n g, exists xs g', repeatM n body g = Ok (xs, g') /\ Forall P xs.
Proof.
  intros Hbody. induction n as [|n IH]; intros g.
  - exists [], g. split; [reflexivity | constructor].
  - cbn [repeatM]. destruct (Hbody g) as (x & g1 & E1 & P1).
    rewrite (bind_ok _ _ _ _ _ E1).
    destruct (IH g1) as (xs & g2 & E2 & P2).
    rewrite (bind_ok _ _ _ _ _ E2).
    do 2 eexists. split; [reflexivity|]. constructor; assumption.
Qed.

(** ** The initialisation loops keep every shape *)

Lemma init_parameter_ok (p : rtensor) g :
  exists p' g', init_parameter p g = Ok (p', g') /\ shape p' = shape p.
Proof.
  unfold init_parameter, xavier_uniform_.
  destruct (Nat.ltb_spec 1 (rank p)) as [Hr|Hr].
  - destruct (Nat.ltb_spec (rank p) 2); [lia|].
    do 2 eexists. split; reflexivity.
  - do 2 eexists. split; reflexivity.
Qed.

Lemma params_linear_ok (l : Linear.t) g :
  exists l' g', Params.linear l g = Ok (l', g') /\
                shape (Linear.weight l') = shape (Linear.weight l).
Proof.
  unfold Params.linear.
  destruct (init_parameter_ok (Linear.weight l) g) as (w & g1 & E1 & S1).
  rewrite (bind_ok _ _ _ _ _ E1). destruct (Linear.bias l) as [b|].
  - destruct (init_parameter_ok b g1) as (b' & g2 & E2 & _).
    rewrite (bind_ok _ _ _ _ _ E2).
    do 2 eexists. split; [reflexivity | exact S1].
  - do 2 eexists. split; [reflexivity | exact S1].
Qed.

Lemma params_layer_norm_ok d (n : LayerNormalization.t) g :
  wf_norm d n ->
  exists n' g', Params.layer_norm n g = Ok (n', g') /\ wf_norm d n'.
Proof.
  intros [Ha Hb]. unfold Params.layer_norm.
  destruct (init_parameter_ok (LayerNormalization.alpha n) g)
    as (a & g1 & E1 & S1).
  rewrite (bind_ok _ _ _ _ _ E1).
  destruct (init_parameter_ok (LayerNormalization.bias n) g1)
    as (b & g2 & E2 & S2).
  rewrite (bind_ok _ _ _ _ _ E2).
  do 2 eexists. split; [reflexivity|].
  split; cbn; congruence.
Qed.

Lemma params_attention_ok d hn dkn (a : MultiHeadAttentionBlock.t) g :
  wf_attention d hn dkn a ->
  exists a' g', Params.attention a g = Ok (a', g') /\
                wf_attention d hn dkn a'.
Proof.
  intros (Hh & Hk & Hd & Wq & Wk & Wv & Wo). unfold Params.attention.
  destruct (params_linear_ok (MultiHeadAttentionBlock.w_q a) g)
    as (q & g1 & E1 & S1).
  rewrite (bind_ok _ _ _ _ _ E1).
  destruct (params_linear_ok (MultiHeadAttentionBlock.w_k a) g1)
    as (k & g2 & E2 & S2).
  rewrite (bind_ok _ _ _ _ _ E2).
  destruct (params_linear_ok (MultiHeadAttentionBlock.w_v a) g2)
    as (v & g3 & E3 & S3).
  rewrite (bind_ok _ _ _ _ _ E3).
  destruct (params_linear_ok (MultiHeadAttentionBlock.w_o a) g3)
    as (o & g4 & E4 & S4).
  rewrite (bind_ok _ _ _ _ _ E4).
  do 2 eexists. split; [reflexivity|].
  unfold wf_attention. cbn. repeat split; congruence.
Qed.

Lemma params_feed_forward_ok d (f : FeedForwardBlock.t) g :
  wf_feed_forward d f ->
  exists f' g', Params.feed_forward f g = Ok (f', g') /\
                wf_feed_forward d f'.
Proof.
  intros (d_ff & W1 & W2). unfold Params.feed_forward.
  destruct (params_linear_ok (FeedForwardBlock.linear_1 f) g)
    as (l1 & g1 & E1 & S1).
  rewrite (bind_ok _ _ _ _ _ E1).
  destruct (params_linear_ok (FeedForwardBlock.linear_2 f) g1)
    as (l2 & g2 & E2 & S2).
  rewrite (bind_ok _ _ _ _ _ E2).
  do 2 eexists. split; [reflexivity|].
  exists d_ff. cbn. split; congruence.
Qed.

Lemma params_residual_ok d (r : ResidualConnection.t) g :
  wf_residual d r ->
  exists r' g', Params.residual r g = Ok (r', g') /\ wf_residual d r'.
Proof.
  intros W. unfold Params.residual.
  destruct (params_layer_norm_ok d _ g W) as (n & g1 & E & Wn).
  rewrite (bind_ok _ _ _ _ _ E).
  do 2 eexists. split; [reflexivity | exact Wn].
Qed.

Lemma params_each_ok {A} (P : A -> Prop) (f : A -> M A) :
  (forall x g, P x -> exists y g', f x g = Ok (y, g') /\ P y) ->
  forall l g, Forall P l ->
    exists l' g', Params.each f l g = Ok (l', g') /\ Forall P l' /\
                  length l' = length l.
Proof.
  intros Hf. induction l as [|x l IH]; intros g Hl.
  - exists [], g. split; [reflexivity|]. split; [constructor | reflexivity].
  - inversion Hl as [|? ? Px Pl]; subst. cbn [Params.each].
    destruct (Hf x g Px) as (y & g1 & E1 & Py).
    rewrite (bind_ok _ _ _ _ _ E1).
    destruct (IH g1 Pl) as (l' & g2 & E2 & Pl' & Hlen).
    rewrite (bind_ok _ _ _ _ _ E2).
    do 2 eexists. split; [reflexivity|].
    split; [constructor; assumption | cbn; congruence].
Qed.

Lemma params_block_ok d hn dkn (b : EncoderBlock.t) g :
  wf_block d hn dkn b ->
  exists b' g', Params.encoder_block b g = Ok (b', g') /\
                wf_block d hn dkn b'.
Proof.
  intros (Wa & Wf & r0 & r1 & Hrc & W0 & W1). unfold Params.encoder_block.
  destruct (params_attention_ok d hn dkn _ g Wa) as (a & g1 & E1 & Wa').
  rewrite (bind_ok _ _ _ _ _ E1).
  destruct (params_feed_forward_ok d _ g1 Wf) as (f & g2 & E2 & Wf').
  rewrite (bind_ok _ _ _ _ _ E2).
  rewrite Hrc. cbn [Params.each].
  destruct (params_residual_ok d r0 g2 W0) as (r0' & g3 & E3 & W0').
  destruct (params_residual_ok d r1 g3 W1) as (r1' & g4 & E4 & W1').
  unfold bind at 1. unfold bind at 1. rewrite E3.
  unfold bind at 1. unfold bind at 1. rewrite E4.
  do 2 eexists. split; [reflexivity|].
  split; [exact Wa'|]. split; [exact Wf'|].
  exists r0', r1'. split; [reflexivity | split; assumption].
Qed.

Lemma params_encoder_ok d hn dkn (e : Encoder.t) g :
  wf_encoder d hn dkn e ->
  exists e' g', Params.encoder e g = Ok (e', g') /\ wf_encoder d hn dkn e'.
Proof.
  intros [Wl Wn]. unfold Params.encoder.
  destruct (params_each_ok (wf_block d hn dkn) Params.encoder_block
              (fun x g0 W => params_block_ok d hn dkn x g0 W)
              (Encoder.layers e) g Wl) as (ls & g1 & E1 & Wl' & _).
  rewrite (bind_ok _ _ _ _ _ E1).
  destruct (params_layer_norm_ok d _ g1 Wn) as (n & g2 & E2 & Wn').
  rewrite (bind_ok _ _ _ _ _ E2).
  do 2 eexists. split; [reflexivity|]. split; assumption.
Qed.

Lemma params_transformer_ok d hn dkn (m : Transformer.t) g :
  wf_encoder d hn dkn (Transformer.encoder m) ->
  exists m' g',
    Params.transformer m g = Ok (m', g') /\
    wf_encoder d hn dkn (Transformer.encoder m') /\
    Transformer.seq_pos m' = Transformer.seq_pos m /\
    match Transformer.seq_embed m with
    | Some e => exists e',
        Transformer.seq_embed m' = Some e' /\
        InputEmbeddings.d_model e' = InputEmbeddings.d_model e /\
        shape (Embedding.weight (InputEmbeddings.embedding e')) =
        shape (Embedding.weight (InputEmbeddings.embedding e))
    | None => Transformer.seq_embed m' = None
    end /\
    match Transformer.projection_layer m with
    | Some p => exists p',
        Transformer.projection_layer m' = Some p' /\
        shape (Linear.weight (ProjectionLayer.proj p')) =
        shape (Linear.weight (ProjectionLayer.proj p))
    | None => Transformer.projection_layer m' = None
    end.
Proof.
  intros We. unfold Params.transformer.
  destruct (params_encoder_ok d hn dkn _ g We) as (enc & g1 & E1 & We').
  rewrite (bind_ok _ _ _ _ _ E1).
  assert (Hemb : exists emb g2,
             match Transformer.seq_embed m with
             | Some e =>
                 w <- init_parameter
                        (Embedding.weight (InputEmbeddings.embedding e)) ;;
                 ret (Some (InputEmbeddings.mk (InputEmbeddings.d_model e)
                              (InputEmbeddings.vocab_size e)
                              (Embedding.mk w)))
             | None => ret None
             end g1 = Ok (emb, g2) /\
             match Transformer.seq_embed m with
             | Some e => exists e',
                 emb = Some e' /\
                 InputEmbeddings.d_model e' = InputEmbeddings.d_model e /\
                 shape (Embedding.weight (InputEmbeddings.embedding e')) =
                 shape (Embedding.weight (InputEmbeddings.embedding e))
             | None => emb = None
             end).
  { destruct (Transformer.seq_embed m) as [e|].
    - destruct (init_parameter_ok
                  (Embedding.weight (InputEmbeddings.embedding e)) g1)
        as (w & g2 & E2 & S2).
      rewrite (bind_ok _ _ _ _ _ E2).
      do 2 eexists. split; [reflexivity|].
      eexists. split; [reflexivity|]. split; [reflexivity | exact S2].
    - do 2 eexists. split; reflexivity. }
  destruct Hemb as (emb & g2 & E2 & Wemb).
  rewrite (bind_ok _ _ _ _ _ E2).
  assert (Hpl : exists pl g3,
             match Transformer.projection_layer m with
             | Some p =>
                 l <- Params.linear (ProjectionLayer.proj p) ;;
                 ret (Some (ProjectionLayer.mk l))
             | None => ret None
             end g2 = Ok (pl, g3) /\
             match Transformer.projection_layer m with
             | Some p => exists p',
                 pl = Some p' /\
                 shape (Linear.weight (ProjectionLayer.proj p')) =
                 shape (Linear.weight (ProjectionLayer.proj p))
             | None => pl = None
             end).
  { destruct (Transformer.projection_layer m) as [p|].
    - destruct (params_linear_ok (ProjectionLayer.proj p) g2)
        as (l & g3 & E3 & S3).
      rewrite (bind_ok _ _ _ _ _ E3).
      do 2 eexists. split; [reflexivity|].
      eexists. split; [reflexivity | exact S3].
    - do 2 eexists. split; reflexivity. }
  destruct Hpl as (pl & g3 & E3 & Wpl).
  rewrite (bind_ok _ _ _ _ _ E3).
  do 2 eexists. split; [reflexivity|]. cbn.
  split; [exact We'|]. split; [reflexivity|]. split; assumption.
Qed.

Lemma encoder_init_ok d hn dkn features layers :
  (0 <= features)%Z -> Z.to_nat features = d ->
  Forall (wf_block d hn dkn) layers ->
  exists e, Encoder.init features layers = Ok e /\ wf_encoder d hn dkn e.
Proof.
  intros Hf Hd Wl. unfold Encoder.init.
  destruct (layer_norm_init_ok features LayerNormalization.default_eps Hf)
    as (n & E & W).
  rewrite E. eexists. split; [reflexivity|].
  split; [exact Wl | rewrite <- Hd; exact W].
Qed.

Lemma build_transformer_ok v sl pl c d_model N h dropout d_ff g :
  (0 <= v)%Z -> (0 <= sl)%Z -> (0 <= pl)%Z -> (0 <= c)%Z ->
  (1 <= d_model)%Z -> (Z.even d_model = true \/ d_model = 1%Z) ->
  (0 < h)%Z -> (d_model mod h)%Z = 0%Z ->
  (0 <= dropout)%Q -> (dropout <= 1)%Q -> (0 <= d_ff)%Z ->
  exists tr tp g',
    build_transformer v sl pl c d_model N h dropout d_ff false g
      = Ok ((tr, tp), g') /\
    wf_transformer (Z.to_nat d_model) (Z.to_nat h) (Z.to_nat (d_model / h))
      (Z.to_nat v) (Z.to_nat sl) (Z.to_nat (d_model * 2)) (Z.to_nat c) tr /\
    wf_encoder (Z.to_nat d_model) (Z.to_nat h) (Z.to_nat (d_model / h))
      (Transformer.encoder tp) /\
    shape (PositionalEncoding.pe (Transformer.seq_pos tp)) =
      [1; Z.to_nat pl; Z.to_nat d_model] /\
    Transformer.seq_embed tp = None /\
    Transformer.projection_layer tp = None.
Proof.
  intros Hv Hsl Hpl Hc Hd Hev Hh Hm H0 H1 Hf.
  assert (Hd0 : (0 <= d_model)%Z) by lia.
  unfold build_transformer.
  destruct (embeddings_init_ok d_model v g Hd0 Hv) as (e & g1 & E1 & De & Se).
  rewrite (bind_ok _ _ _ _ _ E1).
  destruct (pe_init_ok d_model sl dropout Hsl Hd H0 H1 Hev)
    as (pe1 & E2 & S2 & _).
  rewrite (bind_ok _ _ _ _ _ (lift_ok _ g1 _ E2)).
  destruct (repeatM_ok
              (wf_block (Z.to_nat d_model) (Z.to_nat h)
                 (Z.to_nat (d_model / h)))
              (build_encoder_block d_model h dropout d_ff)
              (fun g0 => build_encoder_block_ok d_model h dropout d_ff g0
                           Hh Hd0 Hm Hf H0 H1)
              (Z.to_nat N) g1) as (blocks & g2 & E3 & W3).
  rewrite (bind_ok _ _ _ _ _ E3).
  destruct (encoder_init_ok _ _ _ d_model blocks Hd0 eq_refl W3)
    as (enc & E4 & W4).
  rewrite (bind_ok _ _ _ _ _ (lift_ok _ g2 _ E4)).
  cbn [negb].
  destruct (linear_init_ok (d_model * 2) c true g2 ltac:(lia) Hc)
    as (lp & g3 & E5 & S5 & _).
  assert (E5' : (p <- ProjectionLayer.init (d_model * 2) c ;; ret (Some p)) g2
                = Ok (Some (ProjectionLayer.mk lp), g3)).
  { unfold ProjectionLayer.init, bind at 1. unfold bind at 1.
    rewrite E5. reflexivity. }
  rewrite (bind_ok _ _ _ _ _ E5'). cbv zeta.
  destruct (pe_init_ok d_model pl dropout Hpl Hd H0 H1 Hev)
    as (pe2 & E6 & S6 & _).
  rewrite (bind_ok _ _ _ _ _ (lift_ok _ g3 _ E6)).
  destruct (repeatM_ok
              (wf_block (Z.to_nat d_model) (Z.to_nat h)
                 (Z.to_nat (d_model / h)))
              (build_encoder_block d_model h dropout d_ff)
              (fun g0 => build_encoder_block_ok d_model h dropout d_ff g0
                           Hh Hd0 Hm Hf H0 H1)
              1 g3) as (pblocks & g4 & E7 & W7).
  rewrite (bind_ok _ _ _ _ _ E7).
  destruct (encoder_init_ok _ _ _ d_model pblocks Hd0 eq_refl W7)
    as (penc & E8 & W8).
  rewrite (bind_ok _ _ _ _ _ (lift_ok _ g4 _ E8)).
  destruct (params_transformer_ok _ _ _
              (Transformer.init enc (Some e)
                 (PositionalEncoding.mk d_model sl (Dropout.mk dropout true)
                    pe1)
                 (Some (ProjectionLayer.mk lp))) g4 W4)
    as (tr & g5 & E9 & Wtr & Ptr & (e' & Etr & De' & Se') & (p' & Ppr & Sp')).
  rewrite (bind_ok _ _ _ _ _ E9).
  destruct (params_transformer_ok _ _ _
              (Transformer.init penc None
                 (PositionalEncoding.mk d_model pl (Dropout.mk dropout true)
                    pe2)
                 None) g5 W8)
    as (tp & g6 & E10 & Wtp & Ptp & Etp & Ppp).
  rewrite (bind_ok _ _ _ _ _ E10).
  exists tr, tp, g6. split; [reflexivity|].
  cbn in Etp, Ppp, Se', De', Sp'.
  split; [|split; [exact Wtp|split; [|split; assumption]]].
  - split; [exact Wtr|]. split; [rewrite Ptr; exact S2|]. split.
    + exists e'. split; [exact Etr|]. split.
      * rewrite De', De, Z2Nat.id by lia. reflexivity.
      * rewrite Se', Se. reflexivity.
    + exists p'. split; [exact Ppr|]. rewrite Sp', S5. reflexivity.
  - rewrite Ptp. exact S6.
Qed.

(** ** C1: embed, encode, project on the sequence-level transformer *)

Lemma embed_ok (tr : Transformer.t) (ids : itensor)
      d hn dkn vocab len p_in classes b n :
  wf_transformer d hn dkn vocab len p_in classes tr ->
  ids_ok b n vocab ids ->
  exists e, Transformer.embed tr ids = Ok e /\ shape e = [b; n; d].
Proof.
  intros (_ & _ & (emb & He & Hd & Hw) & _) Hids.
  unfold Transformer.embed. rewrite He. unfold InputEmbeddings.forward.
  destruct (embedding_forward_ok _ ids b n vocab d Hw Hids) as (y & Hy & Sy).
  rewrite Hy. cbn [rbind]. unfold math_sqrt. rewrite Hd.
  destruct (Z.ltb_spec (Z.of_nat d) 0); [lia|]. cbn [rbind].
  eexists. split; [reflexivity | exact Sy].
Qed.

Lemma project_ok (tr : Transformer.t) (x : rtensor)
      d hn dkn vocab len p_in classes pre :
  wf_transformer d hn dkn vocab len p_in classes tr ->
  shape x = pre ++ [p_in] ->
  exists out, Transformer.project tr x = Ok out /\
              shape out = pre ++ [classes].
Proof.
  intros (_ & _ & _ & (p & Hp & Hw)) Hx.
  unfold Transformer.project, ProjectionLayer.forward. rewrite Hp.
  apply (linear_forward_ok _ x classes p_in pre Hw Hx).
Qed.

Lemma project_mismatch (tr : Transformer.t) (x : rtensor)
      d hn dkn vocab len p_in classes pre n :
  wf_transformer d hn dkn vocab len p_in classes tr ->
  shape x = pre ++ [n] -> n <> p_in ->
  Transformer.project tr x = Err RuntimeError.
Proof.
  intros (_ & _ & _ & (p & Hp & Hw)) Hx Hn.
  unfold Transformer.project, ProjectionLayer.forward. rewrite Hp.
  apply (linear_forward_mismatch _ x classes p_in pre n Hw Hx Hn).
Qed.

Lemma embed_encode_project_raises (tr : Transformer.t) (ids : itensor)
      (mask : option itensor) d hn dkn vocab len p_in classes b n g :
  wf_transformer d hn dkn vocab len p_in classes tr ->
  ids_ok b n vocab ids -> mask_ok b n mask ->
  0 < b -> n <= len -> 0 < d -> d <> p_in ->
  exists e y tr' g1,
    Transformer.embed tr ids = Ok e /\ shape e = [b; n; d] /\
    Transformer.encode tr e mask g = Ok ((y, tr'), g1) /\
    shape y = [b; n; d] /\
    Transformer.project tr y = Err RuntimeError /\
    embed_encode_project tr ids mask g = Err RuntimeError.
Proof.
  intros Hwf Hids Hm Hb Hn Hd Hp.
  destruct (embed_ok tr ids d hn dkn vocab len p_in classes b n Hwf Hids)
    as (e & He & Se).
  pose proof Hwf as (Wenc & Wpe & _ & _).
  destruct (encode_ok tr e mask d hn dkn len b n g Wenc Wpe Se Hn Hm Hb Hd)
    as (y & tr' & g1 & Henc & Sy & _).
  assert (Hproj : Transformer.project tr y = Err RuntimeError).
  { apply (project_mismatch tr y d hn dkn vocab len p_in classes [b; n] d
             Hwf Sy Hp). }
  exists e, y, tr', g1. repeat (split; [assumption|]).
  unfold embed_encode_project, bind, lift. rewrite He, Henc, Hproj.
  reflexivity.
Qed.

Lemma default_dropout_valid :
  (0 <= default_dropout)%Q /\ (default_dropout <= 1)%Q.
Proof. unfold default_dropout, Qle; simpl; lia. Qed.

Lemma build_default_ok g :
  exists tr tp g',
    build_transformer 256 150 10 2 default_d_model default_N default_h
      default_dropout default_d_ff default_header g = Ok ((tr, tp), g') /\
    wf_transformer 64 4 16 256 150 128 2 tr /\
    wf_encoder 64 4 16 (Transformer.encoder tp) /\
    shape (PositionalEncoding.pe (Transformer.seq_pos tp)) = [1; 10; 64] /\
    Transformer.seq_embed tp = None /\
    Transformer.projection_layer tp = None.
Proof.
  destruct default_dropout_valid as [H0 H1].
  apply (build_transformer_ok 256 150 10 2 default_d_model default_N
           default_h default_dropout default_d_ff g);
    try assumption; try (unfold default_d_model, default_d_ff; lia).
  - left. reflexivity.
  - reflexivity.
  - reflexivity.
Qed.

Lemma one_token_ok : ids_ok 1 1 256 one_token.
Proof. split; [reflexivity|]. intros idx _. cbn. lia. Qed.

(** C1 (as amended).  [build_transformer(256, 150, 10, 2)] with the
    default arguments returns two transformers.  On the first, for token
    ids of shape (batch, n) inside the vocabulary, with [batch >= 1] and
    [n <= 150], and a mask that is [None] or of shape (batch, n), [embed]
    and [encode] return tensors of shape (batch, n, 64); [project] applied
    to that output raises a shape error, because the projection layer
    expects width [2 * d_model = 128]: applied to an input of shape
    (..., 128) it returns shape (..., 2). *)
Theorem C1_build_and_project :
  forall g : rng,
  exists tr tp g',
    build_transformer 256 150 10 2 default_d_model default_N default_h
      default_dropout default_d_ff default_header g = Ok ((tr, tp), g') /\
    (forall ids mask b n g0,
        ids_ok b n 256 ids -> mask_ok b n mask -> 0 < b -> n <= 150 ->
        exists e y tr' g1,
          Transformer.embed tr ids = Ok e /\ shape e = [b; n; 64] /\
          Transformer.encode tr e mask g0 = Ok ((y, tr'), g1) /\
          shape y = [b; n; 64] /\
          Transformer.project tr y = Err RuntimeError /\
          embed_encode_project tr ids mask g0 = Err RuntimeError) /\
    (forall x pre,
        shape x = pre ++ [128] ->
        exists out, Transformer.project tr x = Ok out /\
                    shape out = pre ++ [2]).
Proof.
  intros g. destruct (build_default_ok g) as (tr & tp & g' & E & Wtr & _).
  exists tr, tp, g'. split; [exact E|]. split.
  - intros ids mask b n g0 Hids Hm Hb Hn.
    apply (embed_encode_project_raises tr ids mask 64 4 16 256 150 128 2
             b n g0 Wtr Hids Hm Hb Hn); lia.
  - intros x pre Hx.
    apply (project_ok tr x 64 4 16 256 150 128 2 pre Wtr Hx).
Qed.

Lemma C1_build_and_project_witness :
  exists tr tp g',
    build_transformer 256 150 10 2 default_d_model default_N default_h
      default_dropout default_d_ff default_header zero_rng
      = Ok ((tr, tp), g') /\
    (exists y tr' g1,
        Transformer.encode tr
          (match Transformer.embed tr one_token with
           | Ok e => e
           | Err _ => zero_input 1 1 64
           end) (Some keep_all) g' = Ok ((y, tr'), g1) /\
        shape y = [1; 1; 64]) /\
    embed_encode_project tr one_token (Some keep_all) g' = Err RuntimeError /\
    exists out,
      Transformer.project tr (zero_input 2 3 128) = Ok out /\
      shape out = [2; 3] ++ [2].
Proof.
  destruct (C1_build_and_project zero_rng) as (tr & tp & g' & E & Hseq & Hpr).
  exists tr, tp, g'. split; [exact E|].
  destruct (Hseq one_token (Some keep_all) 1 1 g' one_token_ok eq_refl)
    as (e & y & tr' & g1 & He & _ & Henc & Sy & _ & Hfail); [lia | lia |].
  split; [|split].
  - exists y, tr', g1. rewrite He. split; assumption.
  - exact Hfail.
  - apply (Hpr (zero_input 2 3 128) [2; 3]). reflexivity.
Defined.

(** C1, the claim as stated fails: on the first transformer of
    [build_transformer(256, 150, 10, 2)], [project(encode(embed(ids),
    mask))] raises for one sequence of one token. *)
Lemma C1_counterexample :
  exists tr tp g',
    build_transformer 256 150 10 2 default_d_model default_N default_h
      default_dropout default_d_ff default_header zero_rng
      = Ok ((tr, tp), g') /\
    embed_encode_project tr one_token (Some keep_all) g' = Err RuntimeError.
Proof.
  destruct (build_default_ok zero_rng) as (tr & tp & g' & E & Wtr & _).
  exists tr, tp, g'. split; [exact E|].
  destruct (embed_encode_project_raises tr one_token (Some keep_all)
              64 4 16 256 150 128 2 1 1 g' Wtr one_token_ok eq_refl)
    as (e & y & tr' & g1 & _ & _ & _ & _ & _ & Hfail); try lia.
  exact Hfail.
Qed.

Lemma C7_missing_submodule_witness :
  exists tr tp g',
    build_transformer 256 150 10 2 default_d_model default_N default_h
      default_dropout default_d_ff default_header zero_rng
      = Ok ((tr, tp), g') /\
    Transformer.embed tp one_token = Err TypeError_NoneType_not_callable /\
    Transformer.project tp (zero_input 1 1 64)
      = Err TypeError_NoneType_not_callable /\
    Transformer.embed tiny_transformer one_token
      = Err TypeError_NoneType_not_callable /\
    Transformer.project tiny_transformer (zero_input 1 1 64)
      = Err TypeError_NoneType_not_callable.
Proof.
  destruct (build_default_ok zero_rng) as (tr & tp & g' & E & _).
  exists tr, tp, g'. split; [exact E|].
  destruct (proj2 (proj2 C7_missing_submodule) _ _ _ _ _ _ _ _ _ _ _ _ _ _ E)
    as (Hemb & Hproj & _).
  split; [apply Hemb|]. split; [apply Hproj|]. split.
  - apply (proj1 C7_missing_submodule). reflexivity.
  - apply (proj1 (proj2 C7_missing_submodule)). reflexivity.
Defined.

(** C9, the claim as stated fails at [d_model = 1]: the one-column cosine
    block broadcasts into the empty odd-index slice, so the constructor
    returns, and [build_transformer] with [d_model = 1], [h = 1] returns
    its two transformers. *)
Lemma C9_counterexample :
  Z.odd 1 = true /\
  (exists self, PositionalEncoding.init 1 150 default_dropout = Ok self) /\
  exists tr tp g',
    build_transformer 256 150 10 2 1 default_N 1 default_dropout
      default_d_ff default_header zero_rng = Ok ((tr, tp), g').
Proof.
  destruct default_dropout_valid as [H0 H1].
  split; [reflexivity|]. split.
  - destruct (pe_init_ok 1 150 default_dropout) as (pe & E & _);
      [lia | lia | assumption | assumption | right; reflexivity |].
    eexists. exact E.
  - destruct (build_transformer_ok 256 150 10 2 1 default_N 1
                default_dropout default_d_ff zero_rng)
      as (tr & tp & g' & E & _);
      [lia | lia | lia | lia | lia | right; reflexivity | lia | reflexivity
       | assumption | assumption | unfold default_d_ff; lia |].
    exists tr, tp, g'. exact E.
Qed.

(* ================================================================== *)
(** * Further properties of the modules *)

(** ** FeedForwardBlock *)

Lemma feed_forward_width (self : FeedForwardBlock.t) (x : rtensor) d pre n g :
  wf_feed_forward d self -> shape x = pre ++ [n] -> n <> d ->
  FeedForwardBlock.forward self x g = Err RuntimeError.
Proof.
  intros (d_ff & W1 & _) Hx Hn. unfold FeedForwardBlock.forward.
  apply bind_err. unfold lift.
  rewrite (linear_forward_mismatch _ x d_ff d pre n W1 Hx Hn). reflexivity.
Qed.

(** X1.  [FeedForwardBlock.forward] maps an input of shape (..., d_model)
    to an output of the same shape, and raises a shape error on an input
    whose last axis has another size. *)
Theorem X1_feed_forward_shape :
  forall (self : FeedForwardBlock.t) (x : rtensor) (d : nat)
         (pre : list nat) (n : nat) (g : rng),
    wf_feed_forward d self -> shape x = pre ++ [n] ->
    (n = d ->
     exists y g', FeedForwardBlock.forward self x g = Ok (y, g') /\
                  shape y = shape x) /\
    (n <> d -> FeedForwardBlock.forward self x g = Err RuntimeError).
Proof.
  intros self x d pre n g Hwf Hx. split.
  - intros ->. destruct (feed_forward_ok self x d pre g Hwf Hx)
      as (y & g' & E & Sy).
    exists y, g'. split; [exact E | congruence].
  - intros Hn. eapply feed_forward_width; eassumption.
Qed.

Lemma X1_feed_forward_shape_witness :
  exists f g0,
    FeedForwardBlock.init 64 128 default_dropout zero_rng = Ok (f, g0) /\
    (exists y g', FeedForwardBlock.forward f (zero_input 2 3 64) g0
                  = Ok (y, g') /\ shape y = shape (zero_input 2 3 64)) /\
    FeedForwardBlock.forward f (zero_input 2 3 128) g0 = Err RuntimeError.
Proof.
  destruct default_dropout_valid as [H0 H1].
  destruct (feed_forward_init_ok 64 128 default_dropout zero_rng)
    as (f & g0 & E & Wf); [lia | lia | assumption | assumption |].
  exists f, g0. split; [exact E|]. split.
  - apply (proj1 (X1_feed_forward_shape f (zero_input 2 3 64) 64 [2; 3] 64
                    g0 Wf eq_refl)). reflexivity.
  - apply (proj2 (X1_feed_forward_shape f (zero_input 2 3 128) 64 [2; 3] 128
                    g0 Wf eq_refl)). lia.
Defined.

(** ** InputEmbeddings *)

Lemma indices_complete s idx : in_range idx s -> In idx (indices s).
Proof.
  intros H. induction H as [|i d idx s Hlt _ IH]; [left; reflexivity|].
  cbn [indices]. apply in_flat_map. exists i. split.
  - apply in_seq. lia.
  - apply in_map. exact IH.
Qed.

Lemma embedding_lookup (self : Embedding.t) (x : itensor) vocab d :
  shape (Embedding.weight self) = [vocab; d] ->
  (forall idx, in_range idx (shape x) ->
     (0 <= at_ x idx < Z.of_nat vocab)%Z) ->
  Embedding.forward self x =
  Ok (mkT (shape x ++ [d])
        (fun idx => at_ (Embedding.weight self)
                      [Z.to_nat (at_ x (removelast idx)); last idx 0])).
Proof.
  intros Hw Hr. unfold Embedding.forward. rewrite Hw.
  assert (forallb (fun idx => (0 <=? at_ x idx)%Z &&
                              (at_ x idx <? Z.of_nat vocab)%Z)
                  (indices (shape x)) = true) as ->; [|reflexivity].
  apply forallb_forall. intros idx Hin. apply in_indices in Hin.
  specialize (Hr idx Hin).
  apply andb_true_iff. split; [apply Z.leb_le | apply Z.ltb_lt]; lia.
Qed.

Lemma embedding_out_of_range (self : Embedding.t) (x : itensor) vocab d idx :
  shape (Embedding.weight self) = [vocab; d] ->
  in_range idx (shape x) ->
  ~ (0 <= at_ x idx < Z.of_nat vocab)%Z ->
  Embedding.forward self x =
  Err (if vocab =? 0 then RuntimeError else IndexError).
Proof.
  intros Hw Hin Hbad. unfold Embedding.forward. rewrite Hw.
  assert (forallb (fun idx => (0 <=? at_ x idx)%Z &&
                              (at_ x idx <? Z.of_nat vocab)%Z)
                  (indices (shape x)) = false) as ->;
    [|destruct (vocab =? 0); reflexivity].
  apply not_true_is_false. intros Hall.
  rewrite forallb_forall in Hall.
  specialize (Hall idx (indices_complete _ _ Hin)).
  apply andb_true_iff in Hall. destruct Hall as [Ha Hb].
  apply Z.leb_le in Ha. apply Z.ltb_lt in Hb. apply Hbad. lia.
Qed.

(** X2.  [InputEmbeddings.forward] on token ids that all lie in
    [0, vocab_size) returns a tensor of the shape of the ids with one more
    axis of size [d_model], whose entries are the rows of the embedding
    table times [sqrt(d_model)]; one id outside the vocabulary makes it
    raise [IndexError], or [RuntimeError] when the vocabulary is empty
    ([vocab_size = 0]). *)
Theorem X2_input_embeddings :
  forall (self : InputEmbeddings.t) (x : itensor) (vocab d : nat),
    shape (Embedding.weight (InputEmbeddings.embedding self)) = [vocab; d] ->
    (0 <= InputEmbeddings.d_model self)%Z ->
    ((forall idx, in_range idx (shape x) ->
        (0 <= at_ x idx < Z.of_nat vocab)%Z) ->
     exists y,
       InputEmbeddings.forward self x = Ok y /\
       shape y = shape x ++ [d] /\
       forall ipre c,
         at_ y (ipre ++ [c]) =
         (at_ (Embedding.weight (InputEmbeddings.embedding self))
              [Z.to_nat (at_ x ipre); c] *
          sqrt (IZR (InputEmbeddings.d_model self)))%R) /\
    (forall idx, in_range idx (shape x) ->
       ~ (0 <= at_ x idx < Z.of_nat vocab)%Z ->
       InputEmbeddings.forward self x =
       Err (if vocab =? 0 then RuntimeError else IndexError)).
Proof.
  intros self x vocab d Hw Hd. split.
  - intros Hr. unfold InputEmbeddings.forward.
    rewrite (embedding_lookup _ x vocab d Hw Hr). cbn [rbind].
    unfold math_sqrt.
    destruct (Z.ltb_spec (InputEmbeddings.d_model self) 0); [lia|].
    cbn [rbind]. eexists. split; [reflexivity|]. split; [reflexivity|].
    intros ipre c. cbn [tmap at_]. rewrite removelast_last, last_last.
    reflexivity.
  - intros idx Hin Hbad. unfold InputEmbeddings.forward.
    rewrite (embedding_out_of_range _ x vocab d idx Hw Hin Hbad).
    reflexivity.
Qed.

Lemma X2_input_embeddings_witness :
  (exists e g',
      InputEmbeddings.init 64 256 zero_rng = Ok (e, g') /\
      (exists y,
          InputEmbeddings.forward e one_token = Ok y /\
          shape y = shape one_token ++ [64] /\
          forall ipre c,
            at_ y (ipre ++ [c]) =
            (at_ (Embedding.weight (InputEmbeddings.embedding e))
                 [Z.to_nat (at_ one_token ipre); c] *
             sqrt (IZR (InputEmbeddings.d_model e)))%R) /\
      InputEmbeddings.forward e bad_token = Err IndexError) /\
  (exists e g',
      InputEmbeddings.init 64 0 zero_rng = Ok (e, g') /\
      InputEmbeddings.forward e one_token = Err RuntimeError).
Proof.
  split.
  - destruct (embeddings_init_ok 64 256 zero_rng) as (e & g' & E & De & Se);
      [lia | lia |].
    exists e, g'. split; [exact E|].
    assert (Hd : (0 <= InputEmbeddings.d_model e)%Z) by (rewrite De; lia).
    split.
    + apply (proj1 (X2_input_embeddings e one_token 256 64 Se Hd)).
      intros idx _. cbn. lia.
    + apply (proj2 (X2_input_embeddings e bad_token 256 64 Se Hd) [0; 0]).
      * repeat constructor.
      * cbn. lia.
  - destruct (embeddings_init_ok 64 0 zero_rng) as (e & g' & E & De & Se);
      [lia | lia |].
    exists e, g'. split; [exact E|].
    assert (Hd : (0 <= InputEmbeddings.d_model e)%Z) by (rewrite De; lia).
    apply (proj2 (X2_input_embeddings e one_token 0 64 Se Hd) [0; 0]).
    + repeat constructor.
    + cbn. lia.
Defined.

(** ** MultiHeadAttentionBlock.forward, EncoderBlock, Encoder *)

Lemma mha_forward_cached (self : MultiHeadAttentionBlock.t) (q k v : rtensor)
      (mask : option itensor) d hn dkn b s g :
  wf_attention d hn dkn self ->
  shape q = [b; s; d] -> shape k = [b; s; d] -> shape v = [b; s; d] ->
  mask_ok b s mask -> 0 < b -> 0 < d ->
  exists out W g1,
    MultiHeadAttentionBlock.forward self q k v mask g
      = Ok ((out, with_scores self W), g1) /\
    shape out = [b; s; d] /\ shape W = [b; hn; s; s].
Proof.
  intros Hwf Hq Hk Hv Hm Hb Hd.
  destruct (mha_forward_run self q k v d hn dkn b s Hwf Hq Hk Hv)
    as (Q & K & V & query & key & value & _ & _ & _ & _ & _ & _ &
        Sq & Sk & Sv & Hrun).
  destruct (attention_ok query key value mask
              (Some (MultiHeadAttentionBlock.dropout self)) b hn s dkn g
              Sq Sk Sv Hm) as (y & W & g1 & Hatt & Sy & SW).
  destruct (combine_heads_ok self y W d hn dkn b s g1 Hwf Sy Hb Hd)
    as (xt & X & out & _ & _ & _ & _ & Sout & Hc).
  exists out, W, g1. split; [|split; assumption].
  rewrite Hrun. unfold bind at 1. rewrite Hatt. exact Hc.
Qed.

(** X4.  [MultiHeadAttentionBlock.forward], with or without a mask, on
    query, key and value of shape (batch, seq_len, d_model) with
    [batch >= 1] and [d_model >= 1], returns an output of that same shape
    whatever the number of heads, and the block it leaves behind differs from the block before
    the call only by the cached attention weights, of shape
    (batch, h, seq_len, seq_len). *)
Theorem X4_attention_block_forward :
  forall (self : MultiHeadAttentionBlock.t) (q k v : rtensor)
         (mask : option itensor) (d hn dkn b s : nat) (g : rng),
    wf_attention d hn dkn self ->
    shape q = [b; s; d] -> shape k = [b; s; d] -> shape v = [b; s; d] ->
    mask_ok b s mask -> 0 < b -> 0 < d ->
    exists out W g1,
      MultiHeadAttentionBlock.forward self q k v mask g
        = Ok ((out, with_scores self W), g1) /\
      shape out = shape q /\ shape W = [b; hn; s; s].
Proof.
  intros self q k v mask d hn dkn b s g Hwf Hq Hk Hv Hm Hb Hd.
  destruct (mha_forward_cached self q k v mask d hn dkn b s g
              Hwf Hq Hk Hv Hm Hb Hd) as (out & W & g1 & E & So & SW).
  exists out, W, g1. split; [exact E|]. split; [congruence | exact SW].
Qed.

Lemma X4_attention_block_forward_witness :
  exists blk g',
    MultiHeadAttentionBlock.init 64 4 default_dropout zero_rng
      = Ok (blk, g') /\
    exists out W g1,
      MultiHeadAttentionBlock.forward blk (zero_input 1 1 64)
        (zero_input 1 1 64) (zero_input 1 1 64) (Some keep_all) g'
        = Ok ((out, with_scores blk W), g1) /\
      shape out = shape (zero_input 1 1 64) /\ shape W = [1; 4; 1; 1].
Proof.
  destruct default_dropout_valid as [H0 H1].
  destruct (mha_init_wf 64 4 default_dropout zero_rng) as (blk & g' & E & Hwf);
    [lia | lia | reflexivity | assumption | assumption |].
  exists blk, g'. split; [exact E|].
  apply (X4_attention_block_forward blk (zero_input 1 1 64)
           (zero_input 1 1 64) (zero_input 1 1 64) (Some keep_all)
           64 4 16 1 1 g' Hwf eq_refl eq_refl eq_refl eq_refl); lia.
Defined.

Lemma encoder_block_same (self : EncoderBlock.t) (x : rtensor)
      (mask : option itensor) d hn dkn b s g :
  wf_block d hn dkn self -> shape x = [b; s; d] -> mask_ok b s mask ->
  0 < b -> 0 < d ->
  exists y self' g',
    EncoderBlock.forward self x mask g = Ok ((y, self'), g') /\
    shape y = [b; s; d] /\ wf_block d hn dkn self' /\
    same_parameters self self'.
Proof.
  intros (Hatt & Hff & r0 & r1 & Hrc & Hr0 & Hr1) Hx Hm Hb Hd.
  unfold EncoderBlock.forward.
  unfold bind at 1. unfold lift at 1, EncoderBlock.residual.
  rewrite Hrc. cbn [nth_error].
  destruct (residual_forward_ok
              (fun a => exists W,
                   a = with_scores (EncoderBlock.self_attention_block self) W)
              r0 x
              (fun x0 => MultiHeadAttentionBlock.forward
                           (EncoderBlock.self_attention_block self)
                           x0 x0 x0 mask) d [b; s] g Hr0 Hx)
    as (x1 & att & g1 & H1 & S1 & (W & ->)).
  { intros n g0 Sn.
    destruct (mha_forward_cached _ n n n mask d hn dkn b s g0 Hatt
                Sn Sn Sn Hm Hb Hd) as (out & W & g1 & E & So & _).
    exists out, (with_scores (EncoderBlock.self_attention_block self) W), g1.
    split; [exact E | split; [exact So | exists W; reflexivity]]. }
  unfold bind at 1. rewrite H1.
  unfold bind at 1. unfold lift at 1. cbn [nth_error].
  destruct (residual_forward_ok (fun _ : unit => True) r1 x1
              (fun x0 => y <- FeedForwardBlock.forward
                                (EncoderBlock.feed_forward_block self) x0 ;;
                         ret (y, tt)) d [b; s] g1 Hr1 S1)
    as (x2 & u & g2 & H2 & S2 & _).
  { intros n g0 Sn.
    destruct (feed_forward_ok _ n d [b; s] g0 Hff Sn) as (y & g3 & E & Sy).
    exists y, tt, g3. split; [|split; [exact Sy | exact I]].
    unfold bind. rewrite E. reflexivity. }
  unfold bind at 1. rewrite H2. destruct u.
  do 3 eexists. split; [reflexivity|]. split; [exact S2|]. split.
  - split; [apply with_scores_wf; exact Hatt|]. split; [exact Hff|].
    exists r0, r1. split; [reflexivity | split; assumption].
  - split; [reflexivity|]. split; [cbn; symmetry; exact Hrc|].
    exists W. reflexivity.
Qed.

(** X5.  [EncoderBlock.forward] on an input of shape
    (batch, seq_len, d_model) with [batch >= 1] and [d_model >= 1]
    returns an output of the same shape; the block keeps its feed-forward
    block and its two
    residual connections, and its attention block changes only by the
    attention weights it caches. *)
Theorem X5_encoder_block_forward :
  forall (self : EncoderBlock.t) (x : rtensor) (mask : option itensor)
         (d hn dkn b s : nat) (g : rng),
    wf_block d hn dkn self -> shape x = [b; s; d] -> mask_ok b s mask ->
    0 < b -> 0 < d ->
    exists y self' g',
      EncoderBlock.forward self x mask g = Ok ((y, self'), g') /\
      shape y = shape x /\ same_parameters self self'.
Proof.
  intros self x mask d hn dkn b s g Hwf Hx Hm Hb Hd.
  destruct (encoder_block_same self x mask d hn dkn b s g Hwf Hx Hm Hb Hd)
    as (y & self' & g' & E & Sy & _ & Hsame).
  exists y, self', g'. split; [exact E|]. split; [congruence | exact Hsame].
Qed.

Lemma X5_encoder_block_forward_witness :
  exists blk g0,
    build_encoder_block 64 4 default_dropout 128 zero_rng = Ok (blk, g0) /\
    exists y blk' g',
      EncoderBlock.forward blk (zero_input 2 3 64) None g0
        = Ok ((y, blk'), g') /\
      shape y = shape (zero_input 2 3 64) /\ same_parameters blk blk'.
Proof.
  destruct default_dropout_valid as [H0 H1].
  destruct (build_encoder_block_ok 64 4 default_dropout 128 zero_rng)
    as (blk & g0 & E & Hwf);
    [lia | lia | reflexivity | lia | assumption | assumption |].
  exists blk, g0. split; [exact E|].
  apply (X5_encoder_block_forward blk (zero_input 2 3 64) None
           64 4 16 2 3 g0 Hwf eq_refl I); lia.
Defined.

Lemma run_layers_same (ls : list EncoderBlock.t) (x : rtensor)
      (mask : option itensor) d hn dkn b s g :
  Forall (wf_block d hn dkn) ls -> shape x = [b; s; d] -> mask_ok b s mask ->
  0 < b -> 0 < d ->
  exists y ls' g',
    Encoder.run_layers ls x mask g = Ok ((y, ls'), g') /\
    shape y = [b; s; d] /\ Forall2 same_parameters ls ls'.
Proof.
  intros Hls. revert x g.
  induction Hls as [|layer rest Hl _ IH]; intros x g Hx Hm Hb Hd.
  - exists x, [], g. split; [reflexivity|]. split; [exact Hx | constructor].
  - cbn [Encoder.run_layers].
    destruct (encoder_block_same layer x mask d hn dkn b s g Hl Hx Hm Hb Hd)
      as (x1 & layer' & g1 & E1 & S1 & _ & P1).
    unfold bind at 1. rewrite E1.
    destruct (IH x1 g1 S1 Hm Hb Hd) as (y & rest' & g2 & E2 & S2 & P2).
    unfold bind at 1. rewrite E2.
    do 3 eexists. split; [reflexivity|]. split; [exact S2|].
    constructor; assumption.
Qed.

(** X6.  [Encoder.forward] on an input of shape (batch, seq_len, d_model)
    with [batch >= 1] and [d_model >= 1], and no mask or a mask of shape
    (batch, seq_len), returns an output of the same shape for a stack of
    any depth, the empty stack included; the encoder it leaves behind has
    the same final normalisation and the same layers, in the same order,
    each changed only by its cached attention weights. *)
Theorem X6_encoder_forward :
  forall (self : Encoder.t) (x : rtensor) (mask : option itensor)
         (d hn dkn b s : nat) (g : rng),
    wf_encoder d hn dkn self -> shape x = [b; s; d] -> mask_ok b s mask ->
    0 < b -> 0 < d ->
    exists y ls' g',
      Encoder.forward self x mask g
        = Ok ((y, Encoder.mk ls' (Encoder.norm self)), g') /\
      shape y = shape x /\
      Forall2 same_parameters (Encoder.layers self) ls'.
Proof.
  intros self x mask d hn dkn b s g [Hls [Ha Hbias]] Hx Hm Hb Hd.
  unfold Encoder.forward.
  destruct (run_layers_same _ x mask d hn dkn b s g Hls Hx Hm Hb Hd)
    as (x1 & ls' & g1 & E1 & S1 & P1).
  unfold bind at 1. rewrite E1.
  destruct (layer_norm_forward (Encoder.norm self) x1 [b; s] d S1 Ha Hbias)
    as (y & Hy & Sy & _).
  unfold bind, lift. rewrite Hy.
  exists y, ls', g1. split; [reflexivity|].
  split; [rewrite Hx; exact Sy | exact P1].
Qed.

Lemma X6_encoder_forward_witness :
  exists blk g0,
    build_encoder_block 64 4 default_dropout 128 zero_rng = Ok (blk, g0) /\
    exists y ls' g',
      Encoder.forward
        (Encoder.mk [blk; blk]
           (LayerNormalization.mk LayerNormalization.default_eps
              (full [64] 1%R) (full [64] 0%R)))
        (zero_input 2 3 64) None g0
      = Ok ((y, Encoder.mk ls'
                  (LayerNormalization.mk LayerNormalization.default_eps
                     (full [64] 1%R) (full [64] 0%R))), g') /\
      shape y = shape (zero_input 2 3 64) /\
      Forall2 same_parameters [blk; blk] ls'.
Proof.
  destruct default_dropout_valid as [H0 H1].
  destruct (build_encoder_block_ok 64 4 default_dropout 128 zero_rng)
    as (blk & g0 & E & Hwf);
    [lia | lia | reflexivity | lia | assumption | assumption |].
  exists blk, g0. split; [exact E|].
  apply (X6_encoder_forward
           (Encoder.mk [blk; blk]
              (LayerNormalization.mk LayerNormalization.default_eps
                 (full [64] 1%R) (full [64] 0%R)))
           (zero_input 2 3 64) None 64 4 16 2 3 g0).
  - split; [|split; reflexivity].
    constructor; [exact Hwf|]. constructor; [exact Hwf | constructor].
  - reflexivity.
  - exact I.
  - lia.
  - lia.
Defined.

(** X7.  [PositionalEncoding.__init__] returns exactly when [seq_len] is
    not negative, [dropout] lies in [0, 1] and [d_model] is positive and
    either even or equal to 1; it then stores its arguments and a table of
    shape (1, seq_len, d_model).  With [d_model = 0] and the other
    arguments valid it raises [ZeroDivisionError]. *)
Theorem X7_positional_encoding_init :
  forall (d_model seq_len : Z) (dropout : Q),
    ((exists self, PositionalEncoding.init d_model seq_len dropout = Ok self)
     <->
     ((0 <= seq_len)%Z /\ (1 <= d_model)%Z /\
      (0 <= dropout)%Q /\ (dropout <= 1)%Q /\
      (Z.even d_model = true \/ d_model = 1%Z))) /\
    (forall self,
        PositionalEncoding.init d_model seq_len dropout = Ok self ->
        PositionalEncoding.d_model self = d_model /\
        PositionalEncoding.seq_len self = seq_len /\
        PositionalEncoding.dropout self = Dropout.mk dropout true /\
        shape (PositionalEncoding.pe self) =
          [1; Z.to_nat seq_len; Z.to_nat d_model]) /\
    ((0 <= seq_len)%Z /\ (0 <= dropout)%Q /\ (dropout <= 1)%Q ->
     PositionalEncoding.init 0 seq_len dropout = Err ZeroDivisionError).
Proof.
  intros d_model seq_len dropout. split; [split|split].
  - intros [self H]. exact (pe_init_inv _ _ _ _ H).
  - intros (Hs & Hd & H0 & H1 & He).
    destruct (pe_init_ok d_model seq_len dropout Hs Hd H0 H1 He)
      as (pe & E & _).
    eexists. exact E.
  - intros self H.
    destruct (pe_init_inv _ _ _ _ H) as (Hs & Hd & H0 & H1 & He).
    destruct (pe_init_ok d_model seq_len dropout Hs Hd H0 H1 He)
      as (pe & E & Sp & _).
    rewrite E in H. injection H as <-. cbn. repeat split. exact Sp.
  - intros (Hs & H0 & H1). apply pe_init_zero_width; assumption.
Qed.




Lemma matmul_heads_at (x y : rtensor) b h n m p :
  shape x = [b; h; n; m] -> shape y = [b; h; m; p] ->
  exists z, matmul x y = Ok z /\ shape z = [b; h; n; p] /\
    forall i0 i1 i j, i0 < b -> i1 < h ->
      at_ z [i0; i1; i; j] =
      rsum m (fun k => (at_ x [i0; i1; i; k] * at_ y [i0; i1; k; j])%R).
Proof.
  intros Hx Hy. unfold matmul, matmul_nd. rewrite Hx, Hy.
  cbn [split_last2 rev app]. rewrite Nat.eqb_refl, broadcast_same.
  eexists. split; [reflexivity|]. split; [reflexivity|].
  intros i0 i1 i j H0 H1. cbn [at_].
  assert (E : bc_index [b; h] (firstn (length [i0; i1; i; j] - 2)
                                 [i0; i1; i; j]) = [i0; i1]).
  { apply (bc_index_same [b; h] [i0; i1]).
    constructor; [exact H0|]. constructor; [exact H1 | constructor]. }
  rewrite E. reflexivity.
Qed.



(** X9.  [MultiHeadAttentionBlock.attention] takes a mask of two
    dimensions only: with well-shaped queries and keys, a mask of any
    other rank makes the call raise, [IndexError] (from [unsqueeze(1)])
    for a scalar mask and [RuntimeError] (from [expand]) otherwise. *)
Theorem X9_attention_mask_rank :
  forall (query key value : rtensor) (mask : itensor)
         (dropout : option Dropout.t) (b h q kl dk : nat) (g : rng),
    shape query = [b; h; q; dk] ->
    shape key = [b; h; kl; dk] ->
    rank mask <> 2 ->
    MultiHeadAttentionBlock.attention query key value (Some mask) dropout g
    = Err (if rank mask =? 0 then IndexError else RuntimeError).
Proof.
  intros query key value mask dropout b h q kl dk g Hq Hk Hr.
  destruct (attention_scores_run query key value b h q kl dk Hq Hk)
    as (S & _ & _ & Hrun).
  rewrite Hrun. apply bind_err.
  unfold rank in *. unfold bind, lift, unsqueeze, rank.
  destruct (shape mask) as [|m0 [|m1 [|m2 rest]]] eqn:Hm.
  - reflexivity.
  - reflexivity.
  - exfalso. apply Hr. reflexivity.
  - cbn [length Nat.leb insert_at firstn skipn app shape].
    unfold expand, rank. cbn [shape length Nat.ltb Nat.leb]. reflexivity.
Qed.

Lemma X9_attention_mask_rank_witness :
  MultiHeadAttentionBlock.attention unit_input unit_input unit_input
    (Some no_bytes) None zero_rng
  = Err (if rank no_bytes =? 0 then IndexError else RuntimeError).
Proof.
  apply (X9_attention_mask_rank unit_input unit_input unit_input no_bytes
           None 1 1 1 1 1 zero_rng).
  - reflexivity.
  - reflexivity.
  - cbn. lia.
Defined.

Lemma infer_size_negative (b s : nat) (h dk : Z) (n : nat) :
  (h < 0)%Z -> (dk < 0)%Z ->
  infer_size [Z.of_nat b; Z.of_nat s; h; dk] n = None.
Proof.
  intros Hh Hd. unfold infer_size.
  destruct (existsb (fun z => (z <? -1)%Z) [Z.of_nat b; Z.of_nat s; h; dk])
    eqn:E; [reflexivity|].
  cbn [existsb] in E.
  repeat (apply Bool.orb_false_iff in E; destruct E as [?E E]).
  apply Z.ltb_ge in E1, E2.
  assert (h = (-1)%Z) by lia. assert (dk = (-1)%Z) by lia. subst h dk.
  assert (C : count_occ Z.eq_dec [Z.of_nat b; Z.of_nat s; (-1)%Z; (-1)%Z]
                (-1)%Z = 2).
  { cbn [count_occ].
    destruct (Z.eq_dec (Z.of_nat b) (-1)) as [e|_]; [lia|].
    destruct (Z.eq_dec (Z.of_nat s) (-1)) as [e|_]; [lia|].
    destruct (Z.eq_dec (-1) (-1)) as [_|ne]; [reflexivity | congruence]. }
  rewrite C. reflexivity.
Qed.

Lemma floordiv_negative (d_model h : Z) :
  (0 < d_model)%Z -> (h < 0)%Z -> (d_model mod h = 0)%Z ->
  (d_model / h < 0)%Z.
Proof.
  intros Hd Hh Hm.
  pose proof (Z.div_mod d_model h ltac:(lia)) as E. rewrite Hm in E. nia.
Qed.

(** X10.  The assertion of [MultiHeadAttentionBlock.__init__] does not
    reject a negative head count: with [d_model > 0], [h < 0] and
    [d_model % h == 0] the constructor returns a block, with the negative
    [d_k = d_model // h]; every [forward] of that block on inputs of shape
    (batch, seq_len, d_model) then raises [RuntimeError], at the first
    [view]. *)
Theorem X10_negative_head_count :
  forall (d_model h : Z) (dropout : Q) (g : rng),
    (0 < d_model)%Z -> (h < 0)%Z -> (d_model mod h = 0)%Z ->
    (0 <= dropout)%Q -> (dropout <= 1)%Q ->
    exists self g',
      MultiHeadAttentionBlock.init d_model h dropout g = Ok (self, g') /\
      MultiHeadAttentionBlock.h self = h /\
      (MultiHeadAttentionBlock.d_k self < 0)%Z /\
      forall (q k v : rtensor) (mask : option itensor) (b s : nat) (g0 : rng),
        shape q = [b; s; Z.to_nat d_model] ->
        shape k = [b; s; Z.to_nat d_model] ->
        shape v = [b; s; Z.to_nat d_model] ->
        MultiHeadAttentionBlock.forward self q k v mask g0
        = Err RuntimeError.
Proof.
  intros d_model h dropout g Hd Hh Hm H0 H1.
  destruct (mha_init_ok d_model h dropout g)
    as (self & g' & E & _ & Eh & Edk & _ & Wq & Wk & Wv & _);
    [lia | exact Hm | lia | exact H0 | exact H1 |].
  pose proof (floordiv_negative d_model h Hd Hh Hm) as Hneg.
  exists self, g'. split; [exact E|]. split; [exact Eh|].
  split; [rewrite Edk; exact Hneg|].
  intros q k v mask b s g0 Sq Sk Sv.
  destruct (linear_forward_ok _ q _ _ [b; s] Wq Sq) as (Q & EQ & SQ).
  destruct (linear_forward_ok _ k _ _ [b; s] Wk Sk) as (K & EK & SK).
  destruct (linear_forward_ok _ v _ _ [b; s] Wv Sv) as (V & EV & SV).
  unfold MultiHeadAttentionBlock.forward.
  unfold bind at 1. unfold lift at 1. rewrite EQ.
  unfold bind at 1. unfold lift at 1. rewrite EK.
  unfold bind at 1. unfold lift at 1. rewrite EV.
  apply bind_err. unfold lift.
  unfold MultiHeadAttentionBlock.split_heads, shape_at. rewrite SQ.
  cbn [app nth_error rbind]. unfold view.
  rewrite Eh, Edk, infer_size_negative by assumption. reflexivity.
Qed.

Lemma X10_negative_head_count_witness :
  exists self g',
    MultiHeadAttentionBlock.init 64 (-4) default_dropout zero_rng
      = Ok (self, g') /\
    MultiHeadAttentionBlock.h self = (-4)%Z /\
    (MultiHeadAttentionBlock.d_k self < 0)%Z /\
    forall (q k v : rtensor) (mask : option itensor) (b s : nat) (g0 : rng),
      shape q = [b; s; Z.to_nat 64] ->
      shape k = [b; s; Z.to_nat 64] ->
      shape v = [b; s; Z.to_nat 64] ->
      MultiHeadAttentionBlock.forward self q k v mask g0 = Err RuntimeError.
Proof.
  destruct default_dropout_valid as [H0 H1].
  apply (X10_negative_head_count 64 (-4) default_dropout zero_rng);
    [lia | lia | reflexivity | exact H0 | exact H1].
Defined.

(** ** build_transformer: depth of the encoders, untouched 1-D parameters *)

Lemma lift_inv {A} (r : result A) g a g' :
  lift r g = Ok (a, g') -> r = Ok a /\ g' = g.
Proof.
  unfold lift. destruct r as [x|e]; [|discriminate].
  intros H. inversion H. split; reflexivity.
Qed.

Lemma repeatM_length {A} (body : M A) n :
  forall g xs g', repeatM n body g = Ok (xs, g') -> length xs = n.
Proof.
  induction n as [|n IH]; intros g xs g' H; cbn [repeatM] in H.
  - inversion H. reflexivity.
  - ok_step H. ok_step H. inversion H; subst. cbn [length].
    f_equal. eapply IH. eassumption.
Qed.

Lemma params_each_length {A} (f : A -> M A) l :
  forall g l' g', Params.each f l g = Ok (l', g') -> length l' = length l.
Proof.
  induction l as [|x l IH]; intros g l' g' H; cbn [Params.each] in H.
  - inversion H. reflexivity.
  - ok_step H. ok_step H. inversion H; subst. cbn [length].
    f_equal. eapply IH. eassumption.
Qed.

Lemma init_parameter_vector (p : rtensor) g :
  rank p <= 1 -> init_parameter p g = Ok (p, g).
Proof.
  intros Hr. unfold init_parameter.
  destruct (Nat.ltb_spec 1 (rank p)); [lia | reflexivity].
Qed.

Lemma params_layer_norm_inv n g n' g' :
  Params.layer_norm n g = Ok (n', g') ->
  rank (LayerNormalization.alpha n) <= 1 ->
  rank (LayerNormalization.bias n) <= 1 ->
  n' = n /\ g' = g.
Proof.
  intros H Ha Hb. unfold Params.layer_norm in H.
  rewrite (bind_ok _ _ _ _ _ (init_parameter_vector _ g Ha)) in H.
  rewrite (bind_ok _ _ _ _ _ (init_parameter_vector _ g Hb)) in H.
  inversion H. destruct n. split; reflexivity.
Qed.

Lemma layer_norm_init_inv features eps n :
  LayerNormalization.init features eps = Ok n ->
  n = LayerNormalization.mk eps (full [Z.to_nat features] 1%R)
        (full [Z.to_nat features] 0%R).
Proof.
  unfold LayerNormalization.init, ones, zeros. cbn [existsb].
  destruct (features <? 0)%Z; cbn; [discriminate|].
  intros H. inversion H. reflexivity.
Qed.

Lemma encoder_init_inv features layers e :
  Encoder.init features layers = Ok e ->
  Encoder.layers e = layers /\
  Encoder.norm e =
    LayerNormalization.mk LayerNormalization.default_eps
      (full [Z.to_nat features] 1%R) (full [Z.to_nat features] 0%R).
Proof.
  unfold Encoder.init. intros H.
  destruct (LayerNormalization.init features LayerNormalization.default_eps)
    as [n|err] eqn:E; [|discriminate].
  apply layer_norm_init_inv in E. cbn in H. inversion H; subst.
  split; reflexivity.
Qed.

Lemma params_encoder_inv e g e' g' :
  Params.encoder e g = Ok (e', g') ->
  rank (LayerNormalization.alpha (Encoder.norm e)) <= 1 ->
  rank (LayerNormalization.bias (Encoder.norm e)) <= 1 ->
  length (Encoder.layers e') = length (Encoder.layers e) /\
  Encoder.norm e' = Encoder.norm e.
Proof.
  unfold Params.encoder. intros H Ha Hb.
  ok_step H. ok_step H. inversion H; subst. cbn.
  split.
  - eapply params_each_length. eassumption.
  - eapply params_layer_norm_inv; eassumption.
Qed.

Lemma params_transformer_encoder m g m' g' :
  Params.transformer m g = Ok (m', g') ->
  exists g1,
    Params.encoder (Transformer.encoder m) g = Ok (Transformer.encoder m', g1).
Proof.
  unfold Params.transformer. intros H.
  ok_step H. ok_step H. ok_step H. inversion H; subst. cbn.
  eexists. eassumption.
Qed.

Lemma built_encoder features layers e g m' g' seq_embed seq_pos pl :
  Encoder.init features layers = Ok e ->
  Params.transformer (Transformer.init e seq_embed seq_pos pl) g
    = Ok (m', g') ->
  length (Encoder.layers (Transformer.encoder m')) = length layers /\
  Encoder.norm (Transformer.encoder m') =
    LayerNormalization.mk LayerNormalization.default_eps
      (full [Z.to_nat features] 1%R) (full [Z.to_nat features] 0%R).
Proof.
  intros Hi Hp. apply encoder_init_inv in Hi. destruct Hi as [Hl Hn].
  apply params_transformer_encoder in Hp. destruct Hp as [g1 Hp].
  cbn in Hp. apply params_encoder_inv in Hp.
  - destruct Hp as [Hlen Hnorm]. rewrite Hlen, Hnorm, Hl, Hn.
    split; reflexivity.
  - rewrite Hn. cbn. lia.
  - rewrite Hn. cbn. lia.
Qed.

(** X11.  Whenever [build_transformer] returns, the encoder of the first
    transformer has [N] layers (none when [N <= 0]: [range(N)] is then
    empty) and the encoder of the packet-level transformer has exactly
    one; the parameter-initialisation loops, which skip parameters of one
    dimension, leave the final [LayerNormalization] of both encoders with
    [alpha] all ones and [bias] all zeros. *)
Theorem X11_build_transformer_structure :
  forall (v sl pl c d_model N h : Z) (dropout : Q) (d_ff : Z)
         (header : bool) (g : rng) tr tp g',
    build_transformer v sl pl c d_model N h dropout d_ff header g
      = Ok ((tr, tp), g') ->
    length (Encoder.layers (Transformer.encoder tr)) = Z.to_nat N /\
    length (Encoder.layers (Transformer.encoder tp)) = 1 /\
    Encoder.norm (Transformer.encoder tr) =
      LayerNormalization.mk LayerNormalization.default_eps
        (full [Z.to_nat d_model] 1%R) (full [Z.to_nat d_model] 0%R) /\
    Encoder.norm (Transformer.encoder tp) =
      LayerNormalization.mk LayerNormalization.default_eps
        (full [Z.to_nat d_model] 1%R) (full [Z.to_nat d_model] 0%R).
Proof.
  intros v sl pl c d_model N h dropout d_ff header g tr tp g' H.
  unfold build_transformer in H.
  apply bind_inv in H. destruct H as (emb & g1 & _ & H).
  apply bind_inv in H. destruct H as (pos & g2 & _ & H).
  apply bind_inv in H. destruct H as (blocks & g3 & Hblocks & H).
  apply bind_inv in H. destruct H as (enc & g4 & Henc & H).
  apply bind_inv in H. destruct H as (proj & g5 & _ & H).
  cbv zeta in H.
  apply bind_inv in H. destruct H as (ppos & g6 & _ & H).
  apply bind_inv in H. destruct H as (pblocks & g7 & Hpblocks & H).
  apply bind_inv in H. destruct H as (penc & g8 & Hpenc & H).
  apply bind_inv in H. destruct H as (tr0 & g9 & Htr & H).
  apply bind_inv in H. destruct H as (tp0 & g10 & Htp & H).
  inversion H; subst. clear H.
  apply lift_inv in Henc. destruct Henc as [Henc _].
  apply lift_inv in Hpenc. destruct Hpenc as [Hpenc _].
  destruct (built_encoder _ _ _ _ _ _ _ _ _ Henc Htr) as [L1 N1].
  destruct (built_encoder _ _ _ _ _ _ _ _ _ Hpenc Htp) as [L2 N2].
  rewrite L1, L2, N1, N2.
  rewrite (repeatM_length _ _ _ _ _ Hblocks).
  rewrite (repeatM_length _ _ _ _ _ Hpblocks).
  repeat split; reflexivity.
Qed.

Lemma X11_build_transformer_structure_witness :
  exists tr tp g',
    build_transformer 256 150 10 2 default_d_model default_N default_h
      default_dropout default_d_ff default_header zero_rng
      = Ok ((tr, tp), g') /\
    length (Encoder.layers (Transformer.encoder tr)) = Z.to_nat default_N /\
    length (Encoder.layers (Transformer.encoder tp)) = 1 /\
    Encoder.norm (Transformer.encoder tr) =
      LayerNormalization.mk LayerNormalization.default_eps
        (full [Z.to_nat default_d_model] 1%R)
        (full [Z.to_nat default_d_model] 0%R) /\
    Encoder.norm (Transformer.encoder tp) =
      LayerNormalization.mk LayerNormalization.default_eps
        (full [Z.to_nat default_d_model] 1%R)
        (full [Z.to_nat default_d_model] 0%R).
Proof.
  destruct (build_default_ok zero_rng) as (tr & tp & g' & E & _).
  exists tr, tp, g'. split; [exact E|].
  exact (X11_build_transformer_structure _ _ _ _ _ _ _ _ _ _ _ _ _ _ E).
Defined.

(** ** explainer_model.forward *)

(** X12.  In [explainer_model.forward], when the two calls of
    [compute_emb] return embeddings of shapes (batch, d1) and (batch, d2),
    they are concatenated along the feature axis and handed to
    [model.project]: with a projection layer from [d1 + d2] features to
    [classes] the result has shape (batch, classes) and the generator is
    the one the second call left; with a projection layer of another input
    width the call raises [RuntimeError], and with a model that has no
    projection layer (built with [header=True]) it raises the [TypeError]
    of calling [None]. *)
Theorem X12_explainer_forward :
  forall (B : Type)
         (ce : Transformer.t -> Transformer.t -> itensor -> itensor -> Z ->
               rtensor -> B -> M rtensor)
         (self : explainer_model.t)
         (model header_model model_pack header_model_pack : Transformer.t)
         (seq mask seq_header seq_header_mask : itensor)
         (seq_emb header_emb : rtensor) (g g1 g2 : rng) (b d1 d2 : nat),
    ce model model_pack seq mask
      (explainer_model.BYTE_PAD_TRUNC_LENGTH (explainer_model.config self))
      (tmap sigmoid (explainer_model.mask_payload self))
      (explainer_model.baseline (explainer_model.config self)) g
      = Ok (seq_emb, g1) ->
    ce header_model header_model_pack seq_header seq_header_mask
      (explainer_model.HEADER_BYTE_PAD_TRUNC_LENGTH
         (explainer_model.config self))
      (tmap sigmoid (explainer_model.mask_header self))
      (explainer_model.baseline (explainer_model.config self)) g1
      = Ok (header_emb, g2) ->
    shape seq_emb = [b; d1] -> shape header_emb = [b; d2] ->
    (forall p classes,
        Transformer.projection_layer model = Some p ->
        shape (Linear.weight (ProjectionLayer.proj p)) = [classes; d1 + d2] ->
        exists pred,
          explainer_model.forward ce self model header_model model_pack
            header_model_pack seq mask seq_header seq_header_mask g
            = Ok (pred, g2) /\
          shape pred = [b; classes]) /\
    (forall p classes n,
        Transformer.projection_layer model = Some p ->
        shape (Linear.weight (ProjectionLayer.proj p)) = [classes; n] ->
        n <> d1 + d2 ->
        explainer_model.forward ce self model header_model model_pack
          header_model_pack seq mask seq_header seq_header_mask g
          = Err RuntimeError) /\
    (Transformer.projection_layer model = None ->
     explainer_model.forward ce self model header_model model_pack
       header_model_pack seq mask seq_header seq_header_mask g
       = Err TypeError_NoneType_not_callable).
Proof.
  intros B ce self model header_model model_pack header_model_pack
         seq mask seq_header seq_header_mask seq_emb header_emb g g1 g2
         b d1 d2 H1 H2 S1 S2.
  destruct (cat1_columns seq_emb header_emb b d1 d2 S1 S2)
    as (emb & Hcat & Semb & _).
  assert (Hrun : explainer_model.forward ce self model header_model
                   model_pack header_model_pack seq mask seq_header
                   seq_header_mask g
                 = lift (Transformer.project model emb) g2).
  { unfold explainer_model.forward.
    rewrite (bind_ok _ _ _ _ _ H1), (bind_ok _ _ _ _ _ H2).
    rewrite (bind_ok _ _ _ _ _ (lift_ok _ g2 _ Hcat)). reflexivity. }
  rewrite Hrun. unfold Transformer.project, ProjectionLayer.forward.
  split; [|split].
  - intros p classes Hp Hw. rewrite Hp.
    destruct (linear_forward_ok _ emb classes (d1 + d2) [b] Hw Semb)
      as (pred & E & Sp).
    exists pred. rewrite E. split; [reflexivity | exact Sp].
  - intros p classes n Hp Hw Hn. rewrite Hp.
    rewrite (linear_forward_mismatch _ emb classes n [b] (d1 + d2) Hw Semb)
      by congruence.
    reflexivity.
  - intros Hp. rewrite Hp. reflexivity.
Qed.

Lemma X12_explainer_forward_witness :
  exists tr tp g',
    build_transformer 256 150 10 2 default_d_model default_N default_h
      default_dropout default_d_ff default_header zero_rng
      = Ok ((tr, tp), g') /\
    exists pred,
      explainer_model.forward pooled_compute_emb initial_explainer
        tr tr tp tp one_token keep_all one_token keep_all zero_rng
        = Ok (pred, zero_rng) /\
      shape pred = [1; 2].
Proof.
  destruct (build_default_ok zero_rng) as (tr & tp & g' & E & Wtr & _).
  exists tr, tp, g'. split; [exact E|].
  destruct Wtr as (_ & _ & _ & (p & Hp & Hw)).
  apply (proj1 (X12_explainer_forward unit pooled_compute_emb
                  initial_explainer tr tr tp tp one_token keep_all
                  one_token keep_all (full [1; 64] 0%R) (full [1; 64] 0%R)
                  zero_rng zero_rng zero_rng 1 64 64
                  eq_refl eq_refl eq_refl eq_refl) p 2 Hp Hw).
Defined.

(** ** Transformer.encode *)



(** ** attention: the mask convention *)

(** X15.  In [MultiHeadAttentionBlock.attention] only the mask entries
    equal to 1 suppress a key position: with a mask of shape (b, kl) that
    holds no 1 (all zeros, say) the attention weights and the output are,
    entry by entry, those of the call with [mask = None]. *)
Theorem X15_attention_mask_convention :
  forall (query key value : rtensor) (mask : itensor)
         (b h q kl dk dv : nat) (g : rng),
    shape query = [b; h; q; dk] ->
    shape key = [b; h; kl; dk] ->
    shape value = [b; h; kl; dv] ->
    shape mask = [b; kl] ->
    (forall i0 j, i0 < b -> j < kl -> at_ mask [i0; j] <> 1%Z) ->
    exists x W x' W',
      MultiHeadAttentionBlock.attention query key value (Some mask) None g
        = Ok ((x, W), g) /\
      MultiHeadAttentionBlock.attention query key value None None g
        = Ok ((x', W'), g) /\
      shape W = shape W' /\ shape x = shape x' /\
      forall i0 i1 i, i0 < b -> i1 < h -> i < q ->
        (forall j, j < kl -> at_ W [i0; i1; i; j] = at_ W' [i0; i1; i; j]) /\
        (forall c, c < dv -> at_ x [i0; i1; i; c] = at_ x' [i0; i1; i; c]).
Proof.
  intros query key value mask b h q kl dk dv g Hq Hk Hv Hm Hfree.
  destruct (attention_scores_run query key value b h q kl dk Hq Hk)
    as (S & HS & _ & Hrun).
  destruct (mask_fill_run S mask b h q kl MultiHeadAttentionBlock.neg_1e9 g
              HS Hm) as (S' & Hfill & HS' & Hat').
  destruct (matmul_heads_at (softmax S') value b h q kl dv HS' Hv)
    as (x & Hx & Sx & Hxat).
  destruct (matmul_heads_at (softmax S) value b h q kl dv HS Hv)
    as (x' & Hx' & Sx' & Hxat').
  assert (Hsame : forall i0 i1 i j, i0 < b -> i1 < h -> i < q -> j < kl ->
             at_ S' [i0; i1; i; j] = at_ S [i0; i1; i; j]).
  { intros i0 i1 i j H0 H1 Hi Hj. rewrite (Hat' i0 i1 i j H0 H1 Hi Hj).
    destruct (Z.eqb_spec 1 (at_ mask [i0; j])) as [e|_]; [|reflexivity].
    exfalso. apply (Hfree i0 j H0 Hj). symmetry. exact e. }
  assert (HW : forall i0 i1 i j, i0 < b -> i1 < h -> i < q -> j < kl ->
             at_ (softmax S') [i0; i1; i; j] = at_ (softmax S) [i0; i1; i; j]).
  { intros i0 i1 i j H0 H1 Hi Hj.
    rewrite (softmax_at4 S' b h q kl), (softmax_at4 S b h q kl)
      by assumption.
    rewrite (Hsame i0 i1 i j H0 H1 Hi Hj). f_equal.
    apply rsum_ext. intros u Hu.
    rewrite (Hsame i0 i1 i u H0 H1 Hi Hu). reflexivity. }
  exists x, (softmax S'), x', (softmax S).
  split; [|split; [|split; [|split]]].
  - rewrite Hrun.
    rewrite (bind_ok _ (fun a => attention_tail a value None) g S' g Hfill).
    unfold attention_tail, bind, ret, lift. rewrite Hx. reflexivity.
  - rewrite Hrun. unfold bind at 1. unfold ret at 1.
    unfold attention_tail, bind, ret, lift. rewrite Hx'. reflexivity.
  - cbn [softmax shape]. congruence.
  - congruence.
  - intros i0 i1 i H0 H1 Hi. split.
    + intros j Hj. apply HW; assumption.
    + intros c _. rewrite (Hxat i0 i1 i c H0 H1), (Hxat' i0 i1 i c H0 H1).
      apply rsum_ext. intros j Hj.
      rewrite (HW i0 i1 i j H0 H1 Hi Hj). reflexivity.
Qed.

Lemma X15_attention_mask_convention_witness :
  exists x W x' W',
    MultiHeadAttentionBlock.attention one_query two_keys two_keys
      (Some mask_neither) None zero_rng = Ok ((x, W), zero_rng) /\
    MultiHeadAttentionBlock.attention one_query two_keys two_keys
      None None zero_rng = Ok ((x', W'), zero_rng) /\
    shape W = shape W' /\ shape x = shape x' /\
    forall i0 i1 i, i0 < 1 -> i1 < 1 -> i < 1 ->
      (forall j, j < 2 -> at_ W [i0; i1; i; j] = at_ W' [i0; i1; i; j]) /\
      (forall c, c < 1 -> at_ x [i0; i1; i; c] = at_ x' [i0; i1; i; c]).
Proof.
  apply (X15_attention_mask_convention one_query two_keys two_keys
           mask_neither 1 1 1 2 1 1 zero_rng);
    try reflexivity.
  intros i0 j _ _. cbn. discriminate.
Defined.

(** ** build_transformer: rejected arguments *)

Lemma dropout_init_out_of_range p :
  (p < 0)%Q \/ (1 < p)%Q -> Dropout.init p = Err ValueError.
Proof.
  intros H. unfold Dropout.init.
  destruct (Qle_bool 0 p) eqn:E0; [|reflexivity].
  destruct (Qle_bool p 1) eqn:E1; [|reflexivity].
  apply Qle_bool_iff in E0, E1. exfalso.
  destruct H as [H|H]; [apply (Qlt_not_le _ _ H E0)
                       | apply (Qlt_not_le _ _ H E1)].
Qed.

(** X16.  [build_transformer] with a valid vocabulary size and a
    non-negative [d_model] raises [ValueError] when [dropout] lies outside
    [0, 1] (from the first [nn.Dropout], in [PositionalEncoding]), and
    [ZeroDivisionError] when [d_model = 0] with a valid sequence length
    and dropout (from the division by [d_model] in
    [PositionalEncoding]), whatever the other arguments. *)
Theorem X16_build_transformer_rejects :
  forall (v sl pl c d_model N h : Z) (dropout : Q) (d_ff : Z)
         (header : bool) (g : rng),
    (0 <= v)%Z -> (0 <= d_model)%Z ->
    ((dropout < 0)%Q \/ (1 < dropout)%Q ->
     build_transformer v sl pl c d_model N h dropout d_ff header g
     = Err ValueError) /\
    (d_model = 0%Z -> (0 <= sl)%Z -> (0 <= dropout)%Q -> (dropout <= 1)%Q ->
     build_transformer v sl pl c d_model N h dropout d_ff header g
     = Err ZeroDivisionError).
Proof.
  intros v sl pl c d_model N h dropout d_ff header g Hv Hd.
  destruct (embeddings_init_ok d_model v g Hd Hv) as (e & g1 & E1 & _).
  unfold build_transformer. rewrite (bind_ok _ _ _ _ _ E1). split.
  - intros Hp. apply bind_err. unfold lift, PositionalEncoding.init.
    rewrite (dropout_init_out_of_range _ Hp). reflexivity.
  - intros -> Hsl H0 H1. apply bind_err. unfold lift.
    rewrite (pe_init_zero_width sl dropout Hsl H0 H1). reflexivity.
Qed.

Lemma X16_build_transformer_rejects_witness :
  build_transformer 256 150 10 2 default_d_model default_N default_h
    (2 # 1) default_d_ff default_header zero_rng = Err ValueError /\
  build_transformer 256 150 10 2 0 default_N default_h
    default_dropout default_d_ff default_header zero_rng
  = Err ZeroDivisionError.
Proof.
  destruct default_dropout_valid as [H0 H1].
  split.
  - apply (proj1 (X16_build_transformer_rejects 256 150 10 2
                    default_d_model default_N default_h (2 # 1)
                    default_d_ff default_header zero_rng
                    ltac:(lia) ltac:(unfold default_d_model; lia))).
    right. reflexivity.
  - apply (proj2 (X16_build_transformer_rejects 256 150 10 2 0
                    default_N default_h default_dropout
                    default_d_ff default_header zero_rng
                    ltac:(lia) ltac:(lia)));
      [reflexivity | lia | exact H0 | exact H1].
Defined.
